(** * The cr50 I2C TPM transport (src/drivers/i2c/tpm/cr50.c)

    A shallow embedding of the driver: every C function of cr50.c that the
    properties below talk about is a Rocq function of the same name over an
    explicit [world] (the chip behind the bus, the clock, the global
    [g_tpm_dev] and a log of register accesses).  The raw bus primitives,
    the delay and the stopwatch are collaborators of the driver; the bus is
    an arbitrary deterministic device, so every theorem holds for every
    chip behaviour. *)

From Stdlib Require Import ZArith List Lia Bool.
Import ListNotations.
Local Open Scope Z_scope.

(** ** Machine integers *)

(** [uint8_t]: storing into a byte keeps the low eight bits. *)
Definition u8 (z : Z) : Z := z mod 256.

(** [unsigned int], [uint32_t] and [size_t] (32 bits on the x86 targets the
    driver is built for). *)
Definition u32 (z : Z) : Z := z mod 2 ^ 32.

(** Conversion of a [size_t] to the [int] a function returns. *)
Definition to_int (z : Z) : Z := (z + 2 ^ 31) mod 2 ^ 32 - 2 ^ 31.

Definition INT_MAX : Z := 2 ^ 31 - 1.

(** ** Byte buffers *)

(** [read_le16], [read_be32] of commonlib/endian.h, and the host (little
    endian) load of four bytes into a [uint32_t]. *)
Definition read_le16 (p : list Z) : Z :=
  Z.lor (nth 0 p 0) (Z.shiftl (nth 1 p 0) 8).

Definition read_be32 (p : list Z) : Z :=
  Z.lor (Z.shiftl (nth 0 p 0) 24)
    (Z.lor (Z.shiftl (nth 1 p 0) 16)
       (Z.lor (Z.shiftl (nth 2 p 0) 8) (nth 3 p 0))).

Definition read_le32 (p : list Z) : Z :=
  Z.lor (nth 0 p 0)
    (Z.lor (Z.shiftl (nth 1 p 0) 8)
       (Z.lor (Z.shiftl (nth 2 p 0) 16) (Z.shiftl (nth 3 p 0) 24))).

(** What a bus read leaves in a [len]-byte buffer: exactly [len] bytes. *)
Definition fill (len : Z) (data : list Z) : list Z :=
  map u8 (firstn (Z.to_nat len) (data ++ repeat 0 (Z.to_nat len))).

(** Storing [data] at offset [off] of a buffer ([buf + off] as the
    destination pointer).  Bytes stored past the end extend the list: the
    model keeps what the C code writes there. *)
Definition write_at (buf : list Z) (off : Z) (data : list Z) : list Z :=
  let o := Z.to_nat off in
  firstn o (buf ++ repeat 0 o) ++ data ++ skipn (o + length data) buf.

(** ** Constants of cr50.c *)

Definition CR50_MAX_BUFSIZE : Z := 63.
Definition CR50_TIMEOUT_LONG_MS : Z := 2000.
Definition CR50_TIMEOUT_SHORT_MS : Z := 2.
Definition CR50_DID_VID : Z := 0x00281ae0.

(** ** tpm.h

    The header is not part of the sources at hand, so its register macros
    and bit constants are parameters of the development. *)
Class tpm_h := {
  TPM_ACCESS : Z -> Z;
  TPM_STS : Z -> Z;
  TPM_DATA_FIFO : Z -> Z;
  TPM_DID_VID : Z -> Z;
  TPM_ACCESS_VALID : Z;
  TPM_ACCESS_ACTIVE_LOCALITY : Z;
  TPM_ACCESS_REQUEST_PENDING : Z;
  TPM_ACCESS_REQUEST_USE : Z;
  TPM_STS_VALID : Z;
  TPM_STS_COMMAND_READY : Z;
  TPM_STS_GO : Z;
  TPM_STS_DATA_AVAIL : Z;
  TPM_STS_DATA_EXPECT : Z;
  TPM_HEADER_SIZE : Z;
  TPM_RSP_SIZE_BYTE : Z;
  TPM_TIMEOUT : Z
}.

(** [struct tpm_chip], the fields cr50.c touches.  The four function
    pointers of [vendor] are bound to the functions below and are not
    stored. *)
Record tpm_vendor_specific := {
  locality : Z;
  irq : Z;
  req_complete_mask : Z;
  req_complete_val : Z;
  req_canceled : Z
}.

Record tpm_chip := {
  is_open : Z;
  vendor : tpm_vendor_specific
}.

Definition set_locality (loc : Z) (chip : tpm_chip) : tpm_chip :=
  {| is_open := is_open chip;
     vendor := {| locality := loc;
                  irq := irq (vendor chip);
                  req_complete_mask := req_complete_mask (vendor chip);
                  req_complete_val := req_complete_val (vendor chip);
                  req_canceled := req_canceled (vendor chip) |} |}.

Definition set_is_open (v : Z) (chip : tpm_chip) : tpm_chip :=
  {| is_open := v; vendor := vendor chip |}.

(** ** The bus

    [i2c_write_raw] and [i2c_read_raw] of device/i2c.h: a transaction
    changes the state of the device, returns a status (zero is success)
    and, for a read, the bytes received. *)
Class i2c_bus (Dev : Type) := {
  i2c_write_raw : Dev -> Z -> Z -> list Z -> Dev * Z;
  i2c_read_raw : Dev -> Z -> Z -> Z -> Dev * Z * list Z
}.

(** ** The world *)

(** [struct tpm_inf_dev]. *)
Record tpm_inf_dev := {
  tpm_bus : Z;
  tpm_addr : Z;
  tpm_buf : list Z
}.

(** The log has one entry per call of [iic_tpm_read] and [iic_tpm_write]:
    the register, the length asked for, the result and the bytes moved. *)
Inductive event :=
| EvRead (reg len ret : Z) (data : list Z)
| EvWrite (reg len ret : Z) (data : list Z).

Definition is_write (e : event) : bool :=
  match e with EvWrite _ _ _ _ => true | EvRead _ _ _ _ => false end.

(** The register writes of a log. *)
Definition writes (tr : list event) : list event := filter is_write tr.

Definition is_read_of (reg len : Z) (e : event) : bool :=
  match e with
  | EvRead r l _ _ => (r =? reg) && (l =? len)
  | EvWrite _ _ _ _ => false
  end.

(** A log entry that ends a burst/status wait for [mask]: a successful
    read whose first byte has every bit of [mask] and whose bytes 1 and 2
    give a burst count in (0, 63]. *)
Definition qualifies (mask : Z) (e : event) : bool :=
  match e with
  | EvRead _ _ ret data =>
      (ret =? 0)
      && ((Z.land (nth 0 data 0) mask =? mask)
          && (read_le16 (skipn 1 data) >? 0)
          && (read_le16 (skipn 1 data) <=? CR50_MAX_BUFSIZE))
  | EvWrite _ _ _ _ => false
  end.

(** The status byte [cr50_tis_i2c_status] makes of a register read. *)
Definition status_byte (ret : Z) (data : list Z) : Z :=
  if ret <? 0 then 0 else nth 0 data 0.

(** How a failed send leaves the log: its last status read, and after it
    the ready write (the cancel) when that read showed command-ready. *)
Definition ends_cancelled (sts ready : Z) (tr : list event) : Prop :=
  exists pre r data,
    (Z.land (status_byte r data) ready = 0
     /\ tr = pre ++ [EvRead sts 4 r data])
    \/ (Z.land (status_byte r data) ready <> 0
        /\ exists rw,
            tr = pre ++ [EvRead sts 4 r data;
                         EvWrite sts 4 rw [u8 ready; 0; 0; 0]]).

Definition total (l : list Z) : Z := fold_right Z.add 0 l.

(** Rounds of the command-ready loop against a bus that fails: a failed
    status read, then a ready write with result [rw], once per element. *)
Definition ready_rounds (sts ready : Z) (rws : list Z) : list event :=
  flat_map (fun rw => [EvRead sts 4 (-1) [];
                       EvWrite sts 4 rw [u8 ready; 0; 0; 0]]) rws.

Definition no_qualifying (mask : Z) (tr : list event) : Prop :=
  forallb (fun e => negb (qualifies mask e)) tr = true.

(** The bytes that successful reads of register [reg] brought in, and the
    bytes that successful writes to it took out, in the order of the
    log. *)
Definition read_from (reg : Z) (tr : list event) : list Z :=
  flat_map (fun e => match e with
                     | EvRead r _ ret d =>
                         if (r =? reg) && (ret =? 0) then d else []
                     | EvWrite _ _ _ _ => []
                     end) tr.

Definition written_to (reg : Z) (tr : list event) : list Z :=
  flat_map (fun e => match e with
                     | EvWrite r _ ret d =>
                         if (r =? reg) && (ret =? 0) then d else []
                     | EvRead _ _ _ _ => []
                     end) tr.

Definition is_read (e : event) : bool := negb (is_write e).

(** The lengths asked of register [reg] by the reads of a log, one per
    read, failed reads included. *)
Definition asked_of (reg : Z) (tr : list event) : list Z :=
  flat_map (fun e => match e with
                     | EvRead r l _ _ => if r =? reg then [l] else []
                     | EvWrite _ _ _ _ => []
                     end) tr.

(** A log entry about register [reg]. *)
Definition at_reg (reg : Z) (e : event) : bool :=
  match e with
  | EvRead r _ _ _ => r =? reg
  | EvWrite r _ _ _ => r =? reg
  end.

(** A log entry that shows some bit of [bits]: a successful read whose
    first byte has one. *)
Definition shows (bits : Z) (e : event) : bool :=
  match e with
  | EvRead _ _ ret data =>
      (ret =? 0) && negb (Z.land (nth 0 data 0) bits =? 0)
  | EvWrite _ _ _ _ => false
  end.

(** A log entry that shows every bit of [bits]: a successful read whose
    first byte has them all. *)
Definition shows_all (bits : Z) (e : event) : bool :=
  match e with
  | EvRead _ _ ret data =>
      (ret =? 0) && (Z.land (nth 0 data 0) bits =? bits)
  | EvWrite _ _ _ _ => false
  end.

Section Driver.

Context {H : tpm_h} {Dev : Type} {B : i2c_bus Dev}.

Record world := {
  hw : Dev;                 (* the chip behind the bus *)
  clock : Z;                (* monotonic time, in microseconds *)
  g_tpm_dev : tpm_inf_dev;
  trace : list event
}.

Definition set_hw (d : Dev) (w : world) : world :=
  {| hw := d; clock := clock w; g_tpm_dev := g_tpm_dev w; trace := trace w |}.

Definition set_tpm_dev (t : tpm_inf_dev) (w : world) : world :=
  {| hw := hw w; clock := clock w; g_tpm_dev := t; trace := trace w |}.

Definition log (e : event) (w : world) : world :=
  {| hw := hw w; clock := clock w; g_tpm_dev := g_tpm_dev w;
     trace := trace w ++ [e] |}.

(** Modelled from the spec: the delay primitive of delay.h, which is not
    part of the sources ("millisecond delay", "a synchronous
    spin/count-down").  Time advances in [mdelay] only; a bus transaction
    itself takes no time in this model. *)
Definition mdelay (msecs : Z) (w : world) : world :=
  {| hw := hw w; clock := clock w + 1000 * u32 msecs;
     g_tpm_dev := g_tpm_dev w; trace := trace w |}.

(** Modelled from the spec: the stopwatch of timer.h, which is not part of
    the sources ("monotonic stopwatch with expired()").  A stopwatch is the
    time at which it expires. *)
Definition stopwatch_init_msecs_expire (ms : Z) (w : world) : Z :=
  clock w + 1000 * ms.

Definition stopwatch_expired (expires : Z) (w : world) : bool :=
  expires <=? clock w.

(** ** Register transport *)

Definition iic_tpm_read (addr len : Z) (w : world) : Z * list Z * world :=
  let tpm_dev := g_tpm_dev w in
  if tpm_addr tpm_dev =? 0 then (-1, [], log (EvRead addr len (-1) []) w)
  else
    (* Send the register address byte to the TPM *)
    let '(d1, r1) :=
      i2c_write_raw (hw w) (tpm_bus tpm_dev) (tpm_addr tpm_dev) [addr] in
    let w1 := set_hw d1 w in
    if negb (r1 =? 0) then (-1, [], log (EvRead addr len (-1) []) w1)
    else
      (* Wait for TPM to be ready with response data *)
      let w2 := mdelay CR50_TIMEOUT_SHORT_MS w1 in
      (* Read response data from the TPM *)
      let '(d2, r2, data) :=
        i2c_read_raw (hw w2) (tpm_bus tpm_dev) (tpm_addr tpm_dev) len in
      let w3 := set_hw d2 w2 in
      if negb (r2 =? 0) then (-1, [], log (EvRead addr len (-1) []) w3)
      else (0, fill len data, log (EvRead addr len 0 (fill len data)) w3).

(** [iic_tpm_read] with the caller's buffer: the result, what the call
    leaves in [buffer], and the world.  A successful call stores the [len]
    bytes read at the start of the buffer.  A call that fails in the bus
    read leaves there what the bus primitive stored before it failed, at
    most [len] bytes; a call that fails before the bus read does not touch
    the buffer.  The world and the log entry are those of [iic_tpm_read]. *)
Definition iic_tpm_read_into (addr : Z) (buffer : list Z) (len : Z)
  (w : world) : Z * list Z * world :=
  let tpm_dev := g_tpm_dev w in
  if tpm_addr tpm_dev =? 0
  then (-1, buffer, log (EvRead addr len (-1) []) w)
  else
    (* Send the register address byte to the TPM *)
    let '(d1, r1) :=
      i2c_write_raw (hw w) (tpm_bus tpm_dev) (tpm_addr tpm_dev) [addr] in
    let w1 := set_hw d1 w in
    if negb (r1 =? 0) then (-1, buffer, log (EvRead addr len (-1) []) w1)
    else
      (* Wait for TPM to be ready with response data *)
      let w2 := mdelay CR50_TIMEOUT_SHORT_MS w1 in
      (* Read response data from the TPM *)
      let '(d2, r2, data) :=
        i2c_read_raw (hw w2) (tpm_bus tpm_dev) (tpm_addr tpm_dev) len in
      let w3 := set_hw d2 w2 in
      if negb (r2 =? 0)
      then (-1, write_at buffer 0 (map u8 (firstn (Z.to_nat len) data)),
            log (EvRead addr len (-1) []) w3)
      else (0, write_at buffer 0 (fill len data),
            log (EvRead addr len 0 (fill len data)) w3).

Definition iic_tpm_write (addr : Z) (buffer : list Z) (len : Z) (w : world)
  : Z * world :=
  let tpm_dev := g_tpm_dev w in
  let payload := firstn (Z.to_nat len) buffer in
  if tpm_addr tpm_dev =? 0 then (-1, log (EvWrite addr len (-1) payload) w)
  else if len >? CR50_MAX_BUFSIZE
  then (-1, log (EvWrite addr len (-1) payload) w)
  else
    (* Prepend the 'register address' to the buffer *)
    let buf' := addr :: payload ++ skipn (S (length payload)) (tpm_buf tpm_dev) in
    let w1 := set_tpm_dev {| tpm_bus := tpm_bus tpm_dev;
                             tpm_addr := tpm_addr tpm_dev;
                             tpm_buf := buf' |} w in
    (* Send write request buffer with address *)
    let '(d1, r1) :=
      i2c_write_raw (hw w1) (tpm_bus tpm_dev) (tpm_addr tpm_dev)
        (firstn (Z.to_nat (len + 1)) buf') in
    let w2 := set_hw d1 w1 in
    if negb (r1 =? 0) then (-1, log (EvWrite addr len (-1) payload) w2)
    else
      (* Wait for TPM to be ready *)
      (0, log (EvWrite addr len 0 payload) (mdelay CR50_TIMEOUT_SHORT_MS w2)).

(** ** Locality manager *)

Definition check_locality (chip : tpm_chip) (loc : Z) (w : world)
  : Z * tpm_chip * world :=
  let '(ret, data, w1) := iic_tpm_read (u8 (TPM_ACCESS loc)) 1 w in
  if ret <? 0 then (-1, chip, w1)
  else
    let buf := nth 0 data 0 in
    if Z.land buf (Z.lor TPM_ACCESS_ACTIVE_LOCALITY TPM_ACCESS_VALID)
       =? Z.lor TPM_ACCESS_ACTIVE_LOCALITY TPM_ACCESS_VALID
    then (loc, set_locality loc chip, w1)
    else (-1, chip, w1).

Definition release_locality (chip : tpm_chip) (loc force : Z) (w : world)
  : world :=
  let '(ret, data, w1) := iic_tpm_read (u8 (TPM_ACCESS loc)) 1 w in
  if ret <? 0 then w1
  else
    let buf := nth 0 data 0 in
    if negb (force =? 0)
       || (Z.land buf (Z.lor TPM_ACCESS_REQUEST_PENDING TPM_ACCESS_VALID)
           =? Z.lor TPM_ACCESS_REQUEST_PENDING TPM_ACCESS_VALID)
    then
      snd (iic_tpm_write (u8 (TPM_ACCESS loc))
             [u8 TPM_ACCESS_ACTIVE_LOCALITY] 1 w1)
    else w1.

(** The [while (timeout)] loop of [request_locality]; [timeout] counts
    down from 2000. *)
Fixpoint request_locality_loop (timeout : nat) (chip : tpm_chip) (loc : Z)
  (w : world) : Z * tpm_chip * world :=
  match timeout with
  | O => (-1, chip, w)
  | S timeout' =>
      let '(r, chip1, w1) := check_locality chip loc w in
      if r >=? 0 then (loc, chip1, w1)
      else request_locality_loop timeout' chip1 loc (mdelay TPM_TIMEOUT w1)
  end.

Definition request_locality (chip : tpm_chip) (loc : Z) (w : world)
  : Z * tpm_chip * world :=
  let '(r, chip1, w1) := check_locality chip loc w in
  if r >=? 0 then (loc, chip1, w1) (* we already have the locality *)
  else
    let w2 := snd (iic_tpm_write (u8 (TPM_ACCESS loc))
                     [u8 TPM_ACCESS_REQUEST_USE] 1 w1) in
    request_locality_loop (2 * 1000) chip1 loc w2.

(** ** Status poller *)

(* cr50 requires all 4 bytes of status register to be read *)
Definition cr50_tis_i2c_status (chip : tpm_chip) (w : world) : Z * world :=
  let '(ret, buf, w1) :=
    iic_tpm_read (u8 (TPM_STS (locality (vendor chip)))) 4 w in
  if ret <? 0 then (0, w1) else (nth 0 buf 0, w1).

(* cr50 requires all 4 bytes of status register to be written *)
Definition cr50_tis_i2c_ready (chip : tpm_chip) (w : world) : world :=
  let buf := [u8 TPM_STS_COMMAND_READY; 0; 0; 0] in
  mdelay CR50_TIMEOUT_SHORT_MS
    (snd (iic_tpm_write (u8 (TPM_STS (locality (vendor chip)))) buf 4 w)).

(** The [while (!stopwatch_expired(&sw))] loop of
    [cr50_wait_burst_status].  The result is the return value, [*status],
    [*burst] and the world; [None] is a loop cut off by [fuel].  On a
    timeout the two outputs are not meaningful (no caller reads them). *)
Fixpoint cr50_wait_burst_status_loop (fuel : nat) (chip : tpm_chip)
  (mask : Z) (sw : Z) (w : world) : option (Z * Z * Z * world) :=
  match fuel with
  | O => None
  | S fuel' =>
      if stopwatch_expired sw w then Some (-1, 0, 0, w)
      else
        let '(ret, buf, w1) :=
          iic_tpm_read (u8 (TPM_STS (locality (vendor chip)))) 4 w in
        if negb (ret =? 0)
        then cr50_wait_burst_status_loop fuel' chip mask sw
               (mdelay CR50_TIMEOUT_SHORT_MS w1)
        else
          let status := nth 0 buf 0 in
          let burst := read_le16 (skipn 1 buf) in
          (* Check if mask matches and burst is valid *)
          if (Z.land status mask =? mask)
             && (burst >? 0) && (burst <=? CR50_MAX_BUFSIZE)
          then Some (0, status, burst, w1)
          else cr50_wait_burst_status_loop fuel' chip mask sw
                 (mdelay CR50_TIMEOUT_SHORT_MS w1)
  end.

Definition cr50_wait_burst_status (fuel : nat) (chip : tpm_chip) (mask : Z)
  (w : world) : option (Z * Z * Z * world) :=
  let sw := stopwatch_init_msecs_expire CR50_TIMEOUT_LONG_MS w in
  cr50_wait_burst_status_loop fuel chip (u8 mask) sw w.

(** ** Transfer engine: receive *)

(** The [while (current < expected)] loop of [cr50_tis_i2c_recv].  The
    result says whether the loop ran to its end ([true]) or left through
    [goto out], and gives the buffer, [current] and the world.  [rounds]
    cuts the loop off, [fuel] is for the waits inside. *)
Fixpoint recv_loop (rounds fuel : nat) (chip : tpm_chip) (addr : Z)
  (buf : list Z) (current expected : Z) (w : world)
  : option (bool * list Z * Z * world) :=
  match rounds with
  | O => None
  | S rounds' =>
      if current <? expected then
        (* Read updated burst count and check status *)
        match cr50_wait_burst_status fuel chip TPM_STS_VALID w with
        | None => None
        | Some (r, status, burstcnt, w1) =>
            if r <? 0 then Some (false, buf, current, w1)
            else if Z.land status TPM_STS_DATA_AVAIL =? 0
            then Some (false, buf, current, w1)
            else
              let len := Z.min burstcnt (u32 (expected - current)) in
              let '(r2, data, w2) := iic_tpm_read addr len w1 in
              if negb (r2 =? 0) then Some (false, buf, current, w2)
              else recv_loop rounds' fuel chip addr
                     (write_at buf current data)
                     (u32 (current + len)) expected w2
        end
      else Some (true, buf, current, w)
  end.

(** A failed register read leaves in the caller's buffer what the bus
    primitive left there; the model keeps the buffer as it was (no caller
    reads it after a failure). *)
Definition cr50_tis_i2c_recv (fuel : nat) (chip : tpm_chip) (buf : list Z)
  (buf_len : Z) (w : world) : option (Z * list Z * world) :=
  let addr := u8 (TPM_DATA_FIFO (locality (vendor chip))) in
  if buf_len <? TPM_HEADER_SIZE then Some (-1, buf, w)
  else
    match cr50_wait_burst_status fuel chip TPM_STS_VALID w with
    | None => None
    | Some (r, status, burstcnt, w1) =>
        if r <? 0 then Some (-1, buf, w1)
        else if Z.land status TPM_STS_DATA_AVAIL =? 0 then Some (-1, buf, w1)
        else
          (* Read first chunk of burstcnt bytes *)
          let '(r2, data, w2) := iic_tpm_read addr burstcnt w1 in
          if negb (r2 =? 0) then Some (-1, buf, w2)
          else
            let buf1 := write_at buf 0 data in
            (* Determine expected data in the return buffer *)
            let expected :=
              read_be32 (skipn (Z.to_nat TPM_RSP_SIZE_BYTE) buf1) in
            if expected >? buf_len then Some (-1, buf1, w2)
            else
              (* Now read the rest of the data *)
              match recv_loop fuel fuel chip addr buf1 burstcnt expected w2
              with
              | None => None
              | Some (false, buf2, _, w3) => Some (-1, buf2, w3)
              | Some (true, buf2, current, w3) =>
                  (* Ensure TPM is done reading data *)
                  match cr50_wait_burst_status fuel chip TPM_STS_VALID w3 with
                  | None => None
                  | Some (r3, status3, _, w4) =>
                      if r3 <? 0 then Some (-1, buf2, w4)
                      else if negb (Z.land status3 TPM_STS_DATA_AVAIL =? 0)
                      then Some (-1, buf2, w4)
                      else Some (to_int current, buf2, w4)
                  end
              end
    end.

(** The rest of a receive, told step by step: from [w], with [current]
    bytes in the buffer and [expected] to reach, each step waits for a
    valid status with data-available and a burst count [b], and reads
    [Z.min b (expected - current)] bytes from the data FIFO to the buffer
    at [current].  The list gives, per step, the burst count and the
    chunk. *)
Inductive recv_chunks (fuel : nat) (chip : tpm_chip) (addr : Z)
  : list Z -> Z -> Z -> world -> list (Z * Z) -> list Z -> world -> Prop :=
| recv_chunks_done buf current expected w :
    expected <= current ->
    recv_chunks fuel chip addr buf current expected w [] buf w
| recv_chunks_step buf current expected w st b w1 data w2 rest buf' w' :
    current < expected ->
    cr50_wait_burst_status fuel chip TPM_STS_VALID w = Some (0, st, b, w1) ->
    Z.land st TPM_STS_DATA_AVAIL <> 0 ->
    1 <= b <= CR50_MAX_BUFSIZE ->
    iic_tpm_read addr (Z.min b (expected - current)) w1 = (0, data, w2) ->
    recv_chunks fuel chip addr (write_at buf current data)
      (current + Z.min b (expected - current)) expected w2 rest buf' w' ->
    recv_chunks fuel chip addr buf current expected w
      ((b, Z.min b (expected - current)) :: rest) buf' w'.

(** ** Transfer engine: send *)

(** The command-ready loop of [cr50_tis_i2c_send]: [true] when the chip
    shows [TPM_STS_COMMAND_READY], [false] on the timeout. *)
Fixpoint send_ready_loop (fuel : nat) (chip : tpm_chip) (sw : Z)
  (w : world) : option (bool * world) :=
  match fuel with
  | O => None
  | S fuel' =>
      let '(s, w1) := cr50_tis_i2c_status chip w in
      if negb (Z.land s TPM_STS_COMMAND_READY =? 0) then Some (true, w1)
      else if stopwatch_expired sw w1 then Some (false, w1)
      else send_ready_loop fuel' chip sw (cr50_tis_i2c_ready chip w1)
  end.

(** The [while (len > 0)] loop: [true] when all bytes went out, [false]
    for [goto out]; with it [sent] and the world.  [rounds] cuts the loop
    off, [fuel] is for the waits inside. *)
Fixpoint send_loop (rounds fuel : nat) (chip : tpm_chip) (buf : list Z)
  (sent len : Z) (w : world) : option (bool * Z * world) :=
  match rounds with
  | O => None
  | S rounds' =>
      if len >? 0 then
        (* Read burst count and check status *)
        match cr50_wait_burst_status fuel chip TPM_STS_VALID w with
        | None => None
        | Some (r, status, burstcnt, w1) =>
            if r <? 0 then Some (false, sent, w1)
            else if (sent >? 0) && (Z.land status TPM_STS_DATA_EXPECT =? 0)
            then Some (false, sent, w1)
            else
              (* Use burstcnt - 1 to account for the address byte
                 that is inserted by iic_tpm_write() *)
              let limit := Z.min (u32 (burstcnt - 1)) len in
              let '(r2, w2) :=
                iic_tpm_write (u8 (TPM_DATA_FIFO (locality (vendor chip))))
                  (skipn (Z.to_nat sent) buf) limit w1 in
              if negb (r2 =? 0) then Some (false, sent, w2)
              else send_loop rounds' fuel chip buf (u32 (sent + limit))
                     (u32 (len - limit)) w2
        end
      else Some (true, sent, w)
  end.

(** The code at the label [out]. *)
Definition send_out (chip : tpm_chip) (w : world) : world :=
  (* Abort current transaction if still pending *)
  let '(s, w1) := cr50_tis_i2c_status chip w in
  if negb (Z.land s TPM_STS_COMMAND_READY =? 0)
  then cr50_tis_i2c_ready chip w1
  else w1.

Definition cr50_tis_i2c_send (fuel : nat) (chip : tpm_chip) (buf : list Z)
  (len : Z) (w : world) : option (Z * world) :=
  let tpm_go := [u8 TPM_STS_GO; 0; 0; 0] in
  let sw := stopwatch_init_msecs_expire CR50_TIMEOUT_LONG_MS w in
  (* Wait until TPM is ready for a command *)
  match send_ready_loop fuel chip sw w with
  | None => None
  | Some (false, w0) => Some (-1, w0)
  | Some (true, w0) =>
      match send_loop fuel fuel chip buf 0 len w0 with
      | None => None
      | Some (false, _, w1) => Some (-1, send_out chip w1)
      | Some (true, sent, w1) =>
          (* Ensure TPM is not expecting more data *)
          match cr50_wait_burst_status fuel chip TPM_STS_VALID w1 with
          | None => None
          | Some (r, status, _, w2) =>
              if r <? 0 then Some (-1, send_out chip w2)
              else if negb (Z.land status TPM_STS_DATA_EXPECT =? 0)
              then Some (-1, send_out chip w2)
              else
                (* Start the TPM command *)
                let '(r2, w3) :=
                  iic_tpm_write (u8 (TPM_STS (locality (vendor chip))))
                    tpm_go 4 w2 in
                if r2 <? 0 then Some (-1, send_out chip w3)
                else Some (to_int sent, w3)
          end
      end
  end.

(** A send in chunks, told step by step: from [w], with [sent] bytes out
    and [len] to go, each step waits for a valid status with a burst count
    [b] and writes the next [Z.min (b - 1) len] bytes of the buffer to the
    data FIFO.  The list gives, per step, the burst count and the chunk. *)
Inductive send_chunks (fuel : nat) (chip : tpm_chip) (buf : list Z)
  : Z -> Z -> world -> list (Z * Z) -> world -> Prop :=
| send_chunks_done sent w :
    send_chunks fuel chip buf sent 0 w [] w
| send_chunks_step sent len w st b w1 w2 rest w' :
    0 < len ->
    cr50_wait_burst_status fuel chip TPM_STS_VALID w = Some (0, st, b, w1) ->
    1 <= b <= CR50_MAX_BUFSIZE ->
    iic_tpm_write (u8 (TPM_DATA_FIFO (locality (vendor chip))))
      (skipn (Z.to_nat sent) buf) (Z.min (b - 1) len) w1 = (0, w2) ->
    send_chunks fuel chip buf (sent + Z.min (b - 1) len)
      (len - Z.min (b - 1) len) w2 rest w' ->
    send_chunks fuel chip buf sent len w ((b, Z.min (b - 1) len) :: rest) w'.

(** ** Device lifecycle *)

Definition cr50_vendor_init (chip : tpm_chip) : tpm_chip :=
  {| is_open := is_open chip;
     vendor := {| locality := 0;
                  irq := 0;
                  req_complete_mask :=
                    Z.lor TPM_STS_DATA_AVAIL TPM_STS_VALID;
                  req_complete_val :=
                    Z.lor TPM_STS_DATA_AVAIL TPM_STS_VALID;
                  req_canceled := TPM_STS_COMMAND_READY |} |}.

Definition set_irq (v : Z) (chip : tpm_chip) : tpm_chip :=
  {| is_open := is_open chip;
     vendor := {| locality := locality (vendor chip);
                  irq := v;
                  req_complete_mask := req_complete_mask (vendor chip);
                  req_complete_val := req_complete_val (vendor chip);
                  req_canceled := req_canceled (vendor chip) |} |}.

(** The four bytes of the identity register are loaded into a [uint32_t]
    through a byte pointer: a little-endian load on the hosts coreboot
    runs on. *)
Definition tpm_vendor_init (chip : tpm_chip) (bus dev_addr : Z) (w : world)
  : Z * tpm_chip * world :=
  if dev_addr =? 0 then (-1, chip, w)
  else
    let w0 := set_tpm_dev {| tpm_bus := bus; tpm_addr := dev_addr;
                             tpm_buf := tpm_buf (g_tpm_dev w) |} w in
    let chip1 := cr50_vendor_init chip in
    (* Disable interrupts (not supported) *)
    let chip2 := set_irq 0 chip1 in
    let '(r, chip3, w1) := request_locality chip2 0 w0 in
    if negb (r =? 0) then (-1, chip3, w1)
    else
      (* Read four bytes from DID_VID register *)
      let '(r2, data, w2) := iic_tpm_read (u8 (TPM_DID_VID 0)) 4 w1 in
      if r2 <? 0 then (-1, chip3, release_locality chip3 0 1 w2)
      else
        let vendor := read_le32 data in
        if negb (vendor =? CR50_DID_VID)
        then (-1, chip3, release_locality chip3 0 1 w2)
        else (0, set_is_open 1 chip3, w2).

Definition tpm_vendor_cleanup (chip : tpm_chip) (w : world) : world :=
  release_locality chip (locality (vendor chip)) 1 w.

(** The [do ... while (!stopwatch_expired(&sw))] loop of
    [tpm_vendor_probe]; the result is the byte in [buf] and the world.
    The byte is read into [&buf] by every call, also by one that fails:
    the code tests [buf] after the loop without looking at [ret]. *)
Fixpoint tpm_vendor_probe_loop (fuel : nat) (sw : Z) (buf : Z) (w : world)
  : option (Z * world) :=
  match fuel with
  | O => None
  | S fuel' =>
      let '(ret, buffer, w1) :=
        iic_tpm_read_into (u8 (TPM_ACCESS 0)) [buf] 1 w in
      let buf1 := nth 0 buffer 0 in
      if (ret =? 0) && negb (Z.land buf1 TPM_STS_VALID =? 0)
      then Some (buf1, w1)
      else
        let w2 := mdelay CR50_TIMEOUT_SHORT_MS w1 in
        if stopwatch_expired sw w2 then Some (buf1, w2)
        else tpm_vendor_probe_loop fuel' sw buf1 w2
  end.

Definition tpm_vendor_probe (fuel : nat) (bus addr : Z) (w : world)
  : option (Z * world) :=
  let w0 := set_tpm_dev {| tpm_bus := bus; tpm_addr := addr;
                           tpm_buf := tpm_buf (g_tpm_dev w) |} w in
  (* Wait for TPM_ACCESS register ValidSts bit to be set *)
  let sw := stopwatch_init_msecs_expire CR50_TIMEOUT_LONG_MS w0 in
  match tpm_vendor_probe_loop fuel sw 0 w0 with
  | None => None
  | Some (buf, w1) =>
      (* Claim failure if the ValidSts (bit 7) is clear *)
      if Z.land buf TPM_STS_VALID =? 0 then Some (-1, w1) else Some (0, w1)
  end.

End Driver.

Arguments world : clear implicits.

(** * A bench: concrete header values and a scripted chip

    The theorems below are stated for every [tpm_h] and every bus.  To run
    the driver the bench fixes the header to the values of the TCG TIS
    register interface and puts a scripted chip behind the bus: each bus
    read takes the next entry of [script] (status and bytes), and [idle]
    once the script is used up; every bus write returns [wr]. *)
Module Bench.

#[export] Instance tis : tpm_h := {|
  TPM_ACCESS := fun l => Z.lor 0x0000 (Z.shiftl l 4);
  TPM_STS := fun l => Z.lor 0x0001 (Z.shiftl l 4);
  TPM_DATA_FIFO := fun l => Z.lor 0x0005 (Z.shiftl l 4);
  TPM_DID_VID := fun l => Z.lor 0x0006 (Z.shiftl l 4);
  TPM_ACCESS_VALID := 0x80;
  TPM_ACCESS_ACTIVE_LOCALITY := 0x20;
  TPM_ACCESS_REQUEST_PENDING := 0x04;
  TPM_ACCESS_REQUEST_USE := 0x02;
  TPM_STS_VALID := 0x80;
  TPM_STS_COMMAND_READY := 0x40;
  TPM_STS_GO := 0x20;
  TPM_STS_DATA_AVAIL := 0x10;
  TPM_STS_DATA_EXPECT := 0x08;
  TPM_HEADER_SIZE := 10;
  TPM_RSP_SIZE_BYTE := 2;
  TPM_TIMEOUT := 1
|}.

Record chip_sim := {
  script : list (Z * list Z);
  idle : Z * list Z;
  wr : Z
}.

Definition sim_write (d : chip_sim) (bus addr : Z) (data : list Z)
  : chip_sim * Z := (d, wr d).

Definition sim_read (d : chip_sim) (bus addr len : Z)
  : chip_sim * Z * list Z :=
  match script d with
  | [] => (d, fst (idle d), snd (idle d))
  | (r, x) :: s => ({| script := s; idle := idle d; wr := wr d |}, r, x)
  end.

#[export] Instance sim_bus : i2c_bus chip_sim := {|
  i2c_write_raw := sim_write;
  i2c_read_raw := sim_read
|}.

(** A bus on which every transaction fails, whatever is behind it. *)
#[export] Instance dead_bus : i2c_bus unit := {|
  i2c_write_raw := fun d _ _ _ => (d, 1);
  i2c_read_raw := fun d _ _ _ => (d, 1, [])
|}.

(** A world at time zero with the chip at address 0x50 of bus 0. *)
Definition boot {Dev : Type} (d : Dev) : world Dev :=
  {| hw := d; clock := 0;
     g_tpm_dev := {| tpm_bus := 0; tpm_addr := 0x50; tpm_buf := repeat 0 64 |};
     trace := [] |}.

(** A chip context before [tpm_vendor_init], and the one it binds. *)
Definition blank : tpm_chip :=
  {| is_open := 0;
     vendor := {| locality := 0; irq := 0; req_complete_mask := 0;
                  req_complete_val := 0; req_canceled := 0 |} |}.

Definition chip0 : tpm_chip := cr50_vendor_init blank.

(** The world a run ends in. *)
Definition world_of {A Dev : Type} (o : option (A * world Dev))
  (otherwise : world Dev) : world Dev :=
  match o with Some (_, w) => w | None => otherwise end.

(** A chip that answers on the bus but never shows anything: every read
    succeeds and returns zero bytes. *)
Definition silent : chip_sim := {| script := []; idle := (0, [0]); wr := 0 |}.

(** A scripted chip on a bus where every transaction fails. *)
Definition dead : chip_sim := {| script := []; idle := (1, []); wr := 1 |}.

(** A chip that shows locality 0 active and valid. *)
Definition owned : chip_sim :=
  {| script := [(0, [0xa0])]; idle := (1, []); wr := 0 |}.

(** Status reads: one that fails, one with burst count 0, one with valid,
    data-available and burst count 10. *)
Definition flaky : chip_sim :=
  {| script := [(1, []); (0, [0x80; 0; 0; 0]); (0, [0x90; 10; 0; 0])];
     idle := (1, []); wr := 0 |}.

(** A response of 12 bytes, offered in bursts of 10 and 5. *)
Definition talker : chip_sim :=
  {| script := [(0, [0x90; 10; 0; 0]);
                (0, [0x80; 1; 0; 0; 0; 12; 0; 0; 0; 0]);
                (0, [0x90; 5; 0; 0]);
                (0, [7; 8]);
                (0, [0x80; 1; 0; 0])];
     idle := (1, []); wr := 0 |}.

(** A response of 12 bytes whose second chunk cannot be read: the first
    burst brings 10 bytes, the FIFO read of the 2 that are missing fails. *)
Definition cutoff : chip_sim :=
  {| script := [(0, [0x90; 10; 0; 0]);
                (0, [0x80; 1; 0; 0; 0; 12; 0; 0; 0; 0]);
                (0, [0x90; 5; 0; 0]);
                (1, [])];
     idle := (1, []); wr := 0 |}.

(** A response whose header declares 10 bytes, behind a burst count of
    12. *)
Definition overshoot : chip_sim :=
  {| script := [(0, [0x90; 12; 0; 0]);
                (0, [0x80; 1; 0; 0; 0; 10; 0; 0; 0; 0; 1; 2]);
                (0, [0x80; 1; 0; 0])];
     idle := (1, []); wr := 0 |}.

(** A response whose header declares 100 bytes. *)
Definition bloated : chip_sim :=
  {| script := [(0, [0x90; 10; 0; 0]);
                (0, [0x80; 1; 0; 0; 0; 100; 0; 0; 0; 0])];
     idle := (1, []); wr := 0 |}.

(** A chip that is ready, takes a command in bursts of 3 (two bytes of
    payload each) and expects no more after it. *)
Definition taker : chip_sim :=
  {| script := [(0, [0x40]); (0, [0x80; 3; 0]); (0, [0x88; 3; 0]);
                (0, [0x80; 3; 0])];
     idle := (0, [0x80; 3; 0]); wr := 0 |}.

(** A chip that is ready, takes one byte, then shows no data-expect and
    still command-ready. *)
Definition refuser : chip_sim :=
  {| script := [(0, [0x40]); (0, [0x80; 2]); (0, [0x80; 2]); (0, [0x40])];
     idle := (1, []); wr := 0 |}.

(** A chip that owns locality 0 and has the cr50 identity, and one with
    another identity. *)
Definition genuine : chip_sim :=
  {| script := [(0, [0xa0]); (0, [0xe0; 0x1a; 0x28; 0x00])];
     idle := (1, []); wr := 0 |}.

Definition impostor : chip_sim :=
  {| script := [(0, [0xa0]); (0, [0xe0; 0x1a; 0x28; 0x01]); (0, [0xa0])];
     idle := (1, []); wr := 0 |}.

(** A chip that always offers a burst count of 1 with valid and
    command-ready set, and takes every write. *)
Inductive stuck := Stuck.

#[export] Instance stuck_bus : i2c_bus stuck := {|
  i2c_write_raw := fun d _ _ _ => (d, 0);
  i2c_read_raw := fun d _ _ _ => (d, 0, [0xc0; 1; 0; 0])
|}.

(** A chip with registers behind the bus.  A one-byte write names the
    register that the next read returns; a longer write goes to the
    register named by its first byte.  The access register shows valid,
    and active once the locality has been requested from a chip that
    grants it (writing the active-locality byte gives it back).  The
    status register shows valid and command-ready, data-expect while
    bytes of a command are outstanding, and a burst count of 3.  Writes
    to the data FIFO take bytes of the command. *)
Record reg_chip := {
  selected : Z;
  active : bool;
  grants : bool;
  identity : list Z;
  wanted : Z
}.

Definition reg_write (d : reg_chip) (bus addr : Z) (data : list Z)
  : reg_chip * Z :=
  match data with
  | [] => (d, 0)
  | [reg] =>
      ({| selected := reg; active := active d; grants := grants d;
          identity := identity d; wanted := wanted d |}, 0)
  | reg :: v :: rest =>
      if reg =? 0x00 then
        ({| selected := selected d;
            active := if v =? 0x02 then grants d || active d
                      else if v =? 0x20 then false
                      else active d;
            grants := grants d; identity := identity d;
            wanted := wanted d |}, 0)
      else if reg =? 0x05 then
        ({| selected := selected d; active := active d; grants := grants d;
            identity := identity d;
            wanted := wanted d - Z.of_nat (length (v :: rest)) |}, 0)
      else (d, 0)
  end.

Definition reg_read (d : reg_chip) (bus addr len : Z)
  : reg_chip * Z * list Z :=
  (d, 0,
   if selected d =? 0x00 then [if active d then 0xa0 else 0x80]
   else if selected d =? 0x01
   then [Z.lor 0xc0 (if wanted d >? 0 then 0x08 else 0); 3; 0; 0]
   else if selected d =? 0x06 then identity d
   else []).

#[export] Instance reg_bus : i2c_bus reg_chip := {|
  i2c_write_raw := reg_write;
  i2c_read_raw := reg_read
|}.

(** A chip that grants the locality when it is asked and has the cr50
    identity; one that grants it and has another identity; one that has
    the cr50 identity and never grants the locality. *)
Definition lender : reg_chip :=
  {| selected := 0; active := false; grants := true;
     identity := [0xe0; 0x1a; 0x28; 0x00]; wanted := 0 |}.

Definition stranger : reg_chip :=
  {| selected := 0; active := false; grants := true;
     identity := [0xe0; 0x1a; 0x28; 0x01]; wanted := 0 |}.

Definition keeper : reg_chip :=
  {| selected := 0; active := false; grants := false;
     identity := [0xe0; 0x1a; 0x28; 0x00]; wanted := 0 |}.

(** A chip that expects a command of three bytes. *)
Definition hungry : reg_chip :=
  {| selected := 0; active := false; grants := true;
     identity := [0xe0; 0x1a; 0x28; 0x00]; wanted := 3 |}.

(** A world at time zero in which the chip address is still unset. *)
Definition cold {Dev : Type} (d : Dev) : world Dev :=
  {| hw := d; clock := 0;
     g_tpm_dev := {| tpm_bus := 0; tpm_addr := 0; tpm_buf := repeat 0 64 |};
     trace := [] |}.

(** A bus on which every read fails after it has stored the byte 0x80 in
    the buffer. *)
Definition leaky : chip_sim := {| script := []; idle := (1, [0x80]); wr := 0 |}.

End Bench.


(** * Properties *)

Section Properties.

Context {H : tpm_h} {Dev : Type} {B : i2c_bus Dev}.

Implicit Types (w : world Dev) (chip : tpm_chip).

(** ** The register transport *)

Lemma mdelay_short_clock w :
  clock (mdelay CR50_TIMEOUT_SHORT_MS w) = clock w + 2000.
Proof. reflexivity. Qed.

Lemma mdelay_trace ms w : trace (mdelay ms w) = trace w.
Proof. reflexivity. Qed.

Lemma mdelay_tpm_dev ms w : g_tpm_dev (mdelay ms w) = g_tpm_dev w.
Proof. reflexivity. Qed.

Lemma mdelay_clock_le ms w : clock w <= clock (mdelay ms w).
Proof.
  unfold mdelay, u32; cbn [clock].
  assert (0 <= ms mod 2 ^ 32 < 2 ^ 32) by (apply Z.mod_pos_bound; reflexivity).
  lia.
Qed.

(** One call of [iic_tpm_read] adds one entry to the log, returns 0 or -1,
    leaves [g_tpm_dev] alone and takes the settle delay at most once. *)
Lemma iic_tpm_read_spec addr len w r data w' :
  iic_tpm_read addr len w = (r, data, w') ->
  trace w' = trace w ++ [EvRead addr len r data]
  /\ (r = 0 \/ r = -1)
  /\ (clock w' = clock w \/ clock w' = clock w + 2000)
  /\ g_tpm_dev w' = g_tpm_dev w.
Proof.
  unfold iic_tpm_read.
  destruct (tpm_addr (g_tpm_dev w) =? 0).
  { intros E; inversion E; subst; simpl; auto 6. }
  destruct (i2c_write_raw _ _ _ _) as [d1 r1].
  destruct (negb (r1 =? 0)).
  { intros E; inversion E; subst; simpl; auto 6. }
  destruct (i2c_read_raw _ _ _ _) as [[d2 r2] x].
  destruct (negb (r2 =? 0)); intros E; inversion E; subst; simpl; auto 6.
Qed.

(** A failed read costs no more than a successful one and moves no bytes;
    a successful one fills the buffer. *)
Lemma iic_tpm_read_data addr len w r data w' :
  iic_tpm_read addr len w = (r, data, w') ->
  (r = -1 -> data = []) /\ (r = 0 -> length data = Z.to_nat len).
Proof.
  unfold iic_tpm_read.
  assert (Hfill : forall x, length (fill len x) = Z.to_nat len).
  { intros x. unfold fill. rewrite length_map, length_firstn, length_app,
      repeat_length. lia. }
  destruct (tpm_addr (g_tpm_dev w) =? 0).
  { intros E; inversion E; subst; split; [auto | discriminate]. }
  destruct (i2c_write_raw _ _ _ _) as [d1 r1].
  destruct (negb (r1 =? 0)).
  { intros E; inversion E; subst; split; [auto | discriminate]. }
  destruct (i2c_read_raw _ _ _ _) as [[d2 r2] x].
  destruct (negb (r2 =? 0)); intros E; inversion E; subst; split;
    auto; discriminate.
Qed.

(** One call of [iic_tpm_write] adds one entry to the log; the chip address
    and the bus stay (the scratch buffer changes). *)
Lemma iic_tpm_write_spec addr buffer len w r w' :
  iic_tpm_write addr buffer len w = (r, w') ->
  trace w' = trace w ++ [EvWrite addr len r (firstn (Z.to_nat len) buffer)]
  /\ (r = 0 \/ r = -1)
  /\ (clock w' = clock w \/ clock w' = clock w + 2000)
  /\ tpm_addr (g_tpm_dev w') = tpm_addr (g_tpm_dev w)
  /\ tpm_bus (g_tpm_dev w') = tpm_bus (g_tpm_dev w).
Proof.
  unfold iic_tpm_write.
  destruct (tpm_addr (g_tpm_dev w) =? 0).
  { intros E; inversion E; subst; simpl; auto 7. }
  destruct (len >? CR50_MAX_BUFSIZE).
  { intros E; inversion E; subst; simpl; auto 7. }
  destruct (i2c_write_raw _ _ _ _) as [d1 r1].
  destruct (negb (r1 =? 0)); intros E; inversion E; subst; simpl; auto 7.
Qed.

(** ** The locality manager *)

Lemma writes_app tr1 tr2 : writes (tr1 ++ tr2) = writes tr1 ++ writes tr2.
Proof. apply filter_app. Qed.

(** What [release_locality] adds to the log: the read of the access
    register, and after it the write of the active-locality byte or
    nothing. *)
Lemma release_locality_spec chip loc force w :
  let acc := u8 (TPM_ACCESS loc) in
  let w' := release_locality chip loc force w in
  exists r data,
    (r = 0 /\
     (force <> 0 \/
      Z.land (nth 0 data 0)
        (Z.lor TPM_ACCESS_REQUEST_PENDING TPM_ACCESS_VALID)
      = Z.lor TPM_ACCESS_REQUEST_PENDING TPM_ACCESS_VALID) /\
     exists r',
       trace w' = trace w ++ [EvRead acc 1 0 data;
                              EvWrite acc 1 r' [u8 TPM_ACCESS_ACTIVE_LOCALITY]])
    \/
    ((r = -1 \/
      (force = 0 /\
       Z.land (nth 0 data 0)
         (Z.lor TPM_ACCESS_REQUEST_PENDING TPM_ACCESS_VALID)
       <> Z.lor TPM_ACCESS_REQUEST_PENDING TPM_ACCESS_VALID)) /\
     trace w' = trace w ++ [EvRead acc 1 r data] /\
     writes (trace w') = writes (trace w)).
Proof.
  intros acc w'; subst acc w'; unfold release_locality.
  destruct (iic_tpm_read _ 1 w) as [[r data] w1] eqn:E.
  destruct (iic_tpm_read_spec _ _ _ _ _ _ E) as (Ht & Hr & _ & _).
  exists r, data.
  destruct Hr as [-> | ->];
    [change (0 <? 0) with false | change (-1 <? 0) with true]; cbv iota.
  - destruct (force =? 0) eqn:Ef; simpl negb; simpl orb.
    + destruct (Z.eqb_spec
        (Z.land (nth 0 data 0)
           (Z.lor TPM_ACCESS_REQUEST_PENDING TPM_ACCESS_VALID))
        (Z.lor TPM_ACCESS_REQUEST_PENDING TPM_ACCESS_VALID)) as [Hb | Hb].
      * left. split; [reflexivity | split; [now right |]].
        destruct (iic_tpm_write _ _ 1 w1) as [r' w2] eqn:E2.
        destruct (iic_tpm_write_spec _ _ _ _ _ _ E2) as (Ht2 & _).
        exists r'. cbn [snd]. rewrite Ht2, Ht, <- app_assoc. reflexivity.
      * right. apply Z.eqb_eq in Ef.
        split; [right; now split | split; [exact Ht |]].
        rewrite Ht, writes_app, app_nil_r. reflexivity.
    + left. apply Z.eqb_neq in Ef. split; [reflexivity | split; [now left |]].
      destruct (iic_tpm_write _ _ 1 w1) as [r' w2] eqn:E2.
      destruct (iic_tpm_write_spec _ _ _ _ _ _ E2) as (Ht2 & _).
      exists r'. cbn [snd]. rewrite Ht2, Ht, <- app_assoc. reflexivity.
  - right. split; [now left | split; [exact Ht |]].
    rewrite Ht, writes_app, app_nil_r. reflexivity.
Qed.

(** C3, as the code has it.  [release_locality] first reads the access
    register.  When that read fails nothing is written, whatever [force]
    is.  When it succeeds, the active-locality byte is written exactly when
    [force] is set or the byte read has both the request-pending and the
    valid bit; otherwise nothing is written. *)
Theorem release_locality_log chip loc force w :
  let acc := u8 (TPM_ACCESS loc) in
  let w' := release_locality chip loc force w in
  let pending_valid b :=
    Z.land b (Z.lor TPM_ACCESS_REQUEST_PENDING TPM_ACCESS_VALID)
    = Z.lor TPM_ACCESS_REQUEST_PENDING TPM_ACCESS_VALID in
  exists r data,
    (r = 0 \/ r = -1)
    /\ iic_tpm_read acc 1 w = (r, data, snd (iic_tpm_read acc 1 w))
    /\ (r = -1 ->
        trace w' = trace w ++ [EvRead acc 1 r data]
        /\ writes (trace w') = writes (trace w))
    /\ (r = 0 -> force <> 0 \/ pending_valid (nth 0 data 0) ->
        exists r',
          trace w' = trace w ++ [EvRead acc 1 0 data;
                                 EvWrite acc 1 r'
                                   [u8 TPM_ACCESS_ACTIVE_LOCALITY]])
    /\ (r = 0 -> force = 0 -> ~ pending_valid (nth 0 data 0) ->
        trace w' = trace w ++ [EvRead acc 1 r data]
        /\ writes (trace w') = writes (trace w)).
Proof.
  intros acc w' pending_valid.
  destruct (iic_tpm_read acc 1 w) as [[r data] w1] eqn:E.
  destruct (iic_tpm_read_spec _ _ _ _ _ _ E) as (Ht & Hr & _).
  destruct (release_locality_spec chip loc force w) as (r0 & d0 & Hrel).
  fold acc w' in Hrel. exists r, data. split; [exact Hr |].
  split; [reflexivity |].
  assert (Hsame : forall tl, trace w' = trace w ++ EvRead acc 1 r0 d0 :: tl ->
                             r0 = r /\ d0 = data).
  { intros tl Htl. unfold w', release_locality in Htl. fold acc in Htl.
    rewrite E in Htl.
    assert (Hpre : exists tl', trace w ++ EvRead acc 1 r data :: tl'
                               = trace w ++ EvRead acc 1 r0 d0 :: tl).
    { destruct (r <? 0).
      - exists []. rewrite <- Htl, Ht. reflexivity.
      - destruct (negb (force =? 0) || _).
        + destruct (iic_tpm_write acc _ 1 w1) as [rw w2] eqn:Ew.
          destruct (iic_tpm_write_spec _ _ _ _ _ _ Ew) as (Ht2 & _).
          cbn [snd] in Htl. eexists.
          rewrite <- Htl, Ht2, Ht, <- app_assoc. reflexivity.
        + exists []. rewrite <- Htl, Ht. reflexivity. }
    destruct Hpre as (tl' & Heq). apply app_inv_head in Heq.
    injection Heq as -> -> _. auto. }
  destruct Hrel as [(-> & Hcond & rw & Htr) | (Hcond & Htr & Hwr)].
  - destruct (Hsame _ Htr) as (<- & <-).
    split; [discriminate |]. split.
    + intros _ _. exists rw. exact Htr.
    + intros _ Hf Hnp. destruct Hcond as [Hc | Hc]; contradiction.
  - destruct (Hsame _ Htr) as (<- & <-).
    split; [intros _; split; assumption |]. split.
    + intros -> Hc. destruct Hcond as [Hneg | (Hf & Hnp)]; [discriminate |].
      destruct Hc as [Hc | Hc]; contradiction.
    + intros _ _ _. split; assumption.
Qed.

(** C8.  When the access register shows locality [loc] active and valid,
    [request_locality] returns [loc] after that one register read: the
    world it leaves is the world right after the read, so no register is
    written and nothing is waited for beyond the read's settle delay. *)
Theorem request_locality_idempotent chip loc w data w1 :
  0 <= loc ->
  iic_tpm_read (u8 (TPM_ACCESS loc)) 1 w = (0, data, w1) ->
  Z.land (nth 0 data 0) (Z.lor TPM_ACCESS_ACTIVE_LOCALITY TPM_ACCESS_VALID)
  = Z.lor TPM_ACCESS_ACTIVE_LOCALITY TPM_ACCESS_VALID ->
  request_locality chip loc w = (loc, set_locality loc chip, w1)
  /\ trace w1 = trace w ++ [EvRead (u8 (TPM_ACCESS loc)) 1 0 data]
  /\ writes (trace w1) = writes (trace w).
Proof.
  intros Hloc E Hb.
  destruct (iic_tpm_read_spec _ _ _ _ _ _ E) as (Ht & _).
  unfold request_locality, check_locality. rewrite E.
  change (0 <? 0) with false. cbv iota.
  apply Z.eqb_eq in Hb. rewrite Hb.
  replace (loc >=? 0) with true by (symmetry; apply Z.geb_le; lia).
  split; [reflexivity | split; [exact Ht |]].
  rewrite Ht, writes_app, app_nil_r. reflexivity.
Qed.

(** ** The status poller *)

(** The loop of [cr50_wait_burst_status], from any state of the stopwatch:
    with two milliseconds of delay in every round, [S n] checks of the
    stopwatch are enough once [2000 * n] microseconds cover what is left on
    it.  The loop reads the status register and nothing else; it returns 0
    on the first qualifying read and -1 at the first check at or after the
    expiry time, less than one round (4 ms) late. *)
Lemma cr50_wait_burst_status_loop_spec n :
  forall chip mask sw w,
  sw - clock w <= 2000 * Z.of_nat n ->
  let sts := u8 (TPM_STS (locality (vendor chip))) in
  exists r st b w' new,
    cr50_wait_burst_status_loop (S n) chip mask sw w = Some (r, st, b, w')
    /\ trace w' = trace w ++ new
    /\ forallb (is_read_of sts 4) new = true
    /\ g_tpm_dev w' = g_tpm_dev w
    /\ clock w <= clock w'
    /\ ((r = 0 /\ exists pre data,
           new = pre ++ [EvRead sts 4 0 data]
           /\ no_qualifying mask pre
           /\ qualifies mask (EvRead sts 4 0 data) = true
           /\ st = nth 0 data 0
           /\ b = read_le16 (skipn 1 data))
        \/ (r = -1 /\ no_qualifying mask new
            /\ sw <= clock w'
            /\ (clock w' = clock w \/ clock w' < sw + 4000))).
Proof.
  assert (Hexpired : forall chip mask sw w m,
    sw <= clock w ->
    let sts := u8 (TPM_STS (locality (vendor chip))) in
    exists r st b w' new,
      cr50_wait_burst_status_loop (S m) chip mask sw w = Some (r, st, b, w')
      /\ trace w' = trace w ++ new
      /\ forallb (is_read_of sts 4) new = true
      /\ g_tpm_dev w' = g_tpm_dev w
      /\ clock w <= clock w'
      /\ ((r = 0 /\ exists pre data,
             new = pre ++ [EvRead sts 4 0 data]
             /\ no_qualifying mask pre
             /\ qualifies mask (EvRead sts 4 0 data) = true
             /\ st = nth 0 data 0
             /\ b = read_le16 (skipn 1 data))
          \/ (r = -1 /\ no_qualifying mask new
              /\ sw <= clock w'
              /\ (clock w' = clock w \/ clock w' < sw + 4000)))).
  { intros chip mask sw w m Hexp sts.
    cbn [cr50_wait_burst_status_loop]. unfold stopwatch_expired.
    replace (sw <=? clock w) with true by (symmetry; apply Z.leb_le; lia).
    exists (-1), 0, 0, w, []. rewrite app_nil_r.
    repeat split; auto; try lia.
    right. repeat split; auto. }
  induction n as [| n IH]; intros chip mask sw w Hfuel sts.
  { apply Hexpired. change (Z.of_nat 0) with 0 in Hfuel. lia. }
  destruct (Z.le_gt_cases sw (clock w)) as [Hexp | Hexp].
  { apply Hexpired; assumption. }
  remember (S n) as m eqn:Em.
  cbn [cr50_wait_burst_status_loop]. unfold stopwatch_expired.
  replace (sw <=? clock w) with false by (symmetry; apply Z.leb_gt; lia).
  fold sts. subst m.
  destruct (iic_tpm_read sts 4 w) as [[r data] w1] eqn:E.
  destruct (iic_tpm_read_spec _ _ _ _ _ _ E) as (Ht & Hr & Hc & Hg).
  (* what one more round gives when this read does not qualify *)
  assert (Hrec : qualifies mask (EvRead sts 4 r data) = false ->
    exists r0 st b w' new,
      cr50_wait_burst_status_loop (S n) chip mask sw
        (mdelay CR50_TIMEOUT_SHORT_MS w1) = Some (r0, st, b, w')
      /\ trace w' = trace w ++ new
      /\ forallb (is_read_of sts 4) new = true
      /\ g_tpm_dev w' = g_tpm_dev w
      /\ clock w <= clock w'
      /\ ((r0 = 0 /\ exists pre data,
             new = pre ++ [EvRead sts 4 0 data]
             /\ no_qualifying mask pre
             /\ qualifies mask (EvRead sts 4 0 data) = true
             /\ st = nth 0 data 0
             /\ b = read_le16 (skipn 1 data))
          \/ (r0 = -1 /\ no_qualifying mask new
              /\ sw <= clock w'
              /\ (clock w' = clock w \/ clock w' < sw + 4000)))).
  { intros Hq.
    destruct (IH chip mask sw (mdelay CR50_TIMEOUT_SHORT_MS w1))
      as (r0 & st & b & w' & new & Hl & Ht' & Hrd & Hg' & Hc' & Hres).
    { rewrite mdelay_short_clock. lia. }
    rewrite mdelay_short_clock in Hc', Hres.
    exists r0, st, b, w', (EvRead sts 4 r data :: new).
    split; [exact Hl |].
    split. { rewrite Ht', mdelay_trace, Ht, <- app_assoc. reflexivity. }
    split. { cbn [forallb is_read_of]. rewrite !Z.eqb_refl. exact Hrd. }
    split. { rewrite Hg', mdelay_tpm_dev. exact Hg. }
    split; [lia |].
    destruct Hres as [(-> & pre & d & -> & Hpre & Hlast & Hst & Hb)
                     | (-> & Hnone & Hsw & Hclk)].
    - left. split; [reflexivity |].
      exists (EvRead sts 4 r data :: pre), d.
      repeat split; auto.
      unfold no_qualifying. cbn [forallb]. rewrite Hq. exact Hpre.
    - right. split; [reflexivity |]. split.
      { unfold no_qualifying. cbn [forallb]. rewrite Hq. exact Hnone. }
      split; [exact Hsw | right; lia]. }
  destruct Hr as [-> | ->].
  - change (negb (0 =? 0)) with false. cbv iota.
    destruct ((Z.land (nth 0 data 0) mask =? mask)
              && (read_le16 (skipn 1 data) >? 0)
              && (read_le16 (skipn 1 data) <=? CR50_MAX_BUFSIZE)) eqn:Q.
    + exists 0, (nth 0 data 0), (read_le16 (skipn 1 data)), w1,
        [EvRead sts 4 0 data].
      split; [reflexivity |]. split; [exact Ht |].
      split. { cbn [forallb is_read_of]. rewrite !Z.eqb_refl. reflexivity. }
      split; [exact Hg |]. split; [lia |].
      left. split; [reflexivity |]. exists [], data.
      repeat split; auto.
    + apply Hrec. cbn [qualifies]. rewrite Q. reflexivity.
  - change (negb (-1 =? 0)) with true. cbv iota.
    apply Hrec. reflexivity.
Qed.

Lemma qualifies_inv mask reg len ret data :
  qualifies mask (EvRead reg len ret data) = true ->
  ret = 0
  /\ Z.land (nth 0 data 0) mask = mask
  /\ 1 <= read_le16 (skipn 1 data) <= CR50_MAX_BUFSIZE.
Proof.
  cbn [qualifies]. rewrite !andb_true_iff.
  intros (Hr & (Hm & Hlo) & Hhi).
  apply Z.eqb_eq in Hr, Hm. apply Z.gtb_lt in Hlo. apply Z.leb_le in Hhi.
  repeat split; auto; lia.
Qed.

Lemma no_qualifying_existsb mask tr :
  no_qualifying mask tr -> existsb (qualifies mask) tr = false.
Proof.
  unfold no_qualifying. induction tr as [| e tr IH]; cbn [forallb existsb].
  - reflexivity.
  - rewrite andb_true_iff. intros (He & Htr).
    apply negb_true_iff in He. rewrite He, IH; auto.
Qed.

(** [cr50_wait_burst_status] with fuel for its 1001 checks of the
    stopwatch: it always returns, with 0 and the status and burst count of
    the first qualifying read, or with -1 between 2000 and 2004 ms after
    the call. *)
Lemma cr50_wait_burst_status_spec fuel chip mask w :
  (1001 <= fuel)%nat ->
  let sts := u8 (TPM_STS (locality (vendor chip))) in
  exists r st b w' new,
    cr50_wait_burst_status fuel chip mask w = Some (r, st, b, w')
    /\ trace w' = trace w ++ new
    /\ forallb (is_read_of sts 4) new = true
    /\ g_tpm_dev w' = g_tpm_dev w
    /\ clock w <= clock w'
    /\ ((r = 0 /\ exists pre data,
           new = pre ++ [EvRead sts 4 0 data]
           /\ no_qualifying (u8 mask) pre
           /\ st = nth 0 data 0
           /\ b = read_le16 (skipn 1 data)
           /\ Z.land st (u8 mask) = u8 mask
           /\ 1 <= b <= CR50_MAX_BUFSIZE)
        \/ (r = -1 /\ no_qualifying (u8 mask) new
            /\ clock w + 2000000 <= clock w' < clock w + 2004000)).
Proof.
  intros Hfuel sts. unfold cr50_wait_burst_status.
  destruct fuel as [| n]; [lia |].
  destruct (cr50_wait_burst_status_loop_spec n chip (u8 mask)
              (stopwatch_init_msecs_expire CR50_TIMEOUT_LONG_MS w) w)
    as (r & st & b & w' & new & Hl & Ht & Hrd & Hg & Hc & Hres).
  { unfold stopwatch_init_msecs_expire, CR50_TIMEOUT_LONG_MS. lia. }
  exists r, st, b, w', new. fold sts in Hrd, Hres.
  repeat (split; [assumption |]).
  unfold stopwatch_init_msecs_expire, CR50_TIMEOUT_LONG_MS in Hres.
  destruct Hres as [(-> & pre & data & -> & Hpre & Hlast & -> & ->)
                   | (-> & Hnone & Hsw & Hclk)].
  - left. split; [reflexivity |]. exists pre, data.
    destruct (qualifies_inv _ _ _ _ _ Hlast) as (_ & Hm & Hb).
    repeat split; auto; lia.
  - right. repeat split; auto; lia.
Qed.

(** C6.  With fuel for its 1001 checks of the stopwatch the burst/status
    wait always returns, 0 or -1.  It returns 0 exactly when one of the
    status reads it made qualifies (the read succeeded, the status byte has
    every bit of the mask, the burst count is in (0, 63]); that read is the
    last one, and its status and burst count are what the wait returns, so
    the burst count lies in [1, 63].  It returns -1 only when no read
    qualified and at least 2000 ms have gone by.  A read that fails while
    the stopwatch runs does not end the wait: the loop takes the short
    delay and goes on with the next round. *)
Theorem cr50_wait_burst_status_correct fuel chip mask w :
  (1001 <= fuel)%nat ->
  let sts := u8 (TPM_STS (locality (vendor chip))) in
  (exists r st b w' new,
     cr50_wait_burst_status fuel chip mask w = Some (r, st, b, w')
     /\ trace w' = trace w ++ new
     /\ (r = 0 \/ r = -1)
     /\ (r = 0 <-> existsb (qualifies (u8 mask)) new = true)
     /\ (r = 0 ->
         exists pre data,
           new = pre ++ [EvRead sts 4 0 data]
           /\ no_qualifying (u8 mask) pre
           /\ st = nth 0 data 0
           /\ b = read_le16 (skipn 1 data)
           /\ Z.land st (u8 mask) = u8 mask
           /\ 1 <= b <= 63)
     /\ (r = -1 -> clock w + 2000 * 1000 <= clock w'))
  /\ (forall n sw w0 r data w1,
        stopwatch_expired sw w0 = false ->
        iic_tpm_read sts 4 w0 = (r, data, w1) ->
        r <> 0 ->
        cr50_wait_burst_status_loop (S n) chip (u8 mask) sw w0
        = cr50_wait_burst_status_loop n chip (u8 mask) sw
            (mdelay CR50_TIMEOUT_SHORT_MS w1)).
Proof.
  intros Hfuel sts. split.
  - destruct (cr50_wait_burst_status_spec fuel chip mask w Hfuel)
      as (r & st & b & w' & new & Hl & Ht & _ & _ & _ & Hres).
    fold sts in Hres. exists r, st, b, w', new.
    split; [exact Hl |]. split; [exact Ht |].
    destruct Hres as [(-> & pre & data & -> & Hpre & -> & -> & Hm & Hb)
                     | (-> & Hnone & Hclk)].
    + split; [now left |]. split.
      { split; [intros _ | reflexivity].
        rewrite existsb_app. apply orb_true_iff. right.
        cbn [existsb qualifies]. rewrite orb_false_r.
        apply Z.eqb_eq in Hm. rewrite Hm. cbn [andb Z.eqb].
        apply andb_true_iff. split; [apply Z.gtb_lt | apply Z.leb_le].
        - lia.
        - exact (proj2 Hb). }
      split; [| discriminate].
      intros _. exists pre, data. repeat split; auto; apply Hb.
    + split; [now right |]. split.
      { rewrite (no_qualifying_existsb _ _ Hnone).
        split; discriminate. }
      split; [discriminate | intros _; lia].
  - intros n sw w0 r data w1 Hexp E Hr.
    cbn [cr50_wait_burst_status_loop]. fold sts. rewrite Hexp, E.
    apply Z.eqb_neq in Hr. rewrite Hr. reflexivity.
Qed.

(** ** Polling for the locality and for command-ready *)

Lemma check_locality_spec chip loc w r chip' w1 :
  check_locality chip loc w = (r, chip', w1) ->
  exists rr data,
    iic_tpm_read (u8 (TPM_ACCESS loc)) 1 w = (rr, data, w1)
    /\ ((r = loc /\ chip' = set_locality loc chip /\ rr = 0
         /\ Z.land (nth 0 data 0)
              (Z.lor TPM_ACCESS_ACTIVE_LOCALITY TPM_ACCESS_VALID)
            = Z.lor TPM_ACCESS_ACTIVE_LOCALITY TPM_ACCESS_VALID)
        \/ (r = -1 /\ chip' = chip)).
Proof.
  unfold check_locality.
  destruct (iic_tpm_read _ 1 w) as [[rr data] w0] eqn:E.
  destruct (rr <? 0) eqn:Er.
  { intros X; inversion X; subst. exists rr, data. auto. }
  destruct (Z.eqb_spec
    (Z.land (nth 0 data 0)
       (Z.lor TPM_ACCESS_ACTIVE_LOCALITY TPM_ACCESS_VALID))
    (Z.lor TPM_ACCESS_ACTIVE_LOCALITY TPM_ACCESS_VALID)) as [Hb | Hb];
    intros X; inversion X; subst; exists rr, data; split; auto.
  left. repeat split; auto.
  destruct (iic_tpm_read_spec _ _ _ _ _ _ E) as (_ & [-> | ->] & _);
    [reflexivity | discriminate].
Qed.

(** The counted loop of [request_locality]: it ends with the locality as
    soon as a check finds it, and with -1 after [n] checks, each followed
    by a delay of [TPM_TIMEOUT] milliseconds. *)
Lemma request_locality_loop_spec n :
  forall chip loc w r chip' w',
  request_locality_loop n chip loc w = (r, chip', w') ->
  exists new,
    trace w' = trace w ++ new
    /\ forallb (is_read_of (u8 (TPM_ACCESS loc)) 1) new = true
    /\ ((r = loc /\ 0 <= loc /\ (length new <= n)%nat
         /\ chip' = set_locality loc chip
         /\ exists pre data,
             new = pre ++ [EvRead (u8 (TPM_ACCESS loc)) 1 0 data]
             /\ Z.land (nth 0 data 0)
                  (Z.lor TPM_ACCESS_ACTIVE_LOCALITY TPM_ACCESS_VALID)
                = Z.lor TPM_ACCESS_ACTIVE_LOCALITY TPM_ACCESS_VALID)
        \/ (r = -1 /\ length new = n
            /\ clock w + Z.of_nat n * (1000 * u32 TPM_TIMEOUT) <= clock w'
            /\ clock w' <= clock w
                 + Z.of_nat n * (1000 * u32 TPM_TIMEOUT + 2000))).
Proof.
  induction n as [| n IH]; intros chip loc w r chip' w'.
  { cbn [request_locality_loop]. intros X; inversion X; subst.
    exists []. rewrite app_nil_r. split; [reflexivity |].
    split; [reflexivity |]. right. cbn [length]. repeat split; lia. }
  cbn [request_locality_loop].
  destruct (check_locality chip loc w) as [[r0 chip0] w0] eqn:Ec.
  destruct (check_locality_spec _ _ _ _ _ _ Ec)
    as (rr & data & E & Hres).
  destruct (iic_tpm_read_spec _ _ _ _ _ _ E) as (Ht & _ & Hc & _).
  assert (Hev : forallb (is_read_of (u8 (TPM_ACCESS loc)) 1)
                  [EvRead (u8 (TPM_ACCESS loc)) 1 rr data] = true).
  { cbn [forallb is_read_of]. rewrite !Z.eqb_refl. reflexivity. }
  destruct (r0 >=? 0) eqn:Ege.
  - intros X; injection X as Hr Hch Hw; subst r chip' w'.
    exists [EvRead (u8 (TPM_ACCESS loc)) 1 rr data].
    split; [exact Ht |]. split; [exact Hev |].
    apply Z.geb_le in Ege.
    destruct Hres as [(-> & -> & -> & Hb) | (-> & _)]; [| lia].
    left. cbn [length]. repeat split; auto; try lia.
    exists [], data. split; [reflexivity | exact Hb].
  - intros X. apply IH in X.
    destruct X as (new & Ht' & Hrd & Hres').
    exists (EvRead (u8 (TPM_ACCESS loc)) 1 rr data :: new).
    split. { rewrite Ht', mdelay_trace, Ht, <- app_assoc. reflexivity. }
    split. { cbn [forallb] in Hev |- *. rewrite andb_true_r in Hev.
             rewrite Hev. exact Hrd. }
    rewrite Z.geb_leb in Ege. apply Z.leb_gt in Ege.
    destruct Hres' as [(-> & Hloc & Hlen & -> & pre & d & -> & Hb)
                      | (-> & Hlen & Hlo & Hhi)].
    + left. cbn [length]. split; [reflexivity |]. split; [exact Hloc |].
      split; [lia |]. split.
      { destruct Hres as [(-> & _) | (_ & ->)]; [lia | reflexivity]. }
      exists (EvRead (u8 (TPM_ACCESS loc)) 1 rr data :: pre), d.
      split; [reflexivity | exact Hb].
    + right. cbn [length]. split; [reflexivity |].
      split; [congruence |].
      unfold mdelay in Hlo, Hhi; cbn [clock] in Hlo, Hhi.
      assert (0 <= u32 TPM_TIMEOUT)
        by (apply Z.mod_pos_bound; reflexivity).
      rewrite Nat2Z.inj_succ, !Z.mul_succ_l. lia.
Qed.

(** [request_locality] as a whole: either some check found the locality
    (the last entry of the log is that read), or the request byte was
    written and all of the 2001 checks failed. *)
Lemma request_locality_spec chip loc w r chip' w' :
  request_locality chip loc w = (r, chip', w') ->
  let acc := u8 (TPM_ACCESS loc) in
  exists new,
    trace w' = trace w ++ new
    /\ ((r = loc /\ 0 <= loc /\ chip' = set_locality loc chip
         /\ exists pre data,
             new = pre ++ [EvRead acc 1 0 data]
             /\ Z.land (nth 0 data 0)
                  (Z.lor TPM_ACCESS_ACTIVE_LOCALITY TPM_ACCESS_VALID)
                = Z.lor TPM_ACCESS_ACTIVE_LOCALITY TPM_ACCESS_VALID)
        \/ (r = -1 /\ length new = 2002%nat
            /\ clock w + 2000 * (1000 * u32 TPM_TIMEOUT) <= clock w')).
Proof.
  intros X acc. unfold request_locality in X.
  destruct (check_locality chip loc w) as [[r0 chip0] w0] eqn:Ec.
  destruct (check_locality_spec _ _ _ _ _ _ Ec) as (rr & data & E & Hres).
  destruct (iic_tpm_read_spec _ _ _ _ _ _ E) as (Ht & _ & Hc & _).
  destruct (r0 >=? 0) eqn:Ege.
  - injection X as Hr Hch Hw; subst r chip' w'.
    exists [EvRead acc 1 rr data]. split; [exact Ht |].
    apply Z.geb_le in Ege.
    destruct Hres as [(-> & -> & -> & Hb) | (-> & _)]; [| lia].
    left. repeat split; auto.
    exists [], data. split; [reflexivity | exact Hb].
  - destruct (iic_tpm_write acc [u8 TPM_ACCESS_REQUEST_USE] 1 w0)
      as [rw w2] eqn:Ew.
    destruct (iic_tpm_write_spec _ _ _ _ _ _ Ew) as (Htw & _ & Hcw & _).
    fold acc in X. rewrite Ew in X. cbn [snd] in X.
    apply request_locality_loop_spec in X.
    destruct X as (new & Ht' & _ & Hres').
    exists (EvRead acc 1 rr data
              :: EvWrite acc 1 rw
                   (firstn (Z.to_nat 1) [u8 TPM_ACCESS_REQUEST_USE])
              :: new).
    split. { rewrite Ht', Htw, Ht, <- !app_assoc. reflexivity. }
    rewrite Z.geb_leb in Ege. apply Z.leb_gt in Ege.
    destruct Hres' as [(-> & Hloc & Hlen & -> & pre & d & -> & Hb)
                      | (-> & Hlen & Hlo & Hhi)].
    + left. split; [reflexivity |]. split; [exact Hloc |]. split.
      { destruct Hres as [(-> & _) | (_ & ->)]; [lia | reflexivity]. }
      exists (EvRead acc 1 rr data
                :: EvWrite acc 1 rw
                     (firstn (Z.to_nat 1) [u8 TPM_ACCESS_REQUEST_USE])
                :: pre), d.
      split; [reflexivity | exact Hb].
    + right. split; [reflexivity |]. cbn [length]. rewrite Hlen.
      split; [reflexivity |].
      change (Z.of_nat (2 * 1000)) with 2000 in Hlo. lia.
Qed.

Lemma cr50_tis_i2c_status_spec chip w s w1 :
  cr50_tis_i2c_status chip w = (s, w1) ->
  let sts := u8 (TPM_STS (locality (vendor chip))) in
  exists r data,
    iic_tpm_read sts 4 w = (r, data, w1)
    /\ s = status_byte r data
    /\ trace w1 = trace w ++ [EvRead sts 4 r data]
    /\ (clock w1 = clock w \/ clock w1 = clock w + 2000).
Proof.
  intros X sts. unfold cr50_tis_i2c_status in X. fold sts in X.
  destruct (iic_tpm_read sts 4 w) as [[r data] w0] eqn:E.
  destruct (iic_tpm_read_spec _ _ _ _ _ _ E) as (Ht & _ & Hc & _).
  exists r, data. unfold status_byte.
  destruct (r <? 0); injection X as <- <-; auto.
Qed.

Lemma cr50_tis_i2c_ready_spec chip w :
  let sts := u8 (TPM_STS (locality (vendor chip))) in
  exists r,
    trace (cr50_tis_i2c_ready chip w)
    = trace w ++ [EvWrite sts 4 r [u8 TPM_STS_COMMAND_READY; 0; 0; 0]]
    /\ clock w + 2000 <= clock (cr50_tis_i2c_ready chip w) <= clock w + 4000.
Proof.
  intros sts. unfold cr50_tis_i2c_ready. fold sts.
  destruct (iic_tpm_write sts _ 4 w) as [r w1] eqn:E.
  destruct (iic_tpm_write_spec _ _ _ _ _ _ E) as (Ht & _ & Hc & _).
  exists r. cbn [snd]. rewrite mdelay_trace, mdelay_short_clock.
  split; [exact Ht | lia].
Qed.

(** The command-ready loop of [cr50_tis_i2c_send].  Every round that finds
    the chip not ready and the stopwatch running waits two milliseconds or
    more, so [S n] rounds are enough once [2000 * n] microseconds cover
    what is left on the stopwatch.  The last entry of the log is the
    status read that decided: ready, or not ready at a time at or after
    the expiry, less than one round (6 ms) late. *)
Lemma send_ready_loop_spec n :
  forall chip sw w,
  sw - clock w <= 2000 * Z.of_nat n ->
  let sts := u8 (TPM_STS (locality (vendor chip))) in
  exists ok w' pre r data,
    send_ready_loop (S n) chip sw w = Some (ok, w')
    /\ trace w' = trace w ++ pre ++ [EvRead sts 4 r data]
    /\ (ok = true -> Z.land (status_byte r data) TPM_STS_COMMAND_READY <> 0)
    /\ (ok = false ->
        Z.land (status_byte r data) TPM_STS_COMMAND_READY = 0
        /\ sw <= clock w'
        /\ (clock w' <= clock w + 2000 \/ clock w' < sw + 6000)).
Proof.
  induction n as [| n IH]; intros chip sw w Hfuel sts.
  - cbn [send_ready_loop].
    destruct (cr50_tis_i2c_status chip w) as [s w1] eqn:Es.
    destruct (cr50_tis_i2c_status_spec _ _ _ _ Es)
      as (r & data & _ & -> & Ht & Hc).
    fold sts in Ht.
    destruct (Z.eqb_spec (Z.land (status_byte r data) TPM_STS_COMMAND_READY) 0)
      as [Hs | Hs]; cbn [negb].
    + unfold stopwatch_expired.
      replace (sw <=? clock w1) with true
        by (symmetry; apply Z.leb_le; change (Z.of_nat 0) with 0 in Hfuel; lia).
      exists false, w1, [], r, data. cbn [app].
      split; [reflexivity |]. split; [exact Ht |].
      split; [discriminate |]. intros _.
      change (Z.of_nat 0) with 0 in Hfuel. repeat split; auto; lia.
    + exists true, w1, [], r, data. cbn [app].
      split; [reflexivity |]. split; [exact Ht |].
      split; [auto | discriminate].
  - remember (S n) as m eqn:Em. cbn [send_ready_loop]. subst m.
    destruct (cr50_tis_i2c_status chip w) as [s w1] eqn:Es.
    destruct (cr50_tis_i2c_status_spec _ _ _ _ Es)
      as (r & data & _ & -> & Ht & Hc).
    fold sts in Ht.
    destruct (Z.eqb_spec (Z.land (status_byte r data) TPM_STS_COMMAND_READY) 0)
      as [Hs | Hs]; cbn [negb].
    + unfold stopwatch_expired.
      destruct (Z.leb_spec sw (clock w1)) as [Hexp | Hexp].
      * exists false, w1, [], r, data. cbn [app].
        split; [reflexivity |]. split; [exact Ht |].
        split; [discriminate |]. intros _. repeat split; auto; lia.
      * destruct (cr50_tis_i2c_ready_spec chip w1) as (rw & Htr & Hcr).
        fold sts in Htr.
        destruct (IH chip sw (cr50_tis_i2c_ready chip w1))
          as (ok & w' & pre & r' & data' & Hl & Ht' & Hok & Hto).
        { rewrite Nat2Z.inj_succ in Hfuel. lia. }
        fold sts in Ht'.
        exists ok, w',
          (EvRead sts 4 r data
             :: EvWrite sts 4 rw [u8 TPM_STS_COMMAND_READY; 0; 0; 0] :: pre),
          r', data'.
        split; [exact Hl |].
        split. { rewrite Ht', Htr, Ht, <- !app_assoc. reflexivity. }
        split; [exact Hok |].
        intros Hf. destruct (Hto Hf) as (Hz & Hsw & Hclk).
        repeat split; auto. right. lia.
    + exists true, w1, [], r, data. cbn [app].
      split; [reflexivity |]. split; [exact Ht |].
      split; [auto | discriminate].
Qed.

(** The three polling loops of the driver.  None of them runs for ever,
    and each ends with an error when its condition never holds, but they
    are bounded in two different ways.  The burst/status wait and the
    command-ready wait of send watch a stopwatch of 2000 ms: with fuel for
    1001 rounds they always return, and a timeout comes at the first check
    at or after 2000 ms, less than one round late (4 ms and 6 ms).  The
    locality acquisition counts: after the request byte it checks 2000
    times, with [TPM_TIMEOUT] ms of delay after each check, and gives up
    with -1 after 2001 reads and one write; the time that takes is 2000
    delays plus the time of the reads. *)
Theorem polling_loops_terminate :
  (forall chip loc w r chip' w',
     request_locality chip loc w = (r, chip', w') ->
     exists new,
       trace w' = trace w ++ new
       /\ ((r = loc /\ 0 <= loc /\
            exists pre data,
              new = pre ++ [EvRead (u8 (TPM_ACCESS loc)) 1 0 data]
              /\ Z.land (nth 0 data 0)
                   (Z.lor TPM_ACCESS_ACTIVE_LOCALITY TPM_ACCESS_VALID)
                 = Z.lor TPM_ACCESS_ACTIVE_LOCALITY TPM_ACCESS_VALID)
           \/ (r = -1 /\ length new = 2002%nat
               /\ clock w + 2000 * (1000 * u32 TPM_TIMEOUT) <= clock w')))
  /\ (forall fuel chip mask w,
        (1001 <= fuel)%nat ->
        exists r st b w' new,
          cr50_wait_burst_status fuel chip mask w = Some (r, st, b, w')
          /\ trace w' = trace w ++ new
          /\ ((r = 0 /\ existsb (qualifies (u8 mask)) new = true)
              \/ (r = -1 /\ no_qualifying (u8 mask) new
                  /\ clock w + 2000 * 1000 <= clock w'
                     < clock w + 2000 * 1000 + 4000)))
  /\ (forall fuel chip w,
        (1001 <= fuel)%nat ->
        exists ok w' pre r data,
          send_ready_loop fuel chip
            (stopwatch_init_msecs_expire CR50_TIMEOUT_LONG_MS w) w
          = Some (ok, w')
          /\ trace w'
             = trace w
               ++ pre ++ [EvRead (u8 (TPM_STS (locality (vendor chip)))) 4 r data]
          /\ ((ok = true
               /\ Z.land (status_byte r data) TPM_STS_COMMAND_READY <> 0)
              \/ (ok = false
                  /\ Z.land (status_byte r data) TPM_STS_COMMAND_READY = 0
                  /\ clock w + 2000 * 1000 <= clock w'
                     < clock w + 2000 * 1000 + 6000))).
Proof.
  split; [| split].
  - intros chip loc w r chip' w' X.
    destruct (request_locality_spec _ _ _ _ _ _ X) as (new & Ht & Hres).
    exists new. split; [exact Ht |].
    destruct Hres as [(-> & Hloc & _ & Hlast) | Hfail]; [left | right]; auto.
  - intros fuel chip mask w Hfuel.
    destruct (cr50_wait_burst_status_spec fuel chip mask w Hfuel)
      as (r & st & b & w' & new & Hl & Ht & _ & _ & _ & Hres).
    exists r, st, b, w', new. split; [exact Hl |]. split; [exact Ht |].
    destruct Hres as [(-> & pre & data & -> & Hpre & -> & -> & Hm & Hb)
                     | (-> & Hnone & Hclk)].
    + left. split; [reflexivity |].
      rewrite existsb_app. apply orb_true_iff. right.
      cbn [existsb qualifies]. rewrite orb_false_r.
      apply Z.eqb_eq in Hm. rewrite Hm. cbn [andb Z.eqb].
      apply andb_true_iff. split; [apply Z.gtb_lt | apply Z.leb_le]; lia.
    + right. repeat split; auto; lia.
  - intros fuel chip w Hfuel.
    destruct fuel as [| n]; [lia |].
    destruct (send_ready_loop_spec n chip
                (stopwatch_init_msecs_expire CR50_TIMEOUT_LONG_MS w) w)
      as (ok & w' & pre & r & data & Hl & Ht & Hok & Hto).
    { unfold stopwatch_init_msecs_expire, CR50_TIMEOUT_LONG_MS. lia. }
    exists ok, w', pre, r, data. split; [exact Hl |]. split; [exact Ht |].
    unfold stopwatch_init_msecs_expire, CR50_TIMEOUT_LONG_MS in Hto.
    destruct ok.
    + left. auto.
    + right. destruct (Hto eq_refl) as (Hz & Hsw & Hclk).
      repeat split; auto; lia.
Qed.

(** ** Send *)

Lemma u32_small z : 0 <= z < 2 ^ 32 -> u32 z = z.
Proof. intros Hz. unfold u32. apply Z.mod_small. exact Hz. Qed.

Lemma to_int_small z : 0 <= z <= INT_MAX -> to_int z = z.
Proof.
  unfold INT_MAX, to_int. intros Hz.
  rewrite Z.mod_small; lia.
Qed.

Lemma to_int_nonneg z : 0 <= z < 2 ^ 32 -> 0 <= to_int z -> to_int z = z.
Proof.
  unfold to_int. intros Hz Hr.
  destruct (Z.le_gt_cases (2 ^ 31) z) as [Hbig | Hsmall].
  - exfalso.
    replace (z + 2 ^ 31) with (z - 2 ^ 31 + 1 * 2 ^ 32) in Hr by lia.
    rewrite Z.mod_add, Z.mod_small in Hr; lia.
  - rewrite Z.mod_small; lia.
Qed.

(** The chunks of a send add up to the length. *)
Lemma send_chunks_total fuel chip buf sent len w chunks w' :
  send_chunks fuel chip buf sent len w chunks w' ->
  total (map snd chunks) = len
  /\ Forall (fun c => 1 <= fst c <= 63) chunks.
Proof.
  induction 1 as [| sent len w st b w1 w2 rest w' Hlen Hw Hb Hwr Hrest IH].
  - split; [reflexivity | constructor].
  - destruct IH as (IH1 & IH2). cbn [map snd total fold_right].
    fold (total (map snd rest)). rewrite IH1. split; [lia |].
    constructor; [exact Hb | exact IH2].
Qed.

(** The loop of [cr50_tis_i2c_send] that writes the command: when it runs
    to its end, [sent] has grown by [len], in the chunks of
    [send_chunks]. *)
Lemma send_loop_spec rounds :
  forall fuel chip buf sent len w ok sent' w',
  (1001 <= fuel)%nat ->
  0 <= sent -> 0 <= len -> sent + len < 2 ^ 32 ->
  send_loop rounds fuel chip buf sent len w = Some (ok, sent', w') ->
  exists new,
    trace w' = trace w ++ new
    /\ (ok = true ->
        sent' = sent + len
        /\ exists chunks, send_chunks fuel chip buf sent len w chunks w').
Proof.
  induction rounds as [| n IH];
    intros fuel chip buf sent len w ok sent' w' Hfuel Hsent Hlen Hsum X.
  { discriminate X. }
  cbn [send_loop] in X.
  destruct (Z.gtb_spec len 0) as [Hpos | Hzero].
  2:{ injection X as <- <- <-. exists []. rewrite app_nil_r.
      split; [reflexivity |]. intros _.
      assert (len = 0) by lia. subst len.
      split; [lia |]. exists []. constructor. }
  destruct (cr50_wait_burst_status_spec fuel chip TPM_STS_VALID w Hfuel)
    as (r & st & b & w1 & new1 & Hl & Ht1 & _ & _ & _ & Hres).
  rewrite Hl in X.
  destruct Hres as [(-> & pre & data & _ & _ & _ & _ & _ & Hb) | (-> & _)].
  2:{ change (-1 <? 0) with true in X. cbv iota in X.
      injection X as <- <- <-. exists new1.
      split; [exact Ht1 | discriminate]. }
  change (0 <? 0) with false in X. cbv iota in X.
  destruct ((sent >? 0) && (Z.land st TPM_STS_DATA_EXPECT =? 0)).
  { injection X as <- <- <-. exists new1.
    split; [exact Ht1 | discriminate]. }
  unfold CR50_MAX_BUFSIZE in Hb.
  rewrite (u32_small (b - 1)) in X by lia.
  destruct (iic_tpm_write _ _ (Z.min (b - 1) len) w1) as [r2 w2] eqn:Ew.
  destruct (iic_tpm_write_spec _ _ _ _ _ _ Ew) as (Ht2 & Hr2 & _).
  destruct Hr2 as [-> | ->].
  2:{ change (negb (-1 =? 0)) with true in X. cbv iota in X.
      injection X as <- <- <-. eexists.
      split; [rewrite Ht2, Ht1, <- app_assoc; reflexivity | discriminate]. }
  change (negb (0 =? 0)) with false in X. cbv iota in X.
  rewrite (u32_small (sent + Z.min (b - 1) len)) in X by lia.
  rewrite (u32_small (len - Z.min (b - 1) len)) in X by lia.
  apply IH in X; try lia.
  destruct X as (new3 & Ht3 & Hok).
  eexists. split.
  { rewrite Ht3, Ht2, Ht1, <- !app_assoc. reflexivity. }
  intros Hk. destruct (Hok Hk) as (-> & chunks & Hch).
  split; [lia |].
  exists ((b, Z.min (b - 1) len) :: chunks).
  econstructor; eauto.
Qed.

Lemma send_out_spec chip w :
  exists new,
    trace (send_out chip w) = trace w ++ new
    /\ forall pre,
        ends_cancelled (u8 (TPM_STS (locality (vendor chip))))
          TPM_STS_COMMAND_READY (pre ++ new).
Proof.
  unfold send_out.
  destruct (cr50_tis_i2c_status chip w) as [s w1] eqn:Es.
  destruct (cr50_tis_i2c_status_spec _ _ _ _ Es)
    as (r & data & _ & -> & Ht & _).
  destruct (Z.eqb_spec (Z.land (status_byte r data) TPM_STS_COMMAND_READY) 0)
    as [Hs | Hs]; cbn [negb].
  - eexists. split; [exact Ht |]. intros pre.
    exists pre, r, data. left. split; [exact Hs | reflexivity].
  - destruct (cr50_tis_i2c_ready_spec chip w1) as (rw & Htr & _).
    eexists. split.
    { rewrite Htr, Ht, <- app_assoc. reflexivity. }
    intros pre. exists pre, r, data. right. split; [exact Hs |].
    exists rw. reflexivity.
Qed.

(** The two ways [cr50_tis_i2c_send] returns: through [return sent] after
    the ready handshake, the chunks, a last valid status without
    data-expect and the go write; or with -1, and then the log ends as
    [ends_cancelled] says. *)
Lemma cr50_tis_i2c_send_spec fuel chip buf len w r w' :
  (1001 <= fuel)%nat ->
  0 <= len < 2 ^ 32 ->
  cr50_tis_i2c_send fuel chip buf len w = Some (r, w') ->
  let sts := u8 (TPM_STS (locality (vendor chip))) in
  exists new,
    trace w' = trace w ++ new
    /\ ((r = to_int len
         /\ exists w0 w1 chunks st b w2,
             send_ready_loop fuel chip
               (stopwatch_init_msecs_expire CR50_TIMEOUT_LONG_MS w) w
             = Some (true, w0)
             /\ send_chunks fuel chip buf 0 len w0 chunks w1
             /\ cr50_wait_burst_status fuel chip TPM_STS_VALID w1
                = Some (0, st, b, w2)
             /\ Z.land st TPM_STS_DATA_EXPECT = 0
             /\ iic_tpm_write sts [u8 TPM_STS_GO; 0; 0; 0] 4 w2 = (0, w'))
        \/ (r = -1 /\ ends_cancelled sts TPM_STS_COMMAND_READY new)).
Proof.
  intros Hfuel Hlen X sts. unfold cr50_tis_i2c_send in X.
  destruct fuel as [| n] eqn:Ef; [lia |]. rewrite <- Ef in *.
  assert (Hrdy := send_ready_loop_spec n chip
            (stopwatch_init_msecs_expire CR50_TIMEOUT_LONG_MS w) w).
  destruct Hrdy as (ok & w0 & pre & rs & ds & Hl & Ht0 & Hok & Hto).
  { unfold stopwatch_init_msecs_expire, CR50_TIMEOUT_LONG_MS. lia. }
  rewrite <- Ef in Hl. rewrite Hl in X. fold sts in Ht0.
  destruct ok.
  2:{ (* command-ready timeout *)
      injection X as <- <-. eexists. split; [exact Ht0 |]. right.
      split; [reflexivity |]. exists pre, rs, ds. left.
      split; [apply Hto; reflexivity | reflexivity]. }
  destruct (send_loop fuel fuel chip buf 0 len w0)
    as [[[ok1 sent] w1] |] eqn:Eloop; [| discriminate X].
  destruct (send_loop_spec _ _ _ _ _ _ _ _ _ _ Hfuel (Z.le_refl 0)
              (proj1 Hlen) (proj2 Hlen) Eloop) as (new1 & Ht1 & Hok1).
  (* every way to the label out *)
  assert (Hout : forall wx newx,
    trace wx = trace w1 ++ newx ->
    exists new,
      trace (send_out chip wx) = trace w ++ new
      /\ ends_cancelled sts TPM_STS_COMMAND_READY new).
  { intros wx newx Htx.
    destruct (send_out_spec chip wx) as (newo & Hto' & Hend).
    exists ((pre ++ [EvRead sts 4 rs ds]) ++ new1 ++ newx ++ newo).
    split.
    - rewrite Hto', Htx, Ht1, Ht0, <- !app_assoc. reflexivity.
    - rewrite !app_assoc. apply Hend. }
  destruct ok1.
  2:{ injection X as <- <-.
      destruct (Hout w1 []) as (new & Ht & Hend);
        [rewrite app_nil_r; reflexivity |].
      exists new. split; [exact Ht |]. right. split; [reflexivity | exact Hend]. }
  destruct (Hok1 eq_refl) as (Hsent & chunks & Hch). cbn in Hsent. subst sent.
  destruct (cr50_wait_burst_status_spec fuel chip TPM_STS_VALID w1 Hfuel)
    as (r2 & st & b & w2 & new2 & Hl2 & Ht2 & _ & _ & _ & Hres).
  rewrite Hl2 in X.
  destruct Hres as [(-> & _) | (-> & _)].
  2:{ change (-1 <? 0) with true in X. cbv iota in X. injection X as <- <-.
      destruct (Hout w2 new2 Ht2) as (new & Ht & Hend).
      exists new. split; [exact Ht |]. right. split; [reflexivity | exact Hend]. }
  change (0 <? 0) with false in X. cbv iota in X.
  destruct (Z.eqb_spec (Z.land st TPM_STS_DATA_EXPECT) 0) as [Hde | Hde];
    cbn [negb] in X.
  2:{ injection X as <- <-.
      destruct (Hout w2 new2 Ht2) as (new & Ht & Hend).
      exists new. split; [exact Ht |]. right. split; [reflexivity | exact Hend]. }
  fold sts in X.
  destruct (iic_tpm_write sts [u8 TPM_STS_GO; 0; 0; 0] 4 w2)
    as [r3 w3] eqn:Ego.
  destruct (iic_tpm_write_spec _ _ _ _ _ _ Ego) as (Ht3 & Hr3 & _).
  destruct Hr3 as [-> | ->].
  2:{ change (-1 <? 0) with true in X. cbv iota in X. injection X as <- <-.
      destruct (Hout w3 (new2 ++ [EvWrite sts 4 (-1)
                  (firstn (Z.to_nat 4) [u8 TPM_STS_GO; 0; 0; 0])]))
        as (new & Ht & Hend).
      { rewrite Ht3, Ht2, <- app_assoc. reflexivity. }
      exists new. split; [exact Ht |]. right. split; [reflexivity | exact Hend]. }
  change (0 <? 0) with false in X. cbv iota in X. injection X as <- <-.
  eexists. split.
  { rewrite Ht3, Ht2, Ht1, Ht0, <- !app_assoc. reflexivity. }
  left. split; [reflexivity |].
  exists w0, w1, chunks, st, b, w2. auto.
Qed.

(** C2.  Whenever send returns -1 (for a command that fits an [int], so
    that -1 is the error and not a length), the log of the call ends with a
    read of the status register, and, when the status byte of that read
    has the command-ready bit, with the 4-byte ready write to the status
    register after it.  On the command-ready timeout the last status read
    is the one of the loop, which showed the bit clear; on every other
    failure it is the read at the label [out]. *)
Theorem send_failure_cancels fuel chip buf len w w' :
  (1001 <= fuel)%nat ->
  0 <= len <= INT_MAX ->
  cr50_tis_i2c_send fuel chip buf len w = Some (-1, w') ->
  exists new,
    trace w' = trace w ++ new
    /\ ends_cancelled (u8 (TPM_STS (locality (vendor chip))))
         TPM_STS_COMMAND_READY new.
Proof.
  intros Hfuel Hlen X.
  assert (Hsize : 0 <= len < 2 ^ 32) by (unfold INT_MAX in Hlen; lia).
  destruct (cr50_tis_i2c_send_spec _ _ _ _ _ _ _ Hfuel Hsize X)
    as (new & Ht & [(Hr & _) | (_ & Hend)]).
  - rewrite to_int_small in Hr by exact Hlen. lia.
  - exists new. split; assumption.
Qed.

(** A wait that returns 0 returns in the world its last read of the status
    register left, with the status and the burst count of that read. *)
Lemma cr50_wait_burst_status_loop_read n :
  forall chip mask sw w st b w',
  cr50_wait_burst_status_loop n chip mask sw w = Some (0, st, b, w') ->
  exists w0 data,
    iic_tpm_read (u8 (TPM_STS (locality (vendor chip)))) 4 w0 = (0, data, w')
    /\ st = nth 0 data 0
    /\ b = read_le16 (skipn 1 data).
Proof.
  induction n as [| n IH]; intros chip mask sw w st b w' X;
    [discriminate X |].
  cbn [cr50_wait_burst_status_loop] in X.
  destruct (stopwatch_expired sw w); [discriminate X |].
  destruct (iic_tpm_read _ 4 w) as [[r data] w1] eqn:E.
  destruct (Z.eqb_spec r 0) as [-> | Hr]; cbn [negb] in X;
    [| exact (IH _ _ _ _ _ _ _ X)].
  destruct ((Z.land (nth 0 data 0) mask =? mask)
            && (read_le16 (skipn 1 data) >? 0)
            && (read_le16 (skipn 1 data) <=? CR50_MAX_BUFSIZE));
    [| exact (IH _ _ _ _ _ _ _ X)].
  injection X as <- <- <-. exists w, data. auto.
Qed.

Section No_burst_one.

(** A chip that never offers a burst count of 1: every chunk of a send
    then has at least one byte. *)
Variable chip : tpm_chip.

Hypothesis no_burst_one :
  forall (w0 : world Dev) data w1,
    iic_tpm_read (u8 (TPM_STS (locality (vendor chip)))) 4 w0 = (0, data, w1) ->
    read_le16 (skipn 1 data) <> 1.

Lemma wait_burst_two fuel mask w st b w1 :
  cr50_wait_burst_status fuel chip mask w = Some (0, st, b, w1) ->
  b <> 1.
Proof.
  unfold cr50_wait_burst_status. intros X.
  destruct (cr50_wait_burst_status_loop_read _ _ _ _ _ _ _ _ X)
    as (w0 & data & E & _ & ->).
  exact (no_burst_one _ _ _ E).
Qed.

(** The loop of the send comes to an end: every round that does not leave
    writes at least one byte, so [S n] rounds are enough for [n] bytes. *)
Lemma send_loop_returns n :
  forall fuel buf sent len w,
  (1001 <= fuel)%nat ->
  0 <= sent -> 0 <= len -> sent + len < 2 ^ 32 ->
  len <= Z.of_nat n ->
  exists res, send_loop (S n) fuel chip buf sent len w = Some res.
Proof.
  induction n as [| n IH];
    intros fuel buf sent len w Hfuel Hsent Hlen Hsum Hrounds.
  - cbn [send_loop]. change (Z.of_nat 0) with 0 in Hrounds.
    replace (len >? 0) with false
      by (symmetry; rewrite Z.gtb_ltb; apply Z.ltb_ge; lia).
    eauto.
  - remember (S n) as m eqn:Em. cbn [send_loop]. subst m.
    destruct (Z.gtb_spec len 0) as [Hpos | Hzero]; [| eauto].
    destruct (cr50_wait_burst_status_spec fuel chip TPM_STS_VALID w Hfuel)
      as (r & st & b & w1 & new1 & Hl & _ & _ & _ & _ & Hres).
    rewrite Hl.
    destruct Hres as [(-> & pre & data & _ & _ & _ & _ & _ & Hb) | (-> & _)].
    2:{ change (-1 <? 0) with true. cbv iota. eauto. }
    change (0 <? 0) with false. cbv iota.
    assert (Hb1 : b <> 1) by exact (wait_burst_two _ _ _ _ _ _ Hl).
    destruct ((sent >? 0) && (Z.land st TPM_STS_DATA_EXPECT =? 0)); [eauto |].
    unfold CR50_MAX_BUFSIZE in Hb.
    rewrite (u32_small (b - 1)) by lia.
    destruct (iic_tpm_write _ _ (Z.min (b - 1) len) w1) as [r2 w2].
    destruct (negb (r2 =? 0)); [eauto |].
    rewrite (u32_small (sent + Z.min (b - 1) len)) by lia.
    rewrite (u32_small (len - Z.min (b - 1) len)) by lia.
    apply IH; try assumption; lia.
Qed.

Lemma send_chunks_progress fuel buf sent len w chunks w' :
  send_chunks fuel chip buf sent len w chunks w' ->
  Forall (fun c => 2 <= fst c <= 63 /\ 1 <= snd c) chunks
  /\ Z.of_nat (length chunks) <= len.
Proof.
  induction 1 as [| sent len w st b w1 w2 rest w' Hlen Hw Hb Hwr Hrest IH].
  - split; [constructor | cbn; lia].
  - destruct IH as (IH1 & IH2).
    assert (Hb1 : b <> 1) by exact (wait_burst_two _ _ _ _ _ _ Hw).
    unfold CR50_MAX_BUFSIZE in Hb. split.
    + constructor; [cbn [fst snd]; lia | exact IH1].
    + cbn [length]. rewrite Nat2Z.inj_succ. lia.
Qed.

Lemma cr50_tis_i2c_send_returns fuel buf len w :
  (1001 <= fuel)%nat ->
  0 <= len < 2 ^ 32 ->
  len < Z.of_nat fuel ->
  exists r w', cr50_tis_i2c_send fuel chip buf len w = Some (r, w').
Proof.
  intros Hfuel Hlen Hrounds. unfold cr50_tis_i2c_send.
  destruct fuel as [| n] eqn:Ef; [lia |]. rewrite <- Ef in *.
  assert (Hrdy := send_ready_loop_spec n chip
            (stopwatch_init_msecs_expire CR50_TIMEOUT_LONG_MS w) w).
  destruct Hrdy as (ok & w0 & pre & rs & ds & Hl & _).
  { unfold stopwatch_init_msecs_expire, CR50_TIMEOUT_LONG_MS. lia. }
  rewrite <- Ef in Hl. rewrite Hl.
  destruct ok; [| eauto].
  assert (Hleft : len <= Z.of_nat n) by (rewrite Ef in Hrounds; lia).
  destruct (send_loop_returns n fuel buf 0 len w0 Hfuel (Z.le_refl 0)
              (proj1 Hlen) (proj2 Hlen) Hleft) as ([[ok1 sent] w1] & Eloop).
  rewrite <- Ef in Eloop. rewrite Eloop.
  destruct ok1; [| eauto].
  destruct (cr50_wait_burst_status_spec fuel chip TPM_STS_VALID w1 Hfuel)
    as (r2 & st & b & w2 & new2 & Hl2 & _).
  rewrite Hl2.
  destruct (r2 <? 0); [eauto |].
  destruct (negb (Z.land st TPM_STS_DATA_EXPECT =? 0)); [eauto |].
  destruct (iic_tpm_write _ _ 4 w2) as [r3 w3].
  destruct (r3 <? 0); eauto.
Qed.

End No_burst_one.

(** C5, as the code has it.  The send writes the command in chunks: each
    chunk follows a wait that gave a burst count [b] in [1, 63] and has
    [Z.min (b - 1) remaining] bytes.  Whenever a send returns anything but
    -1 it went through the ready handshake and all the chunks, the chunks
    add up to the length, and the value returned is the length as an
    [int]: the length itself when it is not negative.  Against a chip
    that never offers a burst count of 1 every burst count is in [2, 63],
    every chunk has at least one byte, and the send always returns, after
    at most [len] chunks.  (A burst count of 1 gives a chunk of no bytes.) *)
Theorem send_chunking fuel chip buf len w :
  (1001 <= fuel)%nat ->
  0 <= len < 2 ^ 32 ->
  let sts := u8 (TPM_STS (locality (vendor chip))) in
  let ready :=
    send_ready_loop fuel chip
      (stopwatch_init_msecs_expire CR50_TIMEOUT_LONG_MS w) w in
  (forall r w',
     cr50_tis_i2c_send fuel chip buf len w = Some (r, w') ->
     r <> -1 ->
     r = to_int len
     /\ (0 <= r -> r = len)
     /\ exists w0 w1 chunks,
         ready = Some (true, w0)
         /\ send_chunks fuel chip buf 0 len w0 chunks w1
         /\ Forall (fun c => 1 <= fst c <= 63) chunks
         /\ total (map snd chunks) = len)
  /\ ((forall (w0 : world Dev) data w1,
         iic_tpm_read sts 4 w0 = (0, data, w1) ->
         read_le16 (skipn 1 data) <> 1) ->
      len < Z.of_nat fuel ->
      exists r w',
        cr50_tis_i2c_send fuel chip buf len w = Some (r, w')
        /\ (r = -1
            \/ (r = to_int len
                /\ exists w0 w1 chunks,
                    ready = Some (true, w0)
                    /\ send_chunks fuel chip buf 0 len w0 chunks w1
                    /\ Forall (fun c => 2 <= fst c <= 63 /\ 1 <= snd c) chunks
                    /\ total (map snd chunks) = len
                    /\ Z.of_nat (length chunks) <= len))).
Proof.
  intros Hfuel Hlen sts ready.
  assert (Hpart : forall r w',
            cr50_tis_i2c_send fuel chip buf len w = Some (r, w') ->
            r <> -1 ->
            r = to_int len
            /\ exists w0 w1 chunks,
                ready = Some (true, w0)
                /\ send_chunks fuel chip buf 0 len w0 chunks w1).
  { intros r w' X Hr.
    destruct (cr50_tis_i2c_send_spec _ _ _ _ _ _ _ Hfuel Hlen X)
      as (new & Ht & [(Hret & w0 & w1 & chunks & st & b & w2 & Hrdy & Hch & _)
                     | (Hret & _)]); [| contradiction].
    split; [exact Hret |]. exists w0, w1, chunks. split; assumption. }
  split.
  - intros r w' X Hr.
    destruct (Hpart r w' X Hr) as (Hret & w0 & w1 & chunks & Hrdy & Hch).
    split; [exact Hret |]. split.
    { intros Hpos. subst r. apply to_int_nonneg; assumption. }
    exists w0, w1, chunks.
    destruct (send_chunks_total _ _ _ _ _ _ _ _ Hch) as (Htot & Hall).
    auto.
  - intros Hno Hrounds.
    destruct (cr50_tis_i2c_send_returns chip Hno fuel buf len w
                Hfuel Hlen Hrounds) as (r & w' & X).
    exists r, w'. split; [exact X |].
    destruct (Z.eq_dec r (-1)) as [Hr | Hr]; [left; exact Hr | right].
    destruct (Hpart r w' X Hr) as (Hret & w0 & w1 & chunks & Hrdy & Hch).
    split; [exact Hret |]. exists w0, w1, chunks.
    destruct (send_chunks_total _ _ _ _ _ _ _ _ Hch) as (Htot & _).
    destruct (send_chunks_progress chip Hno _ _ _ _ _ _ _ Hch)
      as (Hall & Hcount).
    auto 6.
Qed.

(** The command-ready loop when no read of the status register ever
    succeeds: every round sees status 0, writes ready and waits, until the
    stopwatch expires. *)
Lemma send_ready_loop_dead n :
  forall chip sw w,
  let sts := u8 (TPM_STS (locality (vendor chip))) in
  (forall w0 : world Dev, fst (fst (iic_tpm_read sts 4 w0)) = -1) ->
  sw - clock w <= 2000 * Z.of_nat n ->
  exists w' rws,
    send_ready_loop (S n) chip sw w = Some (false, w')
    /\ trace w'
       = trace w ++ ready_rounds sts TPM_STS_COMMAND_READY rws
                 ++ [EvRead sts 4 (-1) []]
    /\ sw <= clock w'
    /\ clock w' <= clock w + 6000 * Z.of_nat (length rws) + 2000
    /\ (rws = [] \/ clock w + 2000 * (Z.of_nat (length rws) - 1) < sw).
Proof.
  intros chip sw w sts Hdead. revert w.
  assert (Hstatus : forall w0, exists w1,
            cr50_tis_i2c_status chip w0 = (0, w1)
            /\ trace w1 = trace w0 ++ [EvRead sts 4 (-1) []]
            /\ clock w0 <= clock w1 <= clock w0 + 2000).
  { intros w0. unfold cr50_tis_i2c_status. fold sts.
    specialize (Hdead w0).
    destruct (iic_tpm_read sts 4 w0) as [[r data] w1] eqn:E.
    cbn [fst] in Hdead. subst r.
    destruct (iic_tpm_read_spec _ _ _ _ _ _ E) as (Ht & _ & Hc & _).
    destruct (iic_tpm_read_data _ _ _ _ _ _ E) as (Hd & _).
    rewrite (Hd eq_refl) in Ht.
    exists w1. change (-1 <? 0) with true. cbv iota.
    split; [reflexivity |]. split; [exact Ht | lia]. }
  assert (Hzero : (Z.land 0 TPM_STS_COMMAND_READY =? 0) = true)
    by (rewrite Z.land_0_l; reflexivity).
  induction n as [| n IH]; intros w Hfuel.
  - cbn [send_ready_loop].
    destruct (Hstatus w) as (w1 & -> & Ht & Hc).
    rewrite Hzero. cbn [negb]. unfold stopwatch_expired.
    change (Z.of_nat 0) with 0 in Hfuel.
    replace (sw <=? clock w1) with true by (symmetry; apply Z.leb_le; lia).
    exists w1, []. cbn [ready_rounds flat_map app length].
    repeat split; auto; lia.
  - remember (S n) as m eqn:Em. cbn [send_ready_loop]. subst m.
    destruct (Hstatus w) as (w1 & -> & Ht & Hc).
    rewrite Hzero. cbn [negb]. unfold stopwatch_expired.
    destruct (Z.leb_spec sw (clock w1)) as [Hexp | Hexp].
    + exists w1, []. cbn [ready_rounds flat_map app length].
      repeat split; auto; lia.
    + destruct (cr50_tis_i2c_ready_spec chip w1) as (rw & Htr & Hcr).
      fold sts in Htr.
      destruct (IH (cr50_tis_i2c_ready chip w1))
        as (w' & rws & Hl & Ht' & Hsw & Hhi & Hlo).
      { rewrite Nat2Z.inj_succ in Hfuel. lia. }
      exists w', (rw :: rws). split; [exact Hl |].
      split.
      { rewrite Ht', Htr, Ht. cbn [ready_rounds flat_map].
        rewrite <- !app_assoc. reflexivity. }
      split; [exact Hsw |]. cbn [length]. rewrite Nat2Z.inj_succ.
      split; [lia |]. right.
      destruct Hlo as [-> | Hlo]; cbn [length] in *; lia.
Qed.

(** C10.  A failed read of the status register makes
    [cr50_tis_i2c_status] return 0.  So when no read of the status
    register succeeds, send does not fail at once: its command-ready loop
    takes every round for "not ready", writes ready again and again (at
    least 333 times, at most 1000) and gives up with -1 only when the
    2000 ms are over; the last entry of the log is the failed status read
    that met the expired stopwatch. *)
Theorem status_read_failure_reads_as_not_ready :
  (forall chip w0 r data w1,
     iic_tpm_read (u8 (TPM_STS (locality (vendor chip)))) 4 w0 = (r, data, w1) ->
     r < 0 ->
     cr50_tis_i2c_status chip w0 = (0, w1))
  /\ (forall fuel chip buf len w,
        (1001 <= fuel)%nat ->
        (forall w0 : world Dev,
           fst (fst (iic_tpm_read (u8 (TPM_STS (locality (vendor chip)))) 4 w0))
           = -1) ->
        exists w' rws,
          cr50_tis_i2c_send fuel chip buf len w = Some (-1, w')
          /\ trace w'
             = trace w
               ++ ready_rounds (u8 (TPM_STS (locality (vendor chip))))
                    TPM_STS_COMMAND_READY rws
               ++ [EvRead (u8 (TPM_STS (locality (vendor chip)))) 4 (-1) []]
          /\ (333 <= length rws <= 1000)%nat
          /\ clock w + 2000 * 1000 <= clock w').
Proof.
  split.
  - intros chip w0 r data w1 E Hr. unfold cr50_tis_i2c_status. rewrite E.
    apply Z.ltb_lt in Hr. rewrite Hr. reflexivity.
  - intros fuel chip buf len w Hfuel Hdead.
    destruct fuel as [| n] eqn:Ef; [lia |].
    destruct (send_ready_loop_dead n chip
                (stopwatch_init_msecs_expire CR50_TIMEOUT_LONG_MS w) w Hdead)
      as (w' & rws & Hl & Ht & Hsw & Hhi & Hlo).
    { unfold stopwatch_init_msecs_expire, CR50_TIMEOUT_LONG_MS. lia. }
    exists w', rws. unfold cr50_tis_i2c_send. rewrite Hl.
    split; [reflexivity |]. split; [exact Ht |].
    unfold stopwatch_init_msecs_expire, CR50_TIMEOUT_LONG_MS in Hsw, Hlo.
    split; [| lia].
    destruct Hlo as [-> | Hlo]; cbn [length] in *; lia.
Qed.

(** ** Receive *)

(** The chunks after the first one stop at the expected length: each is
    at most what is missing, and together they make up what is missing. *)
Lemma recv_chunks_total fuel chip addr buf current expected w chunks buf' w' :
  recv_chunks fuel chip addr buf current expected w chunks buf' w' ->
  current + total (map snd chunks) = Z.max current expected
  /\ Forall (fun c => 1 <= fst c <= 63 /\ 1 <= snd c) chunks.
Proof.
  induction 1 as [| buf current expected w st b w1 data w2 rest buf' w'
                    Hlt Hw Hda Hb Hrd Hrest IH].
  - split; [cbn; lia | constructor].
  - destruct IH as (IH1 & IH2). cbn [map snd total fold_right fst].
    fold (total (map snd rest)). unfold CR50_MAX_BUFSIZE in Hb.
    split; [lia |]. constructor; [cbn [fst snd]; lia | exact IH2].
Qed.

Lemma recv_loop_spec rounds :
  forall fuel chip addr buf current expected w ok buf' current' w',
  (1001 <= fuel)%nat ->
  0 <= current -> expected < 2 ^ 32 ->
  recv_loop rounds fuel chip addr buf current expected w
  = Some (ok, buf', current', w') ->
  exists new,
    trace w' = trace w ++ new
    /\ (ok = true ->
        current' = Z.max current expected
        /\ exists chunks,
            recv_chunks fuel chip addr buf current expected w chunks buf' w').
Proof.
  induction rounds as [| n IH];
    intros fuel chip addr buf current expected w ok buf' current' w'
           Hfuel Hcur Hexp X.
  { discriminate X. }
  cbn [recv_loop] in X.
  destruct (Z.ltb_spec current expected) as [Hlt | Hge].
  2:{ injection X as <- <- <- <-. exists []. rewrite app_nil_r.
      split; [reflexivity |]. intros _. split; [lia |].
      exists []. constructor. exact Hge. }
  destruct (cr50_wait_burst_status_spec fuel chip TPM_STS_VALID w Hfuel)
    as (r & st & b & w1 & new1 & Hl & Ht1 & _ & _ & _ & Hres).
  rewrite Hl in X.
  destruct Hres as [(-> & pre & data & _ & _ & _ & _ & _ & Hb) | (-> & _)].
  2:{ change (-1 <? 0) with true in X. cbv iota in X.
      injection X as <- <- <- <-. exists new1.
      split; [exact Ht1 | discriminate]. }
  change (0 <? 0) with false in X. cbv iota in X.
  destruct (Z.eqb_spec (Z.land st TPM_STS_DATA_AVAIL) 0) as [Hda | Hda].
  { injection X as <- <- <- <-. exists new1.
    split; [exact Ht1 | discriminate]. }
  unfold CR50_MAX_BUFSIZE in Hb.
  rewrite (u32_small (expected - current)) in X by lia.
  destruct (iic_tpm_read addr (Z.min b (expected - current)) w1)
    as [[r2 d2] w2] eqn:Er.
  destruct (iic_tpm_read_spec _ _ _ _ _ _ Er) as (Ht2 & Hr2 & _).
  destruct Hr2 as [-> | ->].
  2:{ change (negb (-1 =? 0)) with true in X. cbv iota in X.
      injection X as <- <- <- <-. eexists.
      split; [rewrite Ht2, Ht1, <- app_assoc; reflexivity | discriminate]. }
  change (negb (0 =? 0)) with false in X. cbv iota in X.
  rewrite (u32_small (current + Z.min b (expected - current))) in X by lia.
  apply IH in X; try lia.
  destruct X as (new3 & Ht3 & Hok).
  eexists. split.
  { rewrite Ht3, Ht2, Ht1, <- !app_assoc. reflexivity. }
  intros Hk. destruct (Hok Hk) as (-> & chunks & Hch).
  split; [lia |].
  exists ((b, Z.min b (expected - current)) :: chunks).
  econstructor; eauto.
Qed.

(** C7.  When the first chunk has been read and the length in its header
    is larger than the buffer, [cr50_tis_i2c_recv] returns -1 in the world
    the read of the first chunk left: the log of the call is status reads
    and then that one FIFO read, and nothing after it. *)
Theorem recv_rejects_too_large fuel chip buf buf_len w st b w1 data w2 :
  (1001 <= fuel)%nat ->
  TPM_HEADER_SIZE <= buf_len ->
  let fifo := u8 (TPM_DATA_FIFO (locality (vendor chip))) in
  let sts := u8 (TPM_STS (locality (vendor chip))) in
  cr50_wait_burst_status fuel chip TPM_STS_VALID w = Some (0, st, b, w1) ->
  Z.land st TPM_STS_DATA_AVAIL <> 0 ->
  iic_tpm_read fifo b w1 = (0, data, w2) ->
  buf_len
  < read_be32 (skipn (Z.to_nat TPM_RSP_SIZE_BYTE) (write_at buf 0 data)) ->
  cr50_tis_i2c_recv fuel chip buf buf_len w
  = Some (-1, write_at buf 0 data, w2)
  /\ exists polls,
      trace w2 = trace w ++ polls ++ [EvRead fifo b 0 data]
      /\ forallb (is_read_of sts 4) polls = true.
Proof.
  intros Hfuel Hcap fifo sts Hw Hda Hrd Hbig. split.
  - unfold cr50_tis_i2c_recv. fold fifo.
    replace (buf_len <? TPM_HEADER_SIZE) with false
      by (symmetry; apply Z.ltb_ge; exact Hcap).
    rewrite Hw. change (0 <? 0) with false. cbv iota.
    apply Z.eqb_neq in Hda. rewrite Hda, Hrd.
    change (negb (0 =? 0)) with false. cbv iota.
    replace (read_be32 (skipn (Z.to_nat TPM_RSP_SIZE_BYTE)
                          (write_at buf 0 data)) >? buf_len) with true
      by (symmetry; apply Z.gtb_lt; exact Hbig).
    reflexivity.
  - destruct (cr50_wait_burst_status_spec fuel chip TPM_STS_VALID w Hfuel)
      as (r & st' & b' & w1' & polls & Hl & Ht & Hrd' & _).
    rewrite Hw in Hl. injection Hl as <- <- <- <-.
    destruct (iic_tpm_read_spec _ _ _ _ _ _ Hrd) as (Ht2 & _).
    exists polls. split; [| exact Hrd'].
    rewrite Ht2, Ht, <- app_assoc. reflexivity.
Qed.

(** What a log asks of a register adds up over its parts, and status
    polls ask nothing of another register. *)
Lemma asked_of_app reg tr1 tr2 :
  asked_of reg (tr1 ++ tr2) = asked_of reg tr1 ++ asked_of reg tr2.
Proof. apply flat_map_app. Qed.

Lemma asked_of_other reg other len tr :
  reg <> other ->
  forallb (is_read_of other len) tr = true -> asked_of reg tr = [].
Proof.
  intros Hne. induction tr as [| e tr IH]; [reflexivity |].
  cbn [forallb]. rewrite andb_true_iff. intros (He & Htr).
  destruct e as [r l ret d | r l ret d]; [| discriminate He].
  cbn [is_read_of] in He. apply andb_true_iff in He. destruct He as (Hr & _).
  apply Z.eqb_eq in Hr. subst r.
  cbn [asked_of flat_map]. fold (asked_of reg tr). rewrite (IH Htr).
  replace (other =? reg) with false
    by (symmetry; apply Z.eqb_neq; congruence).
  reflexivity.
Qed.

(** The chunk loop of a receive, however it ends: every FIFO read it asks
    for, the one that fails included, is at least one byte and at most
    what is still missing, so what the loop asks of the FIFO never takes
    [current] past [expected].  When the loop runs to its end the reads
    are the chunks of [recv_chunks] and make up exactly what was
    missing. *)
Lemma recv_loop_asked rounds :
  forall fuel chip addr buf current expected w ok buf' current' w',
  (1001 <= fuel)%nat ->
  0 <= current -> expected < 2 ^ 32 ->
  addr <> u8 (TPM_STS (locality (vendor chip))) ->
  recv_loop rounds fuel chip addr buf current expected w
  = Some (ok, buf', current', w') ->
  exists new,
    trace w' = trace w ++ new
    /\ Forall (fun l => 1 <= l) (asked_of addr new)
    /\ current + total (asked_of addr new) <= Z.max current expected
    /\ (ok = true ->
        current' = Z.max current expected
        /\ current + total (asked_of addr new) = Z.max current expected
        /\ exists chunks,
            recv_chunks fuel chip addr buf current expected w chunks buf' w'
            /\ map snd chunks = asked_of addr new).
Proof.
  induction rounds as [| n IH];
    intros fuel chip addr buf current expected w ok buf' current' w'
           Hfuel Hcur Hexp Hne X.
  { discriminate X. }
  cbn [recv_loop] in X.
  destruct (Z.ltb_spec current expected) as [Hlt | Hge].
  2:{ injection X as <- <- <- <-. exists []. rewrite app_nil_r.
      split; [reflexivity |]. split; [constructor |].
      split; [cbn; lia |]. intros _. split; [lia |]. split; [cbn; lia |].
      exists []. split; [constructor; exact Hge | reflexivity]. }
  destruct (cr50_wait_burst_status_spec fuel chip TPM_STS_VALID w Hfuel)
    as (r & st & b & w1 & new1 & Hl & Ht1 & Hrd1 & _ & _ & Hres).
  rewrite Hl in X.
  assert (Hnone1 : asked_of addr new1 = [])
    by exact (asked_of_other _ _ _ _ Hne Hrd1).
  (* the ways out before the FIFO is read *)
  assert (Hleft : exists new,
            trace w1 = trace w ++ new
            /\ Forall (fun l => 1 <= l) (asked_of addr new)
            /\ current + total (asked_of addr new) <= Z.max current expected
            /\ (false = true ->
                current = Z.max current expected
                /\ current + total (asked_of addr new)
                   = Z.max current expected
                /\ exists chunks,
                    recv_chunks fuel chip addr buf current expected w chunks
                      buf w1
                    /\ map snd chunks = asked_of addr new)).
  { exists new1. split; [exact Ht1 |]. rewrite Hnone1.
    split; [constructor |]. split; [cbn; lia | discriminate]. }
  destruct Hres as [(-> & pre & data & _ & _ & _ & _ & _ & Hb) | (-> & _)].
  2:{ change (-1 <? 0) with true in X. cbv iota in X.
      injection X as <- <- <- <-. exact Hleft. }
  change (0 <? 0) with false in X. cbv iota in X.
  destruct (Z.eqb_spec (Z.land st TPM_STS_DATA_AVAIL) 0) as [Hda | Hda].
  { injection X as <- <- <- <-. exact Hleft. }
  clear Hleft. unfold CR50_MAX_BUFSIZE in Hb.
  rewrite (u32_small (expected - current)) in X by lia.
  destruct (iic_tpm_read addr (Z.min b (expected - current)) w1)
    as [[r2 d2] w2] eqn:Er.
  destruct (iic_tpm_read_spec _ _ _ _ _ _ Er) as (Ht2 & Hr2 & _).
  assert (Hone : asked_of addr
                   (new1 ++ [EvRead addr (Z.min b (expected - current)) r2 d2])
                 = [Z.min b (expected - current)]).
  { rewrite asked_of_app, Hnone1. cbn [asked_of flat_map app].
    rewrite Z.eqb_refl. reflexivity. }
  destruct Hr2 as [-> | ->].
  2:{ change (negb (-1 =? 0)) with true in X. cbv iota in X.
      injection X as <- <- <- <-. eexists.
      split; [rewrite Ht2, Ht1, <- app_assoc; reflexivity |].
      rewrite Hone. split; [constructor; [lia | constructor] |].
      split; [cbn; lia | discriminate]. }
  change (negb (0 =? 0)) with false in X. cbv iota in X.
  rewrite (u32_small (current + Z.min b (expected - current))) in X by lia.
  apply IH in X; try assumption; try lia.
  destruct X as (new3 & Ht3 & Hall & Hsum & Hok).
  exists ((new1 ++ [EvRead addr (Z.min b (expected - current)) 0 d2]) ++ new3).
  split. { rewrite Ht3, Ht2, Ht1, <- !app_assoc. reflexivity. }
  rewrite asked_of_app, Hone. cbn [app total fold_right].
  fold (total (asked_of addr new3)).
  split; [constructor; [lia | exact Hall] |].
  split; [lia |].
  intros Hk. destruct (Hok Hk) as (-> & Htot & chunks & Hch & Hmap).
  split; [lia |]. split; [lia |].
  exists ((b, Z.min b (expected - current)) :: chunks).
  split; [econstructor; eauto |].
  cbn [map snd]. rewrite Hmap. reflexivity.
Qed.

(** C1, as the code has it.  Every receive call, however it ends, either
    leaves before it asks the data FIFO for anything (and returns -1), or
    asks first for the whole burst count [b0] the chip reported, between 1
    and 63 bytes: that first chunk is asked for before the expected length
    is known and is not bounded by it.  When the first read fails, or the
    length found in the header is larger than the buffer, nothing more is
    asked.  Otherwise every later read of the FIFO, the last one of a call
    that fails included, asks for at least one byte and for no more than
    what is missing, so that all reads together ask for at most
    [Z.max b0 expected] bytes.  A receive that succeeds has read exactly
    that many, in the chunks of [recv_chunks], and returns that number:
    the expected length when the first burst did not go past it. *)
Theorem recv_reads_burst_then_expected fuel chip buf buf_len w r buf' w' :
  (1001 <= fuel)%nat ->
  0 <= buf_len < 2 ^ 32 ->
  let fifo := u8 (TPM_DATA_FIFO (locality (vendor chip))) in
  fifo <> u8 (TPM_STS (locality (vendor chip))) ->
  cr50_tis_i2c_recv fuel chip buf buf_len w = Some (r, buf', w') ->
  exists new,
    trace w' = trace w ++ new
    /\ ((r = -1 /\ asked_of fifo new = [])
        \/ exists st0 b0 w1 r0 data0 w2 later,
            cr50_wait_burst_status fuel chip TPM_STS_VALID w
            = Some (0, st0, b0, w1)
            /\ 1 <= b0 <= 63
            /\ iic_tpm_read fifo b0 w1 = (r0, data0, w2)
            /\ trace w' = trace w2 ++ later
            /\ asked_of fifo new = b0 :: asked_of fifo later
            /\ let expected :=
                 read_be32 (skipn (Z.to_nat TPM_RSP_SIZE_BYTE)
                              (write_at buf 0 data0)) in
               Forall (fun l => 1 <= l) (asked_of fifo later)
               /\ b0 + total (asked_of fifo later) <= Z.max b0 expected
               /\ (r0 <> 0 \/ buf_len < expected -> r = -1 /\ later = [])
               /\ (r = -1 \/ r = to_int (Z.max b0 expected))
               /\ (0 <= r ->
                   r0 = 0
                   /\ expected <= buf_len
                   /\ b0 + total (asked_of fifo later) = Z.max b0 expected
                   /\ r = Z.max b0 expected
                   /\ (b0 <= expected -> r = expected)
                   /\ exists chunks w3,
                       recv_chunks fuel chip fifo (write_at buf 0 data0)
                         b0 expected w2 chunks buf' w3
                       /\ map snd chunks = asked_of fifo later)).
Proof.
  intros Hfuel Hcap fifo Hne X. unfold cr50_tis_i2c_recv in X. fold fifo in X.
  destruct (buf_len <? TPM_HEADER_SIZE).
  { injection X as <- <- <-. exists []. rewrite app_nil_r.
    split; [reflexivity |]. left. split; reflexivity. }
  destruct (cr50_wait_burst_status_spec fuel chip TPM_STS_VALID w Hfuel)
    as (r1 & st0 & b0 & w1 & new1 & Hl & Ht1 & Hrd1 & _ & _ & Hres).
  rewrite Hl in X.
  assert (Hnone1 : asked_of fifo new1 = [])
    by exact (asked_of_other _ _ _ _ Hne Hrd1).
  destruct Hres as [(-> & pre & d & _ & _ & _ & _ & _ & Hb) | (-> & _)].
  2:{ change (-1 <? 0) with true in X. cbv iota in X.
      injection X as <- <- <-. exists new1. split; [exact Ht1 |].
      left. split; [reflexivity | exact Hnone1]. }
  change (0 <? 0) with false in X. cbv iota in X.
  destruct (Z.land st0 TPM_STS_DATA_AVAIL =? 0).
  { injection X as <- <- <-. exists new1. split; [exact Ht1 |].
    left. split; [reflexivity | exact Hnone1]. }
  unfold CR50_MAX_BUFSIZE in Hb.
  destruct (iic_tpm_read fifo b0 w1) as [[r0 data0] w2] eqn:Er.
  destruct (iic_tpm_read_spec _ _ _ _ _ _ Er) as (Ht2 & Hr0 & _).
  set (expected := read_be32 (skipn (Z.to_nat TPM_RSP_SIZE_BYTE)
                                (write_at buf 0 data0))) in *.
  (* from here on the first chunk has been asked for *)
  assert (Hfirst : forall later,
            asked_of fifo ((new1 ++ [EvRead fifo b0 r0 data0]) ++ later)
            = b0 :: asked_of fifo later).
  { intros later. rewrite !asked_of_app, Hnone1.
    cbn [asked_of flat_map app]. rewrite Z.eqb_refl. reflexivity. }
  assert (Hlog : forall later,
            trace w' = trace w2 ++ later ->
            trace w'
            = trace w ++ (new1 ++ [EvRead fifo b0 r0 data0]) ++ later).
  { intros later ->. rewrite Ht2, Ht1, <- !app_assoc. reflexivity. }
  (* a receive that ends with -1 after asking for [later] *)
  assert (Hfail : forall later,
            trace w' = trace w2 ++ later ->
            r = -1 ->
            Forall (fun l => 1 <= l) (asked_of fifo later) ->
            b0 + total (asked_of fifo later) <= Z.max b0 expected ->
            (r0 <> 0 \/ buf_len < expected -> later = []) ->
            exists new,
              trace w' = trace w ++ new
              /\ ((r = -1 /\ asked_of fifo new = [])
                  \/ exists st0 b0 w1 r0 data0 w2 later,
                      cr50_wait_burst_status fuel chip TPM_STS_VALID w
                      = Some (0, st0, b0, w1)
                      /\ 1 <= b0 <= 63
                      /\ iic_tpm_read fifo b0 w1 = (r0, data0, w2)
                      /\ trace w' = trace w2 ++ later
                      /\ asked_of fifo new = b0 :: asked_of fifo later
                      /\ let expected :=
                           read_be32 (skipn (Z.to_nat TPM_RSP_SIZE_BYTE)
                                        (write_at buf 0 data0)) in
                         Forall (fun l => 1 <= l) (asked_of fifo later)
                         /\ b0 + total (asked_of fifo later)
                            <= Z.max b0 expected
                         /\ (r0 <> 0 \/ buf_len < expected ->
                             r = -1 /\ later = [])
                         /\ (r = -1 \/ r = to_int (Z.max b0 expected))
                         /\ (0 <= r ->
                             r0 = 0
                             /\ expected <= buf_len
                             /\ b0 + total (asked_of fifo later)
                                = Z.max b0 expected
                             /\ r = Z.max b0 expected
                             /\ (b0 <= expected -> r = expected)
                             /\ exists chunks w3,
                                 recv_chunks fuel chip fifo
                                   (write_at buf 0 data0) b0 expected w2
                                   chunks buf' w3
                                 /\ map snd chunks = asked_of fifo later))).
  { intros later Htl Hr Hall Hsum Hstop.
    exists ((new1 ++ [EvRead fifo b0 r0 data0]) ++ later).
    split; [exact (Hlog later Htl) |]. right.
    exists st0, b0, w1, r0, data0, w2, later.
    split; [exact Hl |]. split; [lia |]. split; [exact Er |].
    split; [exact Htl |]. split; [exact (Hfirst later) |].
    cbv zeta. fold expected.
    split; [exact Hall |]. split; [exact Hsum |].
    split; [intros Hc; split; [exact Hr | exact (Hstop Hc)] |].
    split; [left; exact Hr |]. intros Hpos. lia. }
  assert (Hnil : trace w2 = trace w2 ++ []) by (rewrite app_nil_r; reflexivity).
  destruct Hr0 as [-> | ->].
  2:{ change (negb (-1 =? 0)) with true in X. cbv iota in X.
      injection X as <- <- <-.
      apply (Hfail [] Hnil eq_refl);
        [constructor | cbn; lia | intros _; reflexivity]. }
  change (negb (0 =? 0)) with false in X. cbv iota in X.
  destruct (Z.gtb_spec expected buf_len) as [Hbig | Hfit].
  { injection X as <- <- <-.
    apply (Hfail [] Hnil eq_refl);
        [constructor | cbn; lia | intros _; reflexivity]. }
  destruct (recv_loop fuel fuel chip fifo (write_at buf 0 data0) b0 expected w2)
    as [[[[ok buf2] current] w3] |] eqn:Eloop; [| discriminate X].
  assert (Hb0 : 0 <= b0) by lia.
  assert (Hexp : expected < 2 ^ 32) by lia.
  destruct (recv_loop_asked _ _ _ _ _ _ _ _ _ _ _ _ Hfuel Hb0 Hexp Hne Eloop)
    as (new3 & Ht3 & Hall & Hsum & Hok).
  destruct ok.
  2:{ injection X as <- <- <-.
      apply (Hfail new3 Ht3 eq_refl Hall Hsum).
      intros [Hc | Hc]; [congruence | lia]. }
  destruct (Hok eq_refl) as (-> & Htot & chunks & Hch & Hmap).
  destruct (cr50_wait_burst_status_spec fuel chip TPM_STS_VALID w3 Hfuel)
    as (r4 & st4 & b4 & w4 & new4 & Hl4 & Ht4 & Hrd4 & _ & _ & Hres4).
  rewrite Hl4 in X.
  assert (Hnone4 : asked_of fifo (new3 ++ new4) = asked_of fifo new3).
  { rewrite asked_of_app, (asked_of_other _ _ _ _ Hne Hrd4), app_nil_r.
    reflexivity. }
  assert (Ht34 : trace w4 = trace w2 ++ new3 ++ new4).
  { rewrite Ht4, Ht3, <- app_assoc. reflexivity. }
  assert (Hfail4 : r = -1 -> w' = w4 ->
            exists new,
              trace w' = trace w ++ new
              /\ ((r = -1 /\ asked_of fifo new = [])
                  \/ exists st0 b0 w1 r0 data0 w2 later,
                      cr50_wait_burst_status fuel chip TPM_STS_VALID w
                      = Some (0, st0, b0, w1)
                      /\ 1 <= b0 <= 63
                      /\ iic_tpm_read fifo b0 w1 = (r0, data0, w2)
                      /\ trace w' = trace w2 ++ later
                      /\ asked_of fifo new = b0 :: asked_of fifo later
                      /\ let expected :=
                           read_be32 (skipn (Z.to_nat TPM_RSP_SIZE_BYTE)
                                        (write_at buf 0 data0)) in
                         Forall (fun l => 1 <= l) (asked_of fifo later)
                         /\ b0 + total (asked_of fifo later)
                            <= Z.max b0 expected
                         /\ (r0 <> 0 \/ buf_len < expected ->
                             r = -1 /\ later = [])
                         /\ (r = -1 \/ r = to_int (Z.max b0 expected))
                         /\ (0 <= r ->
                             r0 = 0
                             /\ expected <= buf_len
                             /\ b0 + total (asked_of fifo later)
                                = Z.max b0 expected
                             /\ r = Z.max b0 expected
                             /\ (b0 <= expected -> r = expected)
                             /\ exists chunks w3,
                                 recv_chunks fuel chip fifo
                                   (write_at buf 0 data0) b0 expected w2
                                   chunks buf' w3
                                 /\ map snd chunks = asked_of fifo later))).
  { intros Hr Hw. apply (Hfail (new3 ++ new4)).
    - rewrite Hw. exact Ht34.
    - exact Hr.
    - rewrite Hnone4. exact Hall.
    - rewrite Hnone4. exact Hsum.
    - intros [Hc | Hc]; [congruence | lia]. }
  destruct Hres4 as [(-> & _) | (-> & _)].
  2:{ change (-1 <? 0) with true in X. cbv iota in X.
      injection X as <- <- <-. apply Hfail4; reflexivity. }
  change (0 <? 0) with false in X. cbv iota in X.
  destruct (negb (Z.land st4 TPM_STS_DATA_AVAIL =? 0)).
  { injection X as <- <- <-. apply Hfail4; reflexivity. }
  injection X as <- <- <-.
  exists ((new1 ++ [EvRead fifo b0 0 data0]) ++ new3 ++ new4).
  split. { apply Hlog. exact Ht34. }
  right. exists st0, b0, w1, 0, data0, w2, (new3 ++ new4).
  split; [exact Hl |]. split; [lia |]. split; [exact Er |].
  split; [exact Ht34 |]. split; [exact (Hfirst (new3 ++ new4)) |].
  cbv zeta. fold expected. rewrite Hnone4.
  split; [exact Hall |]. split; [exact Hsum |].
  split; [intros [Hc | Hc]; [congruence | lia] |].
  split; [right; reflexivity |].
  intros Hpos.
  assert (Hret : to_int (Z.max b0 expected) = Z.max b0 expected).
  { apply to_int_nonneg; [lia | exact Hpos]. }
  split; [reflexivity |]. split; [exact Hfit |]. split; [exact Htot |].
  split; [exact Hret |]. split; [intros Hle; rewrite Hret; lia |].
  exists chunks, w3. split; [exact Hch | exact Hmap].
Qed.

(** ** Init *)

(** One check of the locality, read off the log: it finds the locality
    exactly when its read of the access register succeeds and shows
    active and valid. *)
Lemma check_locality_shows chip loc w r chip' w1 :
  0 <= loc ->
  check_locality chip loc w = (r, chip', w1) ->
  let acc := u8 (TPM_ACCESS loc) in
  let own := Z.lor TPM_ACCESS_ACTIVE_LOCALITY TPM_ACCESS_VALID in
  exists rr data,
    trace w1 = trace w ++ [EvRead acc 1 rr data]
    /\ ((r = loc /\ chip' = set_locality loc chip /\ rr = 0
         /\ shows_all own (EvRead acc 1 rr data) = true)
        \/ (r = -1 /\ chip' = chip
            /\ shows_all own (EvRead acc 1 rr data) = false)).
Proof.
  intros Hloc X acc own. unfold check_locality in X. fold acc own in X.
  destruct (iic_tpm_read acc 1 w) as [[rr data] w0] eqn:E.
  destruct (iic_tpm_read_spec _ _ _ _ _ _ E) as (Ht & Hr & _).
  exists rr, data. cbn [shows_all].
  destruct Hr as [-> | ->].
  - change (0 <? 0) with false in X. cbv iota in X.
    change (0 =? 0) with true. cbn [andb].
    destruct (Z.land (nth 0 data 0) own =? own);
      injection X as <- <- <-; auto 6.
  - change (-1 <? 0) with true in X. cbv iota in X.
    injection X as <- <- <-. split; [exact Ht |]. right. auto.
Qed.

(** The counted loop of [request_locality], read off the log: it gives
    the locality at the first check that shows it, and gives up when none
    of its [n] checks does. *)
Lemma request_locality_loop_shows n :
  forall chip loc w r chip' w',
  0 <= loc ->
  request_locality_loop n chip loc w = (r, chip', w') ->
  let acc := u8 (TPM_ACCESS loc) in
  let own := Z.lor TPM_ACCESS_ACTIVE_LOCALITY TPM_ACCESS_VALID in
  exists polls,
    trace w' = trace w ++ polls
    /\ forallb (is_read_of acc 1) polls = true
    /\ (length polls <= n)%nat
    /\ ((r = loc /\ chip' = set_locality loc chip
         /\ exists pre d,
             polls = pre ++ [EvRead acc 1 0 d]
             /\ shows_all own (EvRead acc 1 0 d) = true
             /\ forallb (fun e => negb (shows_all own e)) pre = true)
        \/ (r = -1 /\ chip' = chip /\ length polls = n
            /\ forallb (fun e => negb (shows_all own e)) polls = true)).
Proof.
  induction n as [| n IH]; intros chip loc w r chip' w' Hloc X acc own.
  { cbn [request_locality_loop] in X. injection X as <- <- <-.
    exists []. rewrite app_nil_r. split; [reflexivity |].
    split; [reflexivity |]. split; [cbn; lia |]. right. auto. }
  cbn [request_locality_loop] in X.
  destruct (check_locality chip loc w) as [[r0 chip0] w0] eqn:Ec.
  destruct (check_locality_shows _ _ _ _ _ _ Hloc Ec)
    as (rr & data & Ht & Hres).
  fold acc own in Ht, Hres.
  assert (Hev : is_read_of acc 1 (EvRead acc 1 rr data) = true)
    by (cbn [is_read_of]; rewrite !Z.eqb_refl; reflexivity).
  destruct Hres as [(-> & -> & -> & Hshow) | (-> & -> & Hshow)].
  - replace (loc >=? 0) with true in X
      by (symmetry; apply Z.geb_le; exact Hloc).
    injection X as <- <- <-.
    exists [EvRead acc 1 0 data]. split; [exact Ht |].
    split; [cbn [forallb]; rewrite Hev; reflexivity |].
    split; [cbn; lia |]. left. split; [reflexivity |].
    split; [reflexivity |]. exists [], data. auto.
  - change (-1 >=? 0) with false in X. cbv iota in X.
    destruct (IH _ _ _ _ _ _ Hloc X) as (polls & Ht' & Hrd & Hlen & Hres').
    fold acc own in Hrd, Hres'.
    exists (EvRead acc 1 rr data :: polls).
    split. { rewrite Ht', mdelay_trace, Ht, <- app_assoc. reflexivity. }
    split; [cbn [forallb]; rewrite Hev; exact Hrd |].
    split; [cbn [length]; lia |].
    destruct Hres' as [(-> & -> & pre & d & -> & Hlast & Hpre)
                      | (-> & -> & Hn & Hnone)].
    + left. split; [reflexivity |]. split; [reflexivity |].
      exists (EvRead acc 1 rr data :: pre), d.
      split; [reflexivity |]. split; [exact Hlast |].
      cbn [forallb]. rewrite Hshow. exact Hpre.
    + right. split; [reflexivity |]. split; [reflexivity |].
      split; [cbn [length]; lia |].
      cbn [forallb]. rewrite Hshow. exact Hnone.
Qed.

(** [request_locality], read off the log.  Its first check either shows
    the locality, and that read is the whole log; or it does not, and the
    request-use byte is written and the access register polled, at most
    2000 times.  The locality is had exactly when the last entry of the
    log is a read that shows it active and valid; otherwise all 2001
    checks have been made and none showed it. *)
Lemma request_locality_log chip loc w r chip' w' :
  0 <= loc ->
  request_locality chip loc w = (r, chip', w') ->
  let acc := u8 (TPM_ACCESS loc) in
  let own := Z.lor TPM_ACCESS_ACTIVE_LOCALITY TPM_ACCESS_VALID in
  exists req,
    trace w' = trace w ++ req
    /\ ((exists d, req = [EvRead acc 1 0 d])
        \/ (exists rr d rw polls,
              req = EvRead acc 1 rr d
                      :: EvWrite acc 1 rw [u8 TPM_ACCESS_REQUEST_USE]
                      :: polls
              /\ shows_all own (EvRead acc 1 rr d) = false
              /\ forallb (is_read_of acc 1) polls = true
              /\ (length polls <= 2000)%nat))
    /\ ((r = loc /\ chip' = set_locality loc chip
         /\ exists pre d,
             req = pre ++ [EvRead acc 1 0 d]
             /\ shows_all own (EvRead acc 1 0 d) = true
             /\ forallb (fun e => negb (shows_all own e)) pre = true)
        \/ (r = -1 /\ chip' = chip /\ length req = 2002%nat
            /\ forallb (fun e => negb (shows_all own e)) req = true)).
Proof.
  intros Hloc X acc own. unfold request_locality in X.
  destruct (check_locality chip loc w) as [[r0 chip0] w0] eqn:Ec.
  destruct (check_locality_shows _ _ _ _ _ _ Hloc Ec)
    as (rr & data & Ht & Hres).
  fold acc own in Ht, Hres, X.
  destruct Hres as [(-> & -> & -> & Hshow) | (-> & -> & Hshow)].
  - replace (loc >=? 0) with true in X
      by (symmetry; apply Z.geb_le; exact Hloc).
    injection X as <- <- <-.
    exists [EvRead acc 1 0 data]. split; [exact Ht |].
    split; [left; exists data; reflexivity |].
    left. split; [reflexivity |]. split; [reflexivity |].
    exists [], data. auto.
  - change (-1 >=? 0) with false in X. cbv iota in X.
    destruct (iic_tpm_write acc [u8 TPM_ACCESS_REQUEST_USE] 1 w0)
      as [rw w2] eqn:Ew.
    destruct (iic_tpm_write_spec _ _ _ _ _ _ Ew) as (Htw & _).
    change (firstn (Z.to_nat 1) [u8 TPM_ACCESS_REQUEST_USE])
      with [u8 TPM_ACCESS_REQUEST_USE] in Htw.
    cbn [snd] in X.
    destruct (request_locality_loop_shows _ _ _ _ _ _ _ Hloc X)
      as (polls & Ht' & Hrd & Hlen & Hres').
    fold acc own in Hrd, Hres'.
    change (2 * 1000)%nat with 2000%nat in Hlen, Hres'.
    exists (EvRead acc 1 rr data
              :: EvWrite acc 1 rw [u8 TPM_ACCESS_REQUEST_USE] :: polls).
    split. { rewrite Ht', Htw, Ht, <- !app_assoc. reflexivity. }
    split.
    { right. exists rr, data, rw, polls. auto. }
    destruct Hres' as [(-> & -> & pre & d & -> & Hlast & Hpre)
                      | (-> & -> & Hn & Hnone)].
    + left. split; [reflexivity |]. split; [reflexivity |].
      exists (EvRead acc 1 rr data
                :: EvWrite acc 1 rw [u8 TPM_ACCESS_REQUEST_USE] :: pre), d.
      split; [reflexivity |]. split; [exact Hlast |].
      cbn [forallb]. rewrite Hshow. exact Hpre.
    + right. split; [reflexivity |]. split; [reflexivity |].
      split; [cbn [length]; lia |].
      cbn [forallb]. rewrite Hshow. exact Hnone.
Qed.

(** C9, as the code has it.  With a device address that is not zero, init
    first asks for locality 0: one read of the access register when that
    already shows the locality active and valid, else the request-use
    write and up to 2000 more reads.  When none of the reads shows the
    locality, init returns -1 after 2001 of them: the identity register
    is not read, nothing is released, the chip is not marked open.  When
    one does, locality 0 is recorded and the four bytes of the identity
    register are read.  If that read succeeds with [CR50_DID_VID], init
    returns 0 with the chip marked open, and the identity read is the
    last thing it does: the locality stays with the driver.  If the read
    fails or brings any other value, init returns -1 after
    [release_locality] with [force] set: a read of the access register
    and, when that read succeeds, the write of the active-locality
    byte. *)
Theorem tpm_vendor_init_identity chip bus dev_addr w r chip' w' :
  dev_addr <> 0 ->
  tpm_vendor_init chip bus dev_addr w = (r, chip', w') ->
  let acc := u8 (TPM_ACCESS 0) in
  let did := u8 (TPM_DID_VID 0) in
  let own := Z.lor TPM_ACCESS_ACTIVE_LOCALITY TPM_ACCESS_VALID in
  exists req rest,
    trace w' = trace w ++ req ++ rest
    /\ ((exists d, req = [EvRead acc 1 0 d])
        \/ (exists rr d rw polls,
              req = EvRead acc 1 rr d
                      :: EvWrite acc 1 rw [u8 TPM_ACCESS_REQUEST_USE]
                      :: polls
              /\ shows_all own (EvRead acc 1 rr d) = false
              /\ forallb (is_read_of acc 1) polls = true
              /\ (length polls <= 2000)%nat))
    /\ ((forallb (fun e => negb (shows_all own e)) req = true
         /\ length req = 2002%nat
         /\ r = -1 /\ rest = [] /\ is_open chip' = is_open chip)
        \/ ((exists pre d,
               req = pre ++ [EvRead acc 1 0 d]
               /\ shows_all own (EvRead acc 1 0 d) = true
               /\ forallb (fun e => negb (shows_all own e)) pre = true)
            /\ locality (vendor chip') = 0
            /\ exists ri idata,
                (ri = 0 /\ read_le32 idata = CR50_DID_VID
                 /\ rest = [EvRead did 4 0 idata]
                 /\ r = 0 /\ is_open chip' = 1)
                \/ ((ri = -1 \/ read_le32 idata <> CR50_DID_VID)
                    /\ r = -1 /\ is_open chip' = is_open chip
                    /\ exists rr d,
                        (rr = 0 /\ exists rw,
                           rest = [EvRead did 4 ri idata;
                                   EvRead acc 1 0 d;
                                   EvWrite acc 1 rw
                                     [u8 TPM_ACCESS_ACTIVE_LOCALITY]])
                        \/ (rr = -1
                            /\ rest = [EvRead did 4 ri idata;
                                       EvRead acc 1 rr d])))).
Proof.
  intros Haddr X acc did own. unfold tpm_vendor_init in X.
  apply Z.eqb_neq in Haddr. rewrite Haddr in X.
  set (w0 := set_tpm_dev {| tpm_bus := bus; tpm_addr := dev_addr;
                            tpm_buf := tpm_buf (g_tpm_dev w) |} w) in X.
  set (chip2 := set_irq 0 (cr50_vendor_init chip)) in X.
  destruct (request_locality chip2 0 w0) as [[r0 chip3] w1] eqn:Hreq.
  destruct (request_locality_log _ _ _ _ _ _ (Z.le_refl 0) Hreq)
    as (req & Ht & Hshape & Hres).
  fold acc own in Ht, Hshape, Hres.
  change (trace w0) with (trace w) in Ht.
  destruct Hres as [(-> & -> & Hlast) | (-> & -> & Hlen & Hnone)].
  2:{ (* the locality was not granted *)
      change (negb (-1 =? 0)) with true in X. cbv iota in X.
      injection X as <- <- <-. exists req, []. rewrite app_nil_r.
      split; [exact Ht |]. split; [exact Hshape |]. left. auto 6. }
  change (negb (0 =? 0)) with false in X. cbv iota in X. fold did in X.
  destruct (iic_tpm_read did 4 w1) as [[ri idata] w2] eqn:Eid.
  destruct (iic_tpm_read_spec _ _ _ _ _ _ Eid) as (Ht2 & Hri & _).
  (* the way out through [out_err] *)
  assert (Hout : ri = -1 \/ read_le32 idata <> CR50_DID_VID ->
            (r, chip', w')
            = (-1, set_locality 0 chip2,
               release_locality (set_locality 0 chip2) 0 1 w2) ->
            exists rest,
              trace w' = trace w ++ req ++ rest
              /\ r = -1 /\ is_open chip' = is_open chip
              /\ locality (vendor chip') = 0
              /\ exists rr d,
                  (rr = 0 /\ exists rw,
                     rest = [EvRead did 4 ri idata;
                             EvRead acc 1 0 d;
                             EvWrite acc 1 rw
                               [u8 TPM_ACCESS_ACTIVE_LOCALITY]])
                  \/ (rr = -1
                      /\ rest = [EvRead did 4 ri idata; EvRead acc 1 rr d])).
  { intros _ Y. injection Y as -> -> ->.
    destruct (release_locality_spec (set_locality 0 chip2) 0 1 w2)
      as (rr & d & Hrel).
    fold acc in Hrel.
    destruct Hrel as [(-> & _ & rw & Htr) | ([-> | (Hf & _)] & Htr & _)];
      [| | discriminate Hf].
    - eexists. split.
      { rewrite Htr, Ht2, Ht, <- !app_assoc. reflexivity. }
      split; [reflexivity |]. split; [reflexivity |].
      split; [reflexivity |].
      exists 0, d. left. split; [reflexivity |]. exists rw. reflexivity.
    - eexists. split.
      { rewrite Htr, Ht2, Ht, <- !app_assoc. reflexivity. }
      split; [reflexivity |]. split; [reflexivity |].
      split; [reflexivity |].
      exists (-1), d. right. split; reflexivity. }
  assert (Hclose : ri = -1 \/ read_le32 idata <> CR50_DID_VID ->
            (r, chip', w')
            = (-1, set_locality 0 chip2,
               release_locality (set_locality 0 chip2) 0 1 w2) ->
            exists req rest,
              trace w' = trace w ++ req ++ rest
              /\ ((exists d, req = [EvRead acc 1 0 d])
                  \/ (exists rr d rw polls,
                        req = EvRead acc 1 rr d
                                :: EvWrite acc 1 rw
                                     [u8 TPM_ACCESS_REQUEST_USE]
                                :: polls
                        /\ shows_all own (EvRead acc 1 rr d) = false
                        /\ forallb (is_read_of acc 1) polls = true
                        /\ (length polls <= 2000)%nat))
              /\ ((forallb (fun e => negb (shows_all own e)) req = true
                   /\ length req = 2002%nat
                   /\ r = -1 /\ rest = [] /\ is_open chip' = is_open chip)
                  \/ ((exists pre d,
                         req = pre ++ [EvRead acc 1 0 d]
                         /\ shows_all own (EvRead acc 1 0 d) = true
                         /\ forallb (fun e => negb (shows_all own e)) pre
                            = true)
                      /\ locality (vendor chip') = 0
                      /\ exists ri idata,
                          (ri = 0 /\ read_le32 idata = CR50_DID_VID
                           /\ rest = [EvRead did 4 0 idata]
                           /\ r = 0 /\ is_open chip' = 1)
                          \/ ((ri = -1 \/ read_le32 idata <> CR50_DID_VID)
                              /\ r = -1 /\ is_open chip' = is_open chip
                              /\ exists rr d,
                                  (rr = 0 /\ exists rw,
                                     rest = [EvRead did 4 ri idata;
                                             EvRead acc 1 0 d;
                                             EvWrite acc 1 rw
                                               [u8 TPM_ACCESS_ACTIVE_LOCALITY]])
                                  \/ (rr = -1
                                      /\ rest = [EvRead did 4 ri idata;
                                                 EvRead acc 1 rr d]))))).
  { intros Hbad Y.
    destruct (Hout Hbad Y) as (rest & Htr & Hr & Hopen & Hloc & Hrel).
    exists req, rest. split; [exact Htr |]. split; [exact Hshape |].
    right. split; [exact Hlast |]. split; [exact Hloc |].
    exists ri, idata. right. auto. }
  destruct Hri as [-> | ->].
  2:{ change (-1 <? 0) with true in X. cbv iota in X.
      apply Hclose; [left; reflexivity | symmetry; exact X]. }
  change (0 <? 0) with false in X. cbv iota in X.
  destruct (Z.eqb_spec (read_le32 idata) CR50_DID_VID) as [Hv | Hv];
    cbn [negb] in X.
  2:{ apply Hclose; [right; exact Hv | symmetry; exact X]. }
  injection X as <- <- <-.
  exists req, [EvRead did 4 0 idata].
  split. { rewrite Ht2, Ht, <- app_assoc. reflexivity. }
  split; [exact Hshape |].
  right. split; [exact Hlast |]. split; [reflexivity |].
  exists 0, idata. left. auto 6.
Qed.

End Properties.

(** * More of the driver *)

Section Coverage.

Context {H : tpm_h} {Dev : Type} {B : i2c_bus Dev}.

Implicit Types (w : world Dev) (chip : tpm_chip).

(** ** The register transport: guards *)

(** X1.  [iic_tpm_write] never overruns the 64-byte scratch buffer of
    [g_tpm_dev]: whatever length is asked for, the buffer has 64 bytes
    after the call if it had before.  A write of more than 63 bytes, or
    with the chip address unset, is refused with -1 before anything
    happens: no bus transaction, no delay, the scratch buffer as it was.
    A write that is accepted leaves the register address and the payload
    at the start of the scratch buffer. *)
Theorem iic_tpm_write_scratch addr buffer len w r w' :
  iic_tpm_write addr buffer len w = (r, w') ->
  length (tpm_buf (g_tpm_dev w)) = 64%nat ->
  let payload := firstn (Z.to_nat len) buffer in
  length (tpm_buf (g_tpm_dev w')) = 64%nat
  /\ (CR50_MAX_BUFSIZE < len \/ tpm_addr (g_tpm_dev w) = 0 ->
      r = -1 /\ hw w' = hw w /\ clock w' = clock w
      /\ g_tpm_dev w' = g_tpm_dev w)
  /\ (len <= CR50_MAX_BUFSIZE -> tpm_addr (g_tpm_dev w) <> 0 ->
      firstn (S (length payload)) (tpm_buf (g_tpm_dev w'))
      = addr :: payload).
Proof.
  intros X Hlen payload. unfold iic_tpm_write in X. fold payload in X.
  destruct (Z.eqb_spec (tpm_addr (g_tpm_dev w)) 0) as [Ha | Ha].
  { injection X as <- <-. cbn [log g_tpm_dev hw clock].
    split; [exact Hlen |]. split; [auto | contradiction]. }
  destruct (Z.gtb_spec len CR50_MAX_BUFSIZE) as [Hbig | Hfit].
  { injection X as <- <-. cbn [log g_tpm_dev hw clock].
    split; [exact Hlen |]. split; [auto | lia]. }
  assert (Hpay : (length payload <= 63)%nat).
  { unfold payload. rewrite length_firstn. unfold CR50_MAX_BUFSIZE in Hfit.
    lia. }
  assert (Hnew : length (addr :: payload
                           ++ skipn (S (length payload))
                                (tpm_buf (g_tpm_dev w))) = 64%nat).
  { cbn [length]. rewrite length_app, length_skipn. lia. }
  assert (Hhead : firstn (S (length payload))
                    (addr :: payload
                       ++ skipn (S (length payload)) (tpm_buf (g_tpm_dev w)))
                  = addr :: payload).
  { cbn [firstn]. f_equal. rewrite firstn_app, Nat.sub_diag, firstn_all.
    cbn [firstn]. apply app_nil_r. }
  destruct (i2c_write_raw _ _ _ _) as [d1 r1].
  destruct (negb (r1 =? 0)); injection X as <- <-;
    cbn [log mdelay set_hw set_tpm_dev g_tpm_dev tpm_buf];
    (split; [exact Hnew |]); (split; [intros [Hc | Hc]; [lia | contradiction] |]);
    intros _ _; exact Hhead.
Qed.

(** ** Before the chip address is set *)

Lemma iic_tpm_read_unset addr len w :
  tpm_addr (g_tpm_dev w) = 0 ->
  iic_tpm_read addr len w = (-1, [], log (EvRead addr len (-1) []) w).
Proof. intros Ha. unfold iic_tpm_read. rewrite Ha. reflexivity. Qed.

Lemma iic_tpm_write_unset addr buffer len w :
  tpm_addr (g_tpm_dev w) = 0 ->
  iic_tpm_write addr buffer len w
  = (-1, log (EvWrite addr len (-1) (firstn (Z.to_nat len) buffer)) w).
Proof. intros Ha. unfold iic_tpm_write. rewrite Ha. reflexivity. Qed.

Lemma wait_loop_unset n :
  forall k chip mask sw w,
  (k <= n)%nat ->
  tpm_addr (g_tpm_dev w) = 0 ->
  sw - clock w = 2000 * Z.of_nat k ->
  exists w',
    cr50_wait_burst_status_loop (S n) chip mask sw w = Some (-1, 0, 0, w')
    /\ hw w' = hw w /\ g_tpm_dev w' = g_tpm_dev w /\ clock w' = sw
    /\ trace w'
       = trace w
         ++ repeat (EvRead (u8 (TPM_STS (locality (vendor chip)))) 4 (-1) [])
              k.
Proof.
  induction n as [| n IH]; intros k chip mask sw w Hk Ha Hsw.
  - assert (k = 0%nat) by lia. subst k. cbn [cr50_wait_burst_status_loop].
    unfold stopwatch_expired.
    replace (sw <=? clock w) with true
      by (symmetry; apply Z.leb_le; cbn in Hsw; lia).
    exists w. cbn [repeat]. rewrite app_nil_r. cbn in Hsw.
    repeat split; auto; lia.
  - destruct k as [| k].
    + remember (S n) as m. cbn [cr50_wait_burst_status_loop].
      unfold stopwatch_expired.
      replace (sw <=? clock w) with true
        by (symmetry; apply Z.leb_le; cbn in Hsw; lia).
      exists w. cbn [repeat]. rewrite app_nil_r. cbn in Hsw.
      repeat split; auto; lia.
    + remember (S n) as m eqn:Em. cbn [cr50_wait_burst_status_loop]. subst m.
      unfold stopwatch_expired.
      replace (sw <=? clock w) with false by (symmetry; apply Z.leb_gt; lia).
      rewrite (iic_tpm_read_unset _ _ _ Ha).
      change (negb (-1 =? 0)) with true. cbv iota.
      destruct (IH k chip mask sw
                  (mdelay CR50_TIMEOUT_SHORT_MS
                     (log (EvRead (u8 (TPM_STS (locality (vendor chip)))) 4
                             (-1) []) w)))
        as (w' & Hl & Hhw & Hg & Hc & Ht).
      { lia. }
      { exact Ha. }
      { rewrite mdelay_short_clock. cbn [log clock]. lia. }
      exists w'. split; [exact Hl |].
      repeat split; auto.
      rewrite Ht. cbn [mdelay log trace repeat].
      rewrite <- app_assoc. reflexivity.
Qed.

Lemma send_ready_loop_unset n :
  forall k chip sw w,
  (k <= n)%nat ->
  tpm_addr (g_tpm_dev w) = 0 ->
  sw - clock w = 2000 * Z.of_nat k ->
  let sts := u8 (TPM_STS (locality (vendor chip))) in
  exists w',
    send_ready_loop (S n) chip sw w = Some (false, w')
    /\ hw w' = hw w /\ g_tpm_dev w' = g_tpm_dev w /\ clock w' = sw
    /\ trace w'
       = trace w ++ ready_rounds sts TPM_STS_COMMAND_READY (repeat (-1) k)
                 ++ [EvRead sts 4 (-1) []].
Proof.
  assert (Hzero : (Z.land 0 TPM_STS_COMMAND_READY =? 0) = true)
    by (rewrite Z.land_0_l; reflexivity).
  induction n as [| n IH]; intros k chip sw w Hk Ha Hsw sts.
  - assert (k = 0%nat) by lia. subst k. cbn [send_ready_loop].
    unfold cr50_tis_i2c_status. fold sts.
    rewrite (iic_tpm_read_unset _ _ _ Ha).
    change (-1 <? 0) with true. cbv iota. rewrite Hzero. cbn [negb].
    unfold stopwatch_expired. cbn [log clock].
    replace (sw <=? clock w) with true
      by (symmetry; apply Z.leb_le; cbn in Hsw; lia).
    eexists. split; [reflexivity |]. cbn in Hsw.
    cbn [log hw g_tpm_dev clock trace repeat ready_rounds flat_map app].
    repeat split; auto; lia.
  - remember (S n) as m eqn:Em. cbn [send_ready_loop]. subst m.
    unfold cr50_tis_i2c_status. fold sts.
    rewrite (iic_tpm_read_unset _ _ _ Ha).
    change (-1 <? 0) with true. cbv iota. rewrite Hzero. cbn [negb].
    unfold stopwatch_expired. cbn [log clock].
    destruct k as [| k].
    + replace (sw <=? clock w) with true
        by (symmetry; apply Z.leb_le; cbn in Hsw; lia).
      eexists. split; [reflexivity |]. cbn in Hsw.
      cbn [log hw g_tpm_dev clock trace repeat ready_rounds flat_map app].
      repeat split; auto; lia.
    + replace (sw <=? clock w) with false by (symmetry; apply Z.leb_gt; lia).
      set (w1 := log (EvRead sts 4 (-1) []) w).
      assert (Ha1 : tpm_addr (g_tpm_dev w1) = 0) by exact Ha.
      unfold cr50_tis_i2c_ready. fold sts.
      rewrite (iic_tpm_write_unset _ _ _ _ Ha1). cbn [snd].
      destruct (IH k chip sw
                  (mdelay CR50_TIMEOUT_SHORT_MS
                     (log (EvWrite sts 4 (-1)
                             (firstn (Z.to_nat 4)
                                [u8 TPM_STS_COMMAND_READY; 0; 0; 0])) w1)))
        as (w' & Hl & Hhw & Hg & Hc & Ht).
      { lia. }
      { exact Ha. }
      { rewrite mdelay_short_clock. cbn [log clock w1]. lia. }
      fold sts in Ht.
      exists w'. split; [exact Hl |].
      repeat split; auto.
      rewrite Ht. cbn [mdelay log trace repeat ready_rounds flat_map w1].
      rewrite <- !app_assoc. reflexivity.
Qed.

(** X2.  While the chip address in [g_tpm_dev] is 0 the driver never
    reaches the bus, and it does not fail fast either: a send, and a
    receive into a buffer of header size or more, poll for the whole long
    timeout and return -1 exactly 2000 ms later, with the device behind
    the bus untouched, [g_tpm_dev] as it was and the caller's buffer
    unchanged.  The log holds the refused register accesses only: 1001
    status reads and 1000 ready writes for the send, 1000 status reads
    for the receive. *)
Theorem unset_address_times_out fuel chip buf len w :
  (1001 <= fuel)%nat ->
  tpm_addr (g_tpm_dev w) = 0 ->
  let sts := u8 (TPM_STS (locality (vendor chip))) in
  (exists w',
     cr50_tis_i2c_send fuel chip buf len w = Some (-1, w')
     /\ hw w' = hw w /\ g_tpm_dev w' = g_tpm_dev w
     /\ clock w' = clock w + 2000 * 1000
     /\ trace w'
        = trace w ++ ready_rounds sts TPM_STS_COMMAND_READY (repeat (-1) 1000)
                  ++ [EvRead sts 4 (-1) []])
  /\ (TPM_HEADER_SIZE <= len ->
      exists w',
        cr50_tis_i2c_recv fuel chip buf len w = Some (-1, buf, w')
        /\ hw w' = hw w /\ g_tpm_dev w' = g_tpm_dev w
        /\ clock w' = clock w + 2000 * 1000
        /\ trace w' = trace w ++ repeat (EvRead sts 4 (-1) []) 1000).
Proof.
  intros Hfuel Ha sts. destruct fuel as [| n]; [lia |]. split.
  - destruct (send_ready_loop_unset n 1000 chip
                (stopwatch_init_msecs_expire CR50_TIMEOUT_LONG_MS w) w)
      as (w' & Hl & Hhw & Hg & Hc & Ht).
    { lia. }
    { exact Ha. }
    { unfold stopwatch_init_msecs_expire, CR50_TIMEOUT_LONG_MS. lia. }
    exists w'. unfold cr50_tis_i2c_send. rewrite Hl.
    unfold stopwatch_init_msecs_expire, CR50_TIMEOUT_LONG_MS in Hc.
    repeat split; auto.
  - intros Hcap.
    destruct (wait_loop_unset n 1000 chip (u8 TPM_STS_VALID)
                (stopwatch_init_msecs_expire CR50_TIMEOUT_LONG_MS w) w)
      as (w' & Hl & Hhw & Hg & Hc & Ht).
    { lia. }
    { exact Ha. }
    { unfold stopwatch_init_msecs_expire, CR50_TIMEOUT_LONG_MS. lia. }
    exists w'. unfold cr50_tis_i2c_recv.
    replace (len <? TPM_HEADER_SIZE) with false
      by (symmetry; apply Z.ltb_ge; exact Hcap).
    unfold cr50_wait_burst_status. rewrite Hl.
    change (-1 <? 0) with true. cbv iota.
    unfold stopwatch_init_msecs_expire, CR50_TIMEOUT_LONG_MS in Hc.
    repeat split; auto.
Qed.

(** ** The locality manager and init *)

Lemma reads_no_writes reg len tr :
  forallb (is_read_of reg len) tr = true -> writes tr = [].
Proof.
  induction tr as [| e tr IH]; [reflexivity |].
  cbn [forallb]. rewrite andb_true_iff. intros (He & Htr).
  destruct e; [| discriminate He]. cbn. apply IH. exact Htr.
Qed.

Lemma check_locality_frame chip loc w r chip' w1 :
  check_locality chip loc w = (r, chip', w1) ->
  g_tpm_dev w1 = g_tpm_dev w
  /\ (chip' = chip \/ chip' = set_locality loc chip).
Proof.
  intros X. destruct (check_locality_spec _ _ _ _ _ _ X)
    as (rr & data & E & Hres).
  destruct (iic_tpm_read_spec _ _ _ _ _ _ E) as (_ & _ & _ & Hg).
  split; [exact Hg |].
  destruct Hres as [(_ & -> & _) | (_ & ->)]; auto.
Qed.

Lemma request_locality_loop_frame n :
  forall chip loc w r chip' w',
  request_locality_loop n chip loc w = (r, chip', w') ->
  g_tpm_dev w' = g_tpm_dev w
  /\ (chip' = chip \/ chip' = set_locality loc chip).
Proof.
  induction n as [| n IH]; intros chip loc w r chip' w' X.
  { cbn in X. injection X as _ <- <-. auto. }
  cbn [request_locality_loop] in X.
  destruct (check_locality chip loc w) as [[r0 chip0] w0] eqn:Ec.
  destruct (check_locality_frame _ _ _ _ _ _ Ec) as (Hg & Hchip).
  destruct (r0 >=? 0).
  - injection X as _ <- <-. auto.
  - apply IH in X. destruct X as (Hg' & Hchip').
    split; [rewrite Hg', mdelay_tpm_dev; exact Hg |].
    destruct Hchip as [-> | ->]; [exact Hchip' |].
    right. destruct Hchip' as [-> | ->]; reflexivity.
Qed.

Lemma request_locality_frame chip loc w r chip' w' :
  request_locality chip loc w = (r, chip', w') ->
  (r = loc \/ r = -1)
  /\ tpm_addr (g_tpm_dev w') = tpm_addr (g_tpm_dev w)
  /\ tpm_bus (g_tpm_dev w') = tpm_bus (g_tpm_dev w)
  /\ (chip' = chip \/ chip' = set_locality loc chip).
Proof.
  intros X.
  assert (Hr : r = loc \/ r = -1).
  { destruct (request_locality_spec _ _ _ _ _ _ X)
      as (new & _ & [(-> & _) | (-> & _)]); auto. }
  split; [exact Hr |]. unfold request_locality in X.
  destruct (check_locality chip loc w) as [[r0 chip0] w0] eqn:Ec.
  destruct (check_locality_frame _ _ _ _ _ _ Ec) as (Hg & Hchip).
  destruct (r0 >=? 0).
  - injection X as _ <- <-. rewrite Hg. auto.
  - destruct (iic_tpm_write _ _ 1 w0) as [rw w2] eqn:Ew.
    destruct (iic_tpm_write_spec _ _ _ _ _ _ Ew) as (_ & _ & _ & Ha & Hb).
    cbn [snd] in X.
    destruct (request_locality_loop_frame _ _ _ _ _ _ _ X) as (Hg' & Hchip').
    rewrite Hg', Ha, Hb, Hg. split; [reflexivity |]. split; [reflexivity |].
    destruct Hchip as [-> | ->]; [exact Hchip' |].
    right. destruct Hchip' as [-> | ->]; reflexivity.
Qed.

(** X3.  [request_locality] writes the request-use byte at most once.
    Either its first read of the access register shows the locality
    active and valid, and that read is all it does; or it writes the
    request-use byte right after that read and then only reads the access
    register, at most 2000 times, without writing again.  It returns the
    locality, which it has then recorded in the chip context, or -1; the
    chip address and the bus number stay as they were. *)
Theorem request_locality_writes_once chip loc w r chip' w' :
  request_locality chip loc w = (r, chip', w') ->
  let acc := u8 (TPM_ACCESS loc) in
  (r = -1 \/ (r = loc /\ 0 <= loc /\ chip' = set_locality loc chip))
  /\ tpm_addr (g_tpm_dev w') = tpm_addr (g_tpm_dev w)
  /\ tpm_bus (g_tpm_dev w') = tpm_bus (g_tpm_dev w)
  /\ ((exists data, trace w' = trace w ++ [EvRead acc 1 0 data]
                    /\ r = loc)
      \/ (exists rr data rw polls,
            trace w'
            = trace w ++ EvRead acc 1 rr data
                      :: EvWrite acc 1 rw [u8 TPM_ACCESS_REQUEST_USE]
                      :: polls
            /\ forallb (is_read_of acc 1) polls = true
            /\ writes polls = []
            /\ (length polls <= 2000)%nat)).
Proof.
  intros X acc. unfold request_locality in X.
  destruct (check_locality chip loc w) as [[r0 chip0] w0] eqn:Ec.
  destruct (check_locality_spec _ _ _ _ _ _ Ec) as (rr & data & E & Hres).
  destruct (iic_tpm_read_spec _ _ _ _ _ _ E) as (Ht & _ & _ & Hg).
  fold acc in Ht, X.
  destruct (r0 >=? 0) eqn:Ege.
  - injection X as <- <- <-. apply Z.geb_le in Ege.
    destruct Hres as [(-> & -> & -> & Hb) | (-> & _)]; [| lia].
    split; [right; auto |]. rewrite Hg.
    split; [reflexivity |]. split; [reflexivity |].
    left. exists data. auto.
  - destruct (iic_tpm_write acc [u8 TPM_ACCESS_REQUEST_USE] 1 w0)
      as [rw w2] eqn:Ew.
    destruct (iic_tpm_write_spec _ _ _ _ _ _ Ew) as (Htw & _ & _ & Ha & Hb).
    cbn [snd] in X.
    destruct (request_locality_loop_frame _ _ _ _ _ _ _ X) as (Hg' & _).
    apply request_locality_loop_spec in X.
    destruct X as (polls & Ht' & Hrd & Hres').
    rewrite Z.geb_leb in Ege. apply Z.leb_gt in Ege.
    assert (Hchip0 : 0 <= loc -> chip0 = chip).
    { intros Hloc. destruct Hres as [(-> & _) | (_ & ->)]; [lia | reflexivity]. }
    split.
    { destruct Hres' as [(-> & Hloc & _ & -> & _) | (-> & _)]; [| now left].
      right. rewrite (Hchip0 Hloc). auto. }
    rewrite Hg', Ha, Hb, Hg.
    split; [reflexivity |]. split; [reflexivity |].
    right. exists rr, data, rw, polls. fold acc in Hrd.
    split. { rewrite Ht', Htw, Ht, <- !app_assoc. reflexivity. }
    split; [exact Hrd |]. split; [exact (reads_no_writes _ _ _ Hrd) |].
    destruct Hres' as [(_ & _ & Hlen & _) | (_ & Hlen & _)];
      change (2 * 1000)%nat with 2000%nat in Hlen; lia.
Qed.

Lemma release_locality_frame chip loc force w :
  tpm_addr (g_tpm_dev (release_locality chip loc force w))
  = tpm_addr (g_tpm_dev w)
  /\ tpm_bus (g_tpm_dev (release_locality chip loc force w))
     = tpm_bus (g_tpm_dev w).
Proof.
  unfold release_locality.
  destruct (iic_tpm_read _ 1 w) as [[r data] w1] eqn:E.
  destruct (iic_tpm_read_spec _ _ _ _ _ _ E) as (_ & _ & _ & Hg).
  destruct (r <? 0); [rewrite Hg; auto |].
  destruct (negb (force =? 0) || _); [| rewrite Hg; auto].
  destruct (iic_tpm_write _ _ 1 w1) as [rw w2] eqn:Ew.
  destruct (iic_tpm_write_spec _ _ _ _ _ _ Ew) as (_ & _ & _ & Ha & Hb).
  cbn [snd]. rewrite Ha, Hb, Hg. auto.
Qed.

(** X4.  What [tpm_vendor_init] leaves behind.  It returns 0 or -1, and
    the chip is marked open exactly by the return of 0: then [is_open] is
    1 and locality 0 is recorded; on every failure [is_open] is what it
    was.  With address 0 nothing at all changes.  With any other address
    the bus number and the address are stored in [g_tpm_dev], and the
    vendor part of the chip context is bound afresh (interrupts off,
    cancel mask command-ready, locality 0), also when init then fails. *)
Theorem tpm_vendor_init_outcome chip bus dev_addr w r chip' w' :
  tpm_vendor_init chip bus dev_addr w = (r, chip', w') ->
  (r = 0 \/ r = -1)
  /\ (r = 0 -> is_open chip' = 1 /\ dev_addr <> 0)
  /\ (r = -1 -> is_open chip' = is_open chip)
  /\ (dev_addr = 0 -> r = -1 /\ chip' = chip /\ w' = w)
  /\ (dev_addr <> 0 ->
      tpm_addr (g_tpm_dev w') = dev_addr
      /\ tpm_bus (g_tpm_dev w') = bus
      /\ locality (vendor chip') = 0
      /\ irq (vendor chip') = 0
      /\ req_canceled (vendor chip') = TPM_STS_COMMAND_READY
      /\ req_complete_mask (vendor chip')
         = Z.lor TPM_STS_DATA_AVAIL TPM_STS_VALID
      /\ req_complete_val (vendor chip')
         = Z.lor TPM_STS_DATA_AVAIL TPM_STS_VALID).
Proof.
  intros X. unfold tpm_vendor_init in X.
  destruct (Z.eqb_spec dev_addr 0) as [Hz | Hnz].
  { injection X as <- <- <-.
    split; [now right |]. split; [discriminate |].
    split; [reflexivity |]. split; [auto | contradiction]. }
  set (w0 := set_tpm_dev {| tpm_bus := bus; tpm_addr := dev_addr;
                            tpm_buf := tpm_buf (g_tpm_dev w) |} w) in X.
  set (chip2 := set_irq 0 (cr50_vendor_init chip)) in X.
  destruct (request_locality chip2 0 w0) as [[r1 chip3] w1] eqn:Ereq.
  destruct (request_locality_frame chip2 0 w0 r1 chip3 w1 Ereq)
    as (Hr1 & Ha1 & Hb1 & Hchip3).
  assert (Hvendor : is_open chip3 = is_open chip
                    /\ locality (vendor chip3) = 0
                    /\ irq (vendor chip3) = 0
                    /\ req_canceled (vendor chip3) = TPM_STS_COMMAND_READY
                    /\ req_complete_mask (vendor chip3)
                       = Z.lor TPM_STS_DATA_AVAIL TPM_STS_VALID
                    /\ req_complete_val (vendor chip3)
                       = Z.lor TPM_STS_DATA_AVAIL TPM_STS_VALID).
  { destruct Hchip3 as [-> | ->]; cbn; auto 7. }
  destruct Hvendor as (Hopen & Hvend).
  assert (Hdev1 : tpm_addr (g_tpm_dev w1) = dev_addr
                  /\ tpm_bus (g_tpm_dev w1) = bus).
  { rewrite Ha1, Hb1. split; reflexivity. }
  destruct (Z.eqb_spec r1 0) as [Hr0 | Hr0]; cbn [negb] in X.
  2:{ injection X as <- <- <-.
      assert (Hneg : r1 = -1) by (destruct Hr1 as [E0 | E0]; [contradiction | exact E0]).
      split; [now right |].
      split; [discriminate |].
      split; [intros _; exact Hopen |]. split; [contradiction |].
      intros _. destruct Hdev1. auto 7. }
  destruct (iic_tpm_read (u8 (TPM_DID_VID 0)) 4 w1) as [[r2 data] w2] eqn:Eid.
  destruct (iic_tpm_read_spec _ _ _ _ _ _ Eid) as (_ & _ & _ & Hg2).
  assert (Hdev2 : tpm_addr (g_tpm_dev w2) = dev_addr
                  /\ tpm_bus (g_tpm_dev w2) = bus)
    by (rewrite Hg2; exact Hdev1).
  destruct (release_locality_frame chip3 0 1 w2) as (Hra & Hrb).
  assert (Hfail : forall r0 c0 wx,
            (-1, chip3, release_locality chip3 0 1 w2) = (r0, c0, wx) ->
            (r0 = 0 \/ r0 = -1)
            /\ (r0 = 0 -> is_open c0 = 1 /\ dev_addr <> 0)
            /\ (r0 = -1 -> is_open c0 = is_open chip)
            /\ (dev_addr = 0 -> r0 = -1 /\ c0 = chip /\ wx = w)
            /\ (dev_addr <> 0 ->
                tpm_addr (g_tpm_dev wx) = dev_addr
                /\ tpm_bus (g_tpm_dev wx) = bus
                /\ locality (vendor c0) = 0
                /\ irq (vendor c0) = 0
                /\ req_canceled (vendor c0) = TPM_STS_COMMAND_READY
                /\ req_complete_mask (vendor c0)
                   = Z.lor TPM_STS_DATA_AVAIL TPM_STS_VALID
                /\ req_complete_val (vendor c0)
                   = Z.lor TPM_STS_DATA_AVAIL TPM_STS_VALID)).
  { intros r0 c0 wx Y. injection Y as <- <- <-.
    split; [now right |]. split; [discriminate |].
    split; [intros _; exact Hopen |]. split; [contradiction |].
    intros _. rewrite Hra, Hrb. destruct Hdev2. auto 7. }
  destruct (r2 <? 0); [exact (Hfail _ _ _ X) |].
  destruct (negb (read_le32 data =? CR50_DID_VID)); [exact (Hfail _ _ _ X) |].
  injection X as <- <- <-.
  split; [now left |]. split; [intros _; split; [reflexivity | exact Hnz] |].
  split; [discriminate |]. split; [contradiction |].
  intros _. destruct Hdev2. cbn [set_is_open vendor]. auto 7.
Qed.

(** X15.  Init and cleanup fit together: after an init that returned 0,
    [tpm_vendor_cleanup] lets go of locality 0, the one init claimed.  It
    reads the access register of locality 0 and, when that read succeeds,
    writes the active-locality byte to it, whatever the byte read was;
    when the read fails it writes nothing. *)
Theorem init_then_cleanup chip bus dev_addr w chip' w' :
  tpm_vendor_init chip bus dev_addr w = (0, chip', w') ->
  let acc := u8 (TPM_ACCESS 0) in
  exists r data,
    (r = 0 /\ exists rw,
       trace (tpm_vendor_cleanup chip' w')
       = trace w' ++ [EvRead acc 1 0 data;
                      EvWrite acc 1 rw [u8 TPM_ACCESS_ACTIVE_LOCALITY]])
    \/ (r = -1 /\
        trace (tpm_vendor_cleanup chip' w')
        = trace w' ++ [EvRead acc 1 r data]).
Proof.
  intros X acc.
  assert (Hloc : locality (vendor chip') = 0).
  { unfold tpm_vendor_init in X.
    destruct (dev_addr =? 0); [discriminate X |].
    destruct (request_locality _ 0 _) as [[r1 chip3] w1] eqn:Ereq.
    destruct (request_locality_frame _ _ _ _ _ _ Ereq)
      as (_ & _ & _ & Hchip3).
    assert (Hl3 : locality (vendor chip3) = 0)
      by (destruct Hchip3 as [-> | ->]; reflexivity).
    destruct (negb (r1 =? 0)); [discriminate X |].
    destruct (iic_tpm_read _ 4 w1) as [[r2 data] w2].
    destruct (r2 <? 0); [discriminate X |].
    destruct (negb (read_le32 data =? CR50_DID_VID)); [discriminate X |].
    injection X as <- _. exact Hl3. }
  unfold tpm_vendor_cleanup. rewrite Hloc.
  destruct (release_locality_spec chip' 0 1 w') as (r & data & Hrel).
  fold acc in Hrel. exists r, data.
  destruct Hrel as [(-> & _ & rw & Htr) | ([-> | (Hf & _)] & Htr & _)].
  - left. split; [reflexivity |]. exists rw. exact Htr.
  - right. split; [reflexivity | exact Htr].
  - discriminate Hf.
Qed.

(** ** Probe *)

(** The buffer-keeping read and [iic_tpm_read] are one call: same result,
    same world, same log entry.  What differs is what is known of the
    buffer: the bytes read after a success, nothing after a failed bus
    read. *)
Lemma iic_tpm_read_into_spec addr buffer len w r buffer' w' :
  iic_tpm_read_into addr buffer len w = (r, buffer', w') ->
  exists data,
    iic_tpm_read addr len w = (r, data, w')
    /\ (r = 0 -> buffer' = write_at buffer 0 data)
    /\ (tpm_addr (g_tpm_dev w) = 0 -> r = -1 /\ buffer' = buffer).
Proof.
  unfold iic_tpm_read_into, iic_tpm_read.
  destruct (Z.eqb_spec (tpm_addr (g_tpm_dev w)) 0) as [Ha | Ha].
  { intros X; injection X as <- <- <-. exists [].
    split; [reflexivity |]. split; [discriminate | auto]. }
  destruct (i2c_write_raw _ _ _ _) as [d1 r1].
  destruct (negb (r1 =? 0)).
  { intros X; injection X as <- <- <-. exists [].
    split; [reflexivity |]. split; [discriminate | contradiction]. }
  destruct (i2c_read_raw _ _ _ _) as [[d2 r2] x].
  destruct (negb (r2 =? 0)); intros X; injection X as <- <- <-.
  - exists []. split; [reflexivity |]. split; [discriminate | contradiction].
  - exists (fill len x). split; [reflexivity |].
    split; [reflexivity | contradiction].
Qed.

(** One round of the probe loop: the read of the access register into
    [&buf], and the three ways the round ends. *)
Lemma tpm_vendor_probe_round m sw buf w :
  let acc := u8 (TPM_ACCESS 0) in
  exists r data buf1 w1,
    trace w1 = trace w ++ [EvRead acc 1 r data]
    /\ (r = 0 \/ r = -1)
    /\ (clock w1 = clock w \/ clock w1 = clock w + 2000)
    /\ g_tpm_dev w1 = g_tpm_dev w
    /\ (r = 0 -> buf1 = nth 0 data 0)
    /\ (tpm_addr (g_tpm_dev w) = 0 -> r = -1 /\ buf1 = buf)
    /\ tpm_vendor_probe_loop (S m) sw buf w
       = if (r =? 0) && negb (Z.land buf1 TPM_STS_VALID =? 0)
         then Some (buf1, w1)
         else if sw <=? clock w1 + 2000
              then Some (buf1, mdelay CR50_TIMEOUT_SHORT_MS w1)
              else tpm_vendor_probe_loop m sw buf1
                     (mdelay CR50_TIMEOUT_SHORT_MS w1).
Proof.
  intros acc. cbn [tpm_vendor_probe_loop]. fold acc.
  destruct (iic_tpm_read_into acc [buf] 1 w) as [[r buffer] w1] eqn:E.
  destruct (iic_tpm_read_into_spec _ _ _ _ _ _ _ E)
    as (data & Er & Hok & Hunset).
  destruct (iic_tpm_read_spec _ _ _ _ _ _ Er) as (Ht & Hr & Hc & Hg).
  destruct (iic_tpm_read_data _ _ _ _ _ _ Er) as (_ & Hlen).
  exists r, data, (nth 0 buffer 0), w1.
  split; [exact Ht |]. split; [exact Hr |]. split; [exact Hc |].
  split; [exact Hg |]. split.
  { intros Hr0. rewrite (Hok Hr0). specialize (Hlen Hr0).
    destruct data as [| x [| y data]]; try discriminate Hlen. reflexivity. }
  split.
  { intros Ha. destruct (Hunset Ha) as (-> & ->). auto. }
  unfold stopwatch_expired. rewrite mdelay_short_clock. reflexivity.
Qed.

Lemma tpm_vendor_probe_loop_spec n :
  forall sw buf w,
  sw - clock w <= 2000 * Z.of_nat (S n) ->
  let acc := u8 (TPM_ACCESS 0) in
  exists buf' w' new,
    tpm_vendor_probe_loop (S n) sw buf w = Some (buf', w')
    /\ trace w' = trace w ++ new
    /\ new <> []
    /\ forallb (is_read_of acc 1) new = true
    /\ g_tpm_dev w' = g_tpm_dev w
    /\ (tpm_addr (g_tpm_dev w) = 0 -> buf' = buf)
    /\ ((Z.land buf' TPM_STS_VALID <> 0
         /\ exists pre data,
             new = pre ++ [EvRead acc 1 0 data]
             /\ buf' = nth 0 data 0
             /\ forallb (fun e => negb (shows TPM_STS_VALID e)) pre = true)
        \/ (forallb (fun e => negb (shows TPM_STS_VALID e)) new = true
            /\ sw <= clock w'
            /\ (clock w' <= clock w + 4000 \/ clock w' < sw + 4000)
            /\ (Z.land buf' TPM_STS_VALID <> 0 ->
                exists pre d, new = pre ++ [EvRead acc 1 (-1) d]))).
Proof.
  induction n as [| n IH]; intros sw buf w Hfuel acc;
    match goal with
    | |- context [tpm_vendor_probe_loop (S ?m) _ _ _] =>
        destruct (tpm_vendor_probe_round m sw buf w)
          as (r & data & buf1 & w1 & Ht & Hr & Hc & Hg & Hok & Hunset & ->)
    end;
    fold acc in Ht;
    assert (Hev : forallb (is_read_of acc 1) [EvRead acc 1 r data] = true)
      by (cbn [forallb is_read_of]; rewrite !Z.eqb_refl; reflexivity);
    (destruct ((r =? 0) && negb (Z.land buf1 TPM_STS_VALID =? 0)) eqn:Hq;
     [ (* the read succeeded and shows the bit: break *)
       apply andb_true_iff in Hq; destruct Hq as (Hr0 & Hv);
       apply Z.eqb_eq in Hr0; subst r;
       apply negb_true_iff, Z.eqb_neq in Hv;
       exists buf1, w1, [EvRead acc 1 0 data];
       split; [reflexivity |]; split; [exact Ht |]; split; [discriminate |];
       split; [exact Hev |]; split; [exact Hg |];
       split; [intros Ha; destruct (Hunset Ha) as (Hneg & _); discriminate Hneg |];
       left; split; [exact Hv |]; exists [], data;
       split; [reflexivity |]; split; [exact (Hok eq_refl) | reflexivity]
     | ]);
    assert (Hshow : shows TPM_STS_VALID (EvRead acc 1 r data) = false)
      by (cbn [shows]; destruct Hr as [-> | ->]; [| reflexivity];
          rewrite <- (Hok eq_refl); cbn [Z.eqb andb] in Hq |- *; exact Hq);
    assert (Hfailed : Z.land buf1 TPM_STS_VALID <> 0 -> r = -1)
      by (intros Hv; destruct Hr as [-> | ->]; [| reflexivity];
          cbn [Z.eqb andb] in Hq; apply negb_false_iff, Z.eqb_eq in Hq;
          contradiction).
  - (* one round left: the delay takes the clock to the expiry *)
    replace (sw <=? clock w1 + 2000) with true
      by (symmetry; apply Z.leb_le; change (Z.of_nat 1) with 1 in Hfuel; lia).
    exists buf1, (mdelay CR50_TIMEOUT_SHORT_MS w1), [EvRead acc 1 r data].
    split; [reflexivity |]. split; [rewrite mdelay_trace; exact Ht |].
    split; [discriminate |]. split; [exact Hev |].
    split; [rewrite mdelay_tpm_dev; exact Hg |].
    split; [intros Ha; apply (Hunset Ha) |].
    right. split; [cbn [forallb]; rewrite Hshow; reflexivity |].
    rewrite mdelay_short_clock. change (Z.of_nat 1) with 1 in Hfuel.
    split; [lia |]. split; [left; lia |].
    intros Hv. rewrite (Hfailed Hv). exists [], data. reflexivity.
  - destruct (Z.leb_spec sw (clock w1 + 2000)) as [Hexp | Hexp].
    + exists buf1, (mdelay CR50_TIMEOUT_SHORT_MS w1), [EvRead acc 1 r data].
      split; [reflexivity |]. split; [rewrite mdelay_trace; exact Ht |].
      split; [discriminate |]. split; [exact Hev |].
      split; [rewrite mdelay_tpm_dev; exact Hg |].
      split; [intros Ha; apply (Hunset Ha) |].
      right. split; [cbn [forallb]; rewrite Hshow; reflexivity |].
      rewrite mdelay_short_clock.
      split; [lia |]. split; [left; lia |].
      intros Hv. rewrite (Hfailed Hv). exists [], data. reflexivity.
    + destruct (IH sw buf1 (mdelay CR50_TIMEOUT_SHORT_MS w1))
        as (buf' & w' & new & Hl & Ht' & _ & Hrd & Hg' & Hunset' & Hres).
      { rewrite mdelay_short_clock.
        rewrite (Nat2Z.inj_succ (S n)) in Hfuel. lia. }
      fold acc in Hrd, Hres. rewrite mdelay_short_clock in Hres.
      rewrite mdelay_tpm_dev, Hg in Hunset', Hg'.
      exists buf', w', (EvRead acc 1 r data :: new).
      split; [exact Hl |].
      split. { rewrite Ht', mdelay_trace, Ht, <- app_assoc. reflexivity. }
      split; [discriminate |].
      split. { cbn [forallb] in Hev |- *. rewrite andb_true_r in Hev.
               rewrite Hev. exact Hrd. }
      split; [exact Hg' |].
      split. { intros Ha. rewrite (Hunset' Ha). apply (Hunset Ha). }
      destruct Hres as [(Hv & pre & d & -> & Hb & Hpre)
                       | (Hnone & Hsw & Hclk & Hlast)].
      * left. split; [exact Hv |].
        exists (EvRead acc 1 r data :: pre), d.
        split; [reflexivity |]. split; [exact Hb |].
        cbn [forallb]. rewrite Hshow. exact Hpre.
      * right. split; [cbn [forallb]; rewrite Hshow; exact Hnone |].
        split; [exact Hsw |]. split; [right; lia |].
        intros Hv. destruct (Hlast Hv) as (pre & d & ->).
        exists (EvRead acc 1 r data :: pre), d. reflexivity.
Qed.

(** X5.  [tpm_vendor_probe] stores the bus number and the address and
    then only reads the access register of locality 0, one byte at a
    time and at least once; it writes no register.  With fuel for 1000
    rounds it always returns.  It returns 0 as soon as a read succeeds
    with the valid bit set, that read being the last one.  Otherwise it
    polls until the 2000 ms are over, between 2000 and 2004 ms after the
    call, and then decides by the byte in [buf] alone, without looking at
    the result of the last read: -1 when that read succeeded (it showed
    the bit clear), and 0 only when it failed and the failed call left a
    byte with the bit set in [buf].  With the address 0 no call gets to
    the bus and the probe returns -1.  The bit it tests on the access byte
    is [TPM_STS_VALID]. *)
Theorem tpm_vendor_probe_correct fuel bus addr w :
  (1000 <= fuel)%nat ->
  let acc := u8 (TPM_ACCESS 0) in
  exists r w' new,
    tpm_vendor_probe fuel bus addr w = Some (r, w')
    /\ trace w' = trace w ++ new
    /\ new <> []
    /\ forallb (is_read_of acc 1) new = true
    /\ writes new = []
    /\ tpm_addr (g_tpm_dev w') = addr
    /\ tpm_bus (g_tpm_dev w') = bus
    /\ (addr = 0 -> r = -1)
    /\ ((r = 0
         /\ exists pre data,
             new = pre ++ [EvRead acc 1 0 data]
             /\ Z.land (nth 0 data 0) TPM_STS_VALID <> 0
             /\ forallb (fun e => negb (shows TPM_STS_VALID e)) pre = true)
        \/ ((r = 0 \/ r = -1)
            /\ forallb (fun e => negb (shows TPM_STS_VALID e)) new = true
            /\ clock w + 2000 * 1000 <= clock w'
               < clock w + 2000 * 1000 + 4000
            /\ (r = 0 -> exists pre d, new = pre ++ [EvRead acc 1 (-1) d]))).
Proof.
  intros Hfuel acc. unfold tpm_vendor_probe.
  set (w0 := set_tpm_dev {| tpm_bus := bus; tpm_addr := addr;
                            tpm_buf := tpm_buf (g_tpm_dev w) |} w).
  destruct fuel as [| n]; [lia |].
  destruct (tpm_vendor_probe_loop_spec n
              (stopwatch_init_msecs_expire CR50_TIMEOUT_LONG_MS w0) 0 w0)
    as (buf' & w' & new & Hl & Ht & Hne & Hrd & Hg & Hunset & Hres).
  { unfold stopwatch_init_msecs_expire, CR50_TIMEOUT_LONG_MS. lia. }
  rewrite Hl. fold acc in Hrd, Hres.
  unfold stopwatch_init_msecs_expire, CR50_TIMEOUT_LONG_MS in Hres.
  change (clock w0) with (clock w) in Hres.
  change (tpm_addr (g_tpm_dev w0)) with addr in Hunset.
  exists (if Z.land buf' TPM_STS_VALID =? 0 then -1 else 0), w', new.
  split; [destruct (Z.land buf' TPM_STS_VALID =? 0); reflexivity |].
  split; [exact Ht |]. split; [exact Hne |]. split; [exact Hrd |].
  split; [exact (reads_no_writes _ _ _ Hrd) |].
  rewrite Hg. split; [reflexivity |]. split; [reflexivity |].
  split.
  { intros Ha. rewrite (Hunset Ha), Z.land_0_l. reflexivity. }
  destruct Hres as [(Hv & pre & d & -> & Hb & Hpre)
                   | (Hnone & Hsw & Hclk & Hlast)].
  - left. apply Z.eqb_neq in Hv. rewrite Hv. split; [reflexivity |].
    exists pre, d. split; [reflexivity |]. split; [| exact Hpre].
    apply Z.eqb_neq in Hv. rewrite <- Hb. exact Hv.
  - right. split; [destruct (Z.land buf' TPM_STS_VALID =? 0); auto |].
    split; [exact Hnone |]. split; [lia |].
    destruct (Z.eqb_spec (Z.land buf' TPM_STS_VALID) 0) as [Hv | Hv];
      [discriminate | intros _; exact (Hlast Hv)].
Qed.

(** ** Receive: the buffer *)

Lemma read_from_app reg tr1 tr2 :
  read_from reg (tr1 ++ tr2) = read_from reg tr1 ++ read_from reg tr2.
Proof. apply flat_map_app. Qed.

Lemma read_from_other reg other len tr :
  reg <> other ->
  forallb (is_read_of other len) tr = true -> read_from reg tr = [].
Proof.
  intros Hne. induction tr as [| e tr IH]; [reflexivity |].
  cbn [forallb]. rewrite andb_true_iff. intros (He & Htr).
  destruct e as [r l ret d | r l ret d]; [| discriminate He].
  cbn [is_read_of] in He. apply andb_true_iff in He. destruct He as (Hr & _).
  apply Z.eqb_eq in Hr. subst r.
  cbn [read_from flat_map]. fold (read_from reg tr). rewrite (IH Htr).
  replace (other =? reg) with false
    by (symmetry; apply Z.eqb_neq; congruence).
  reflexivity.
Qed.

Lemma length_write_at buf off data :
  length (write_at buf off data)
  = Nat.max (length buf) (Z.to_nat off + length data).
Proof.
  unfold write_at. rewrite !length_app, length_firstn, length_app,
    repeat_length, length_skipn. lia.
Qed.

Lemma firstn_write_at buf off data :
  (Z.to_nat off <= length buf)%nat ->
  firstn (Z.to_nat off + length data) (write_at buf off data)
  = firstn (Z.to_nat off) buf ++ data.
Proof.
  intros Hoff. unfold write_at.
  rewrite (firstn_app (Z.to_nat off) buf), (proj2 (Nat.sub_0_le _ _) Hoff).
  cbn [firstn]. rewrite app_nil_r.
  assert (Hl : length (firstn (Z.to_nat off) buf) = Z.to_nat off)
    by (rewrite length_firstn; lia).
  rewrite firstn_app, Hl.
  rewrite (firstn_all2 (n := Z.to_nat off + length data)) by lia.
  replace (Z.to_nat off + length data - Z.to_nat off)%nat
    with (length data) by lia.
  rewrite firstn_app, Nat.sub_diag, firstn_all. cbn [firstn].
  rewrite app_nil_r. reflexivity.
Qed.

(** The loop of the receive and the buffer: the buffer never gets
    shorter, it keeps its length when the expected length fits in it, and
    its first [current] bytes grow by the bytes read from the FIFO. *)
Lemma recv_loop_buffer rounds :
  forall fuel chip addr buf current expected w ok buf' current' w',
  (1001 <= fuel)%nat ->
  0 <= current -> expected < 2 ^ 32 ->
  addr <> u8 (TPM_STS (locality (vendor chip))) ->
  (Z.to_nat current <= length buf)%nat ->
  recv_loop rounds fuel chip addr buf current expected w
  = Some (ok, buf', current', w') ->
  exists new,
    trace w' = trace w ++ new
    /\ writes new = []
    /\ current <= current'
    /\ (length buf <= length buf')%nat
    /\ ((Z.to_nat expected <= length buf)%nat -> length buf' = length buf)
    /\ firstn (Z.to_nat current') buf'
       = firstn (Z.to_nat current) buf ++ read_from addr new.
Proof.
  induction rounds as [| n IH];
    intros fuel chip addr buf current expected w ok buf' current' w'
           Hfuel Hcur Hexp Hne Hlen X.
  { discriminate X. }
  cbn [recv_loop] in X.
  destruct (Z.ltb_spec current expected) as [Hlt | Hge].
  2:{ injection X as <- <- <- <-. exists []. rewrite !app_nil_r.
      repeat split; auto; lia. }
  destruct (cr50_wait_burst_status_spec fuel chip TPM_STS_VALID w Hfuel)
    as (r & st & b & w1 & new1 & Hl & Ht1 & Hrd1 & _ & _ & Hres).
  rewrite Hl in X.
  assert (Hnone1 : read_from addr new1 = [])
    by exact (read_from_other _ _ _ _ Hne Hrd1).
  assert (Hw1 : writes new1 = []) by exact (reads_no_writes _ _ _ Hrd1).
  destruct Hres as [(-> & pre & data & _ & _ & _ & _ & _ & Hb) | (-> & _)].
  2:{ change (-1 <? 0) with true in X. cbv iota in X.
      injection X as <- <- <- <-. exists new1. rewrite Hnone1, app_nil_r.
      repeat split; auto; lia. }
  change (0 <? 0) with false in X. cbv iota in X.
  destruct (Z.land st TPM_STS_DATA_AVAIL =? 0).
  { injection X as <- <- <- <-. exists new1. rewrite Hnone1, app_nil_r.
    repeat split; auto; lia. }
  unfold CR50_MAX_BUFSIZE in Hb.
  rewrite (u32_small (expected - current)) in X by lia.
  set (len := Z.min b (expected - current)) in X.
  destruct (iic_tpm_read addr len w1) as [[r2 d2] w2] eqn:Er.
  destruct (iic_tpm_read_spec _ _ _ _ _ _ Er) as (Ht2 & Hr2 & _).
  destruct (iic_tpm_read_data _ _ _ _ _ _ Er) as (Hd0 & Hd1).
  destruct Hr2 as [-> | ->].
  2:{ change (negb (-1 =? 0)) with true in X. cbv iota in X.
      injection X as <- <- <- <-.
      exists (new1 ++ [EvRead addr len (-1) d2]).
      split; [rewrite Ht2, Ht1, <- app_assoc; reflexivity |].
      split; [rewrite writes_app, Hw1; reflexivity |].
      rewrite read_from_app, Hnone1. cbn [read_from flat_map app].
      rewrite Z.eqb_refl. cbn [andb Z.eqb]. rewrite !app_nil_r.
      repeat split; auto; lia. }
  change (negb (0 =? 0)) with false in X. cbv iota in X.
  rewrite (u32_small (current + len)) in X by (unfold len; lia).
  specialize (Hd1 eq_refl).
  assert (Hnat : Z.to_nat (current + len)
                 = (Z.to_nat current + length d2)%nat)
    by (rewrite Hd1; unfold len; lia).
  apply IH in X; try assumption; try (unfold len; lia).
  2:{ rewrite length_write_at, Hnat. lia. }
  destruct X as (new3 & Ht3 & Hw3 & Hmono & Hgrow & Hsame & Hdata).
  exists (new1 ++ EvRead addr len 0 d2 :: new3).
  split. { rewrite Ht3, Ht2, Ht1, <- !app_assoc. reflexivity. }
  split. { rewrite writes_app, Hw1. cbn. exact Hw3. }
  split; [unfold len in Hmono; lia |].
  rewrite length_write_at in Hgrow, Hsame.
  split; [lia |]. split.
  { intros Hfit. rewrite Hsame; [| unfold len in Hnat; lia].
    unfold len in Hnat. lia. }
  rewrite Hdata, Hnat, (firstn_write_at _ _ _ Hlen).
  rewrite read_from_app, Hnone1. cbn [read_from flat_map app].
  fold (read_from addr new3). rewrite Z.eqb_refl. cbn [andb Z.eqb].
  rewrite <- app_assoc. reflexivity.
Qed.

(** The receive as a whole and the caller's buffer. *)
Lemma cr50_tis_i2c_recv_buffer fuel chip buf buf_len w r buf' w' :
  (1001 <= fuel)%nat ->
  0 <= buf_len < 2 ^ 32 ->
  let fifo := u8 (TPM_DATA_FIFO (locality (vendor chip))) in
  fifo <> u8 (TPM_STS (locality (vendor chip))) ->
  cr50_tis_i2c_recv fuel chip buf buf_len w = Some (r, buf', w') ->
  exists new,
    trace w' = trace w ++ new
    /\ writes new = []
    /\ (length buf <= length buf')%nat
    /\ ((63 <= length buf)%nat -> (Z.to_nat buf_len <= length buf)%nat ->
        length buf' = length buf)
    /\ (0 <= r ->
        1 <= r <= Z.max 63 buf_len
        /\ firstn (Z.to_nat r) buf' = read_from fifo new).
Proof.
  intros Hfuel Hcap fifo Hne X. unfold cr50_tis_i2c_recv in X. fold fifo in X.
  destruct (Z.ltb_spec buf_len TPM_HEADER_SIZE) as [Hshort | Hlong].
  { injection X as <- <- <-. exists []. rewrite app_nil_r.
    repeat split; auto; try lia. }
  destruct (cr50_wait_burst_status_spec fuel chip TPM_STS_VALID w Hfuel)
    as (r0 & st0 & b0 & w1 & new1 & Hl & Ht1 & Hrd1 & _ & _ & Hres).
  rewrite Hl in X.
  assert (Hnone1 : read_from fifo new1 = [])
    by exact (read_from_other _ _ _ _ Hne Hrd1).
  assert (Hw1 : writes new1 = []) by exact (reads_no_writes _ _ _ Hrd1).
  destruct Hres as [(-> & pre & d & _ & _ & _ & _ & _ & Hb) | (-> & _)].
  2:{ change (-1 <? 0) with true in X. cbv iota in X.
      injection X as <- <- <-. exists new1.
      repeat split; auto; try lia. }
  change (0 <? 0) with false in X. cbv iota in X.
  destruct (Z.land st0 TPM_STS_DATA_AVAIL =? 0).
  { injection X as <- <- <-. exists new1.
    repeat split; auto; try lia. }
  unfold CR50_MAX_BUFSIZE in Hb.
  destruct (iic_tpm_read fifo b0 w1) as [[r2 data0] w2] eqn:Er.
  destruct (iic_tpm_read_spec _ _ _ _ _ _ Er) as (Ht2 & Hr2 & _).
  destruct (iic_tpm_read_data _ _ _ _ _ _ Er) as (_ & Hd1).
  destruct Hr2 as [-> | ->].
  2:{ change (negb (-1 =? 0)) with true in X. cbv iota in X.
      injection X as <- <- <-. exists (new1 ++ [EvRead fifo b0 (-1) data0]).
      split; [rewrite Ht2, Ht1, <- app_assoc; reflexivity |].
      split; [rewrite writes_app, Hw1; reflexivity |].
      repeat split; auto; try lia. }
  change (negb (0 =? 0)) with false in X. cbv iota in X.
  specialize (Hd1 eq_refl).
  set (buf1 := write_at buf 0 data0) in *.
  assert (Hlen1 : length buf1 = Nat.max (length buf) (Z.to_nat b0)).
  { unfold buf1. rewrite length_write_at, Hd1. reflexivity. }
  assert (Hfirst : firstn (Z.to_nat b0) buf1 = data0).
  { unfold buf1.
    pose proof (firstn_write_at buf 0 data0 ltac:(cbn; lia)) as F.
    cbn [Z.to_nat Nat.add firstn app] in F. rewrite <- Hd1. exact F. }
  set (expected := read_be32 (skipn (Z.to_nat TPM_RSP_SIZE_BYTE) buf1)) in *.
  set (ev0 := EvRead fifo b0 0 data0) in *.
  assert (Hev0 : read_from fifo [ev0] = data0).
  { cbn. rewrite Z.eqb_refl. cbn. apply app_nil_r. }
  destruct (Z.gtb_spec expected buf_len) as [Hbig | Hfit].
  { injection X as <- <- <-. exists (new1 ++ [ev0]).
    split; [rewrite Ht2, Ht1, <- app_assoc; reflexivity |].
    split; [rewrite writes_app, Hw1; reflexivity |].
    split; [lia |]. split; [intros; lia |]. intros; lia. }
  destruct (recv_loop fuel fuel chip fifo buf1 b0 expected w2)
    as [[[[ok buf2] current] w3] |] eqn:Eloop; [| discriminate X].
  assert (Hb0 : 0 <= b0) by lia.
  assert (Hexp : expected < 2 ^ 32) by lia.
  assert (Hin : (Z.to_nat b0 <= length buf1)%nat) by lia.
  destruct (recv_loop_spec _ _ _ _ _ _ _ _ _ _ _ _ Hfuel Hb0 Hexp Eloop)
    as (new3' & _ & Hok).
  destruct (recv_loop_buffer _ _ _ _ _ _ _ _ _ _ _ _ Hfuel Hb0 Hexp Hne Hin
              Eloop) as (new3 & Ht3 & Hw3 & Hmono & Hgrow & Hsame & Hdata).
  assert (Hkeep : (63 <= length buf)%nat ->
                  (Z.to_nat buf_len <= length buf)%nat ->
                  length buf2 = length buf).
  { intros H63 Hbl. rewrite Hsame; lia. }
  assert (Hwr : writes (new1 ++ ev0 :: new3) = []).
  { rewrite writes_app, Hw1. cbn. exact Hw3. }
  assert (Htr3 : trace w3 = trace w ++ new1 ++ ev0 :: new3).
  { rewrite Ht3, Ht2, Ht1, <- !app_assoc. reflexivity. }
  destruct ok.
  2:{ injection X as <- <- <-. exists (new1 ++ ev0 :: new3).
      split; [exact Htr3 |]. split; [exact Hwr |]. split; [lia |].
      split; [exact Hkeep |]. intros; lia. }
  destruct (Hok eq_refl) as (-> & _).
  destruct (cr50_wait_burst_status_spec fuel chip TPM_STS_VALID w3 Hfuel)
    as (r4 & st4 & b4 & w4 & new4 & Hl4 & Ht4 & Hrd4 & _ & _ & Hres4).
  rewrite Hl4 in X.
  assert (Hnone4 : read_from fifo new4 = [])
    by exact (read_from_other _ _ _ _ Hne Hrd4).
  assert (Hw4 : writes new4 = []) by exact (reads_no_writes _ _ _ Hrd4).
  assert (Ht : trace w4 = trace w ++ (new1 ++ ev0 :: new3) ++ new4).
  { rewrite Ht4, Htr3, <- !app_assoc. reflexivity. }
  assert (Hwall : writes ((new1 ++ ev0 :: new3) ++ new4) = []).
  { rewrite writes_app, Hwr, Hw4. reflexivity. }
  assert (Hr4 : r4 = 0 \/ r4 = -1)
    by (destruct Hres4 as [(-> & _) | (-> & _)]; auto).
  clear Hres4.
  destruct Hr4 as [-> | ->].
  2:{ change (-1 <? 0) with true in X. cbv iota in X.
      injection X as <- <- <-. exists ((new1 ++ ev0 :: new3) ++ new4).
      split; [exact Ht |]. split; [exact Hwall |]. split; [lia |].
      split; [exact Hkeep |]. intros; lia. }
  change (0 <? 0) with false in X. cbv iota in X.
  destruct (negb (Z.land st4 TPM_STS_DATA_AVAIL =? 0)).
  { injection X as <- <- <-. exists ((new1 ++ ev0 :: new3) ++ new4).
    split; [exact Ht |]. split; [exact Hwall |]. split; [lia |].
    split; [exact Hkeep |]. intros; lia. }
  injection X as <- <- <-.
  exists ((new1 ++ ev0 :: new3) ++ new4).
  split; [exact Ht |]. split; [exact Hwall |].
  split; [lia |]. split; [exact Hkeep |].
  intros Hr.
  assert (Hret : to_int (Z.max b0 expected) = Z.max b0 expected)
    by (apply to_int_nonneg; [lia | exact Hr]).
  rewrite Hret. split; [lia |].
  rewrite Hdata, Hfirst, !read_from_app, Hnone1, Hnone4, app_nil_r.
  cbn [app]. change (ev0 :: new3) with ([ev0] ++ new3).
  rewrite read_from_app, Hev0. reflexivity.
Qed.

(** X6.  A receive into a buffer of at least 63 bytes that really has
    [buf_len] bytes stays inside it: whatever the chip does and however
    the receive ends, the buffer has the length it had, and a length
    returned is at most that.  The receive writes no register; it only
    reads. *)
Theorem recv_stays_in_buffer fuel chip buf buf_len w r buf' w' :
  (1001 <= fuel)%nat ->
  0 <= buf_len < 2 ^ 32 ->
  u8 (TPM_DATA_FIFO (locality (vendor chip)))
  <> u8 (TPM_STS (locality (vendor chip))) ->
  (63 <= length buf)%nat ->
  (Z.to_nat buf_len <= length buf)%nat ->
  cr50_tis_i2c_recv fuel chip buf buf_len w = Some (r, buf', w') ->
  length buf' = length buf
  /\ r <= Z.of_nat (length buf)
  /\ exists new, trace w' = trace w ++ new /\ writes new = [].
Proof.
  intros Hfuel Hcap Hne H63 Hlen X.
  destruct (cr50_tis_i2c_recv_buffer _ _ _ _ _ _ _ _ Hfuel Hcap Hne X)
    as (new & Ht & Hw & _ & Hkeep & Hr).
  split; [exact (Hkeep H63 Hlen) |]. split.
  - destruct (Z.le_gt_cases 0 r) as [Hpos | Hneg]; [| lia].
    destruct (Hr Hpos) as (Hrange & _). lia.
  - exists new. auto.
Qed.

(** X7.  What a successful receive hands back is what came out of the
    FIFO: the first [r] bytes of the buffer, [r] the value returned, are
    the bytes of the successful reads of the data FIFO register, in the
    order of the reads. *)
Theorem recv_returns_fifo_bytes fuel chip buf buf_len w r buf' w' :
  (1001 <= fuel)%nat ->
  0 <= buf_len < 2 ^ 32 ->
  let fifo := u8 (TPM_DATA_FIFO (locality (vendor chip))) in
  fifo <> u8 (TPM_STS (locality (vendor chip))) ->
  cr50_tis_i2c_recv fuel chip buf buf_len w = Some (r, buf', w') ->
  0 <= r ->
  exists new,
    trace w' = trace w ++ new
    /\ firstn (Z.to_nat r) buf' = read_from fifo new
    /\ 1 <= r <= Z.max 63 buf_len.
Proof.
  intros Hfuel Hcap fifo Hne X Hr.
  destruct (cr50_tis_i2c_recv_buffer _ _ _ _ _ _ _ _ Hfuel Hcap Hne X)
    as (new & Ht & _ & _ & _ & Hdata).
  destruct (Hdata Hr) as (Hrange & Hbytes).
  exists new. auto.
Qed.

(** X8.  The first chunk of a receive is stored whole whatever the size of
    the buffer: once the first wait has given a burst count [b] and the
    FIFO read of [b] bytes has succeeded, the buffer the receive leaves
    has at least [b] bytes, so a buffer shorter than the burst count (the
    receive only asks for the header size) is written past its end. *)
Theorem recv_first_chunk_unchecked fuel chip buf buf_len w st b w1 data w2
  r buf' w' :
  (1001 <= fuel)%nat ->
  TPM_HEADER_SIZE <= buf_len < 2 ^ 32 ->
  let fifo := u8 (TPM_DATA_FIFO (locality (vendor chip))) in
  fifo <> u8 (TPM_STS (locality (vendor chip))) ->
  cr50_wait_burst_status fuel chip TPM_STS_VALID w = Some (0, st, b, w1) ->
  Z.land st TPM_STS_DATA_AVAIL <> 0 ->
  iic_tpm_read fifo b w1 = (0, data, w2) ->
  cr50_tis_i2c_recv fuel chip buf buf_len w = Some (r, buf', w') ->
  (Z.to_nat b <= length buf')%nat
  /\ ((length buf < Z.to_nat b)%nat -> (length buf < length buf')%nat).
Proof.
  intros Hfuel Hcap fifo Hne Hw Hda Hrd X.
  assert (Hgoal : (Z.to_nat b <= length buf')%nat).
  { unfold cr50_tis_i2c_recv in X. fold fifo in X.
    replace (buf_len <? TPM_HEADER_SIZE) with false in X
      by (symmetry; apply Z.ltb_ge; lia).
    rewrite Hw in X. change (0 <? 0) with false in X. cbv iota in X.
    apply Z.eqb_neq in Hda. rewrite Hda, Hrd in X.
    change (negb (0 =? 0)) with false in X. cbv iota in X.
    destruct (iic_tpm_read_data _ _ _ _ _ _ Hrd) as (_ & Hd).
    specialize (Hd eq_refl).
    assert (Hlen1 : (Z.to_nat b <= length (write_at buf 0 data))%nat).
    { rewrite length_write_at, Hd. cbn [Z.to_nat]. lia. }
    destruct (cr50_wait_burst_status_spec fuel chip TPM_STS_VALID w Hfuel)
      as (r0 & st0 & b0 & w0 & new0 & Hl & _ & _ & _ & _ & Hres).
    rewrite Hw in Hl. injection Hl as <- <- <- <-.
    assert (Hb : 1 <= b <= 63).
    { destruct Hres as [(_ & pre & d & _ & _ & _ & _ & _ & Hb) | (Hneg & _)];
        [exact Hb | discriminate Hneg]. }
    set (expected := read_be32 (skipn (Z.to_nat TPM_RSP_SIZE_BYTE)
                                  (write_at buf 0 data))) in X.
    destruct (Z.gtb_spec expected buf_len) as [Hbig | Hfit].
    { injection X as _ <- _. exact Hlen1. }
    destruct (recv_loop fuel fuel chip fifo (write_at buf 0 data) b expected w2)
      as [[[[ok buf2] current] w3] |] eqn:Eloop; [| discriminate X].
    assert (Hb0 : 0 <= b) by lia.
    assert (Hexp : expected < 2 ^ 32) by lia.
    destruct (recv_loop_buffer _ _ _ _ _ _ _ _ _ _ _ _ Hfuel Hb0 Hexp Hne
                Hlen1 Eloop) as (new3 & _ & _ & _ & Hgrow & _).
    destruct ok; [| injection X as _ <- _; lia].
    destruct (cr50_wait_burst_status fuel chip TPM_STS_VALID w3)
      as [[[[r4 st4] b4] w4] |]; [| discriminate X].
    destruct (r4 <? 0); [injection X as _ <- _; lia |].
    destruct (negb (Z.land st4 TPM_STS_DATA_AVAIL =? 0));
      injection X as _ <- _; lia. }
  split; [exact Hgoal | lia].
Qed.

(** The loop of the receive always comes to an end: every round that does
    not leave reads at least one byte, so [S n] rounds are enough when at
    most [n] bytes are missing. *)
Lemma recv_loop_returns n :
  forall fuel chip addr buf current expected w,
  (1001 <= fuel)%nat ->
  0 <= current -> expected < 2 ^ 32 ->
  expected - current <= Z.of_nat n ->
  exists res,
    recv_loop (S n) fuel chip addr buf current expected w = Some res.
Proof.
  induction n as [| n IH];
    intros fuel chip addr buf current expected w Hfuel Hcur Hexp Hrounds.
  - cbn [recv_loop]. change (Z.of_nat 0) with 0 in Hrounds.
    replace (current <? expected) with false
      by (symmetry; apply Z.ltb_ge; lia).
    eauto.
  - remember (S n) as m eqn:Em. cbn [recv_loop]. subst m.
    destruct (Z.ltb_spec current expected) as [Hlt | Hge]; [| eauto].
    destruct (cr50_wait_burst_status_spec fuel chip TPM_STS_VALID w Hfuel)
      as (r & st & b & w1 & new1 & Hl & _ & _ & _ & _ & Hres).
    rewrite Hl.
    destruct Hres as [(-> & pre & data & _ & _ & _ & _ & _ & Hb) | (-> & _)].
    2:{ change (-1 <? 0) with true. cbv iota. eauto. }
    change (0 <? 0) with false. cbv iota.
    destruct (Z.land st TPM_STS_DATA_AVAIL =? 0); [eauto |].
    unfold CR50_MAX_BUFSIZE in Hb.
    rewrite (u32_small (expected - current)) by lia.
    destruct (iic_tpm_read addr (Z.min b (expected - current)) w1)
      as [[r2 d2] w2].
    destruct (negb (r2 =? 0)); [eauto |].
    rewrite (u32_small (current + Z.min b (expected - current))) by lia.
    apply IH; try assumption; lia.
Qed.

(** X9.  A receive always returns: with fuel for the waits (1001 checks
    of the stopwatch) and for one round per byte of the buffer, whatever
    the chip does, [cr50_tis_i2c_recv] gives a result, and the result is
    -1 or a length between 1 and the larger of 63 and [buf_len]. *)
Theorem recv_always_returns fuel chip buf buf_len w :
  (1001 <= fuel)%nat ->
  0 <= buf_len <= INT_MAX ->
  buf_len < Z.of_nat fuel ->
  exists r buf' w',
    cr50_tis_i2c_recv fuel chip buf buf_len w = Some (r, buf', w')
    /\ (r = -1 \/ 1 <= r <= Z.max 63 buf_len).
Proof.
  intros Hfuel Hcap Hrounds. unfold cr50_tis_i2c_recv.
  assert (Hmax : INT_MAX = 2147483647) by reflexivity.
  destruct (buf_len <? TPM_HEADER_SIZE); [eauto 6 |].
  destruct (cr50_wait_burst_status_spec fuel chip TPM_STS_VALID w Hfuel)
    as (r0 & st0 & b0 & w1 & new1 & Hl & _ & _ & _ & _ & Hres).
  rewrite Hl.
  destruct Hres as [(-> & pre & d & _ & _ & _ & _ & _ & Hb) | (-> & _)].
  2:{ change (-1 <? 0) with true. cbv iota. eauto 6. }
  change (0 <? 0) with false. cbv iota.
  destruct (Z.land st0 TPM_STS_DATA_AVAIL =? 0); [eauto 6 |].
  unfold CR50_MAX_BUFSIZE in Hb.
  destruct (iic_tpm_read _ b0 w1) as [[r2 data0] w2].
  destruct (negb (r2 =? 0)); [eauto 6 |].
  set (fifo := u8 (TPM_DATA_FIFO (locality (vendor chip)))).
  set (buf1 := write_at buf 0 data0).
  set (expected := read_be32 (skipn (Z.to_nat TPM_RSP_SIZE_BYTE) buf1)).
  destruct (Z.gtb_spec expected buf_len) as [Hbig | Hfit]; [eauto 6 |].
  assert (Hb0 : 0 <= b0) by lia.
  assert (Hexp : expected < 2 ^ 32) by lia.
  destruct fuel as [| n] eqn:Ef; [lia |]. rewrite <- Ef in *.
  assert (Hleft : expected - b0 <= Z.of_nat n) by lia.
  destruct (recv_loop_returns n fuel chip fifo buf1 b0 expected w2
              Hfuel Hb0 Hexp Hleft) as ([[[ok buf2] current] w3] & Eloop).
  rewrite <- Ef in Eloop. rewrite Eloop.
  destruct (recv_loop_spec _ _ _ _ _ _ _ _ _ _ _ _ Hfuel Hb0 Hexp Eloop)
    as (new3 & _ & Hok).
  destruct ok; [| eauto 6].
  destruct (Hok eq_refl) as (-> & _).
  destruct (cr50_wait_burst_status_spec fuel chip TPM_STS_VALID w3 Hfuel)
    as (r4 & st4 & b4 & w4 & new4 & Hl4 & _ & _ & _ & _ & Hres4).
  rewrite Hl4.
  destruct Hres4 as [(-> & _) | (-> & _)].
  2:{ change (-1 <? 0) with true. cbv iota. eauto 6. }
  change (0 <? 0) with false. cbv iota.
  destruct (negb (Z.land st4 TPM_STS_DATA_AVAIL =? 0)); [eauto 6 |].
  exists (to_int (Z.max b0 expected)), buf2, w4.
  split; [reflexivity |]. right.
  rewrite to_int_small by lia. lia.
Qed.

(** ** Send: what goes out *)

Lemma written_to_app reg tr1 tr2 :
  written_to reg (tr1 ++ tr2) = written_to reg tr1 ++ written_to reg tr2.
Proof. apply flat_map_app. Qed.

Lemma written_to_other reg other tr :
  reg <> other ->
  forallb (at_reg other) tr = true -> written_to reg tr = [].
Proof.
  intros Hne. induction tr as [| e tr IH]; [reflexivity |].
  cbn [forallb]. rewrite andb_true_iff. intros (He & Htr).
  cbn [written_to flat_map]. fold (written_to reg tr). rewrite (IH Htr).
  destruct e as [r l ret d | r l ret d]; [reflexivity |].
  cbn [at_reg] in He. apply Z.eqb_eq in He. subst r.
  replace (other =? reg) with false
    by (symmetry; apply Z.eqb_neq; congruence).
  reflexivity.
Qed.

Lemma reads_at_reg reg len tr :
  forallb (is_read_of reg len) tr = true -> forallb (at_reg reg) tr = true.
Proof.
  induction tr as [| e tr IH]; [reflexivity |].
  cbn [forallb]. rewrite !andb_true_iff. intros (He & Htr).
  split; [| exact (IH Htr)].
  destruct e; [| discriminate He].
  cbn [is_read_of] in He. apply andb_true_iff in He. exact (proj1 He).
Qed.

Lemma firstn_plus {A : Type} (a b : nat) (l : list A) :
  firstn (a + b) l = firstn a l ++ firstn b (skipn a l).
Proof.
  revert l. induction a as [| a IH]; intros l; [reflexivity |].
  destruct l as [| x l]; cbn [Nat.add firstn skipn app].
  - rewrite firstn_nil. reflexivity.
  - rewrite IH. reflexivity.
Qed.

(** The command-ready loop talks to the status register only. *)
Lemma send_ready_loop_log n :
  forall chip sw w ok w',
  send_ready_loop n chip sw w = Some (ok, w') ->
  exists new,
    trace w' = trace w ++ new
    /\ forallb (at_reg (u8 (TPM_STS (locality (vendor chip))))) new = true.
Proof.
  induction n as [| n IH]; intros chip sw w ok w' X; [discriminate X |].
  cbn [send_ready_loop] in X.
  destruct (cr50_tis_i2c_status chip w) as [s w1] eqn:Es.
  destruct (cr50_tis_i2c_status_spec _ _ _ _ Es)
    as (r & data & _ & _ & Ht & _).
  set (sts := u8 (TPM_STS (locality (vendor chip)))) in *.
  assert (Hone : exists new, trace w1 = trace w ++ new
                             /\ forallb (at_reg sts) new = true).
  { exists [EvRead sts 4 r data]. split; [exact Ht |].
    cbn. rewrite Z.eqb_refl. reflexivity. }
  destruct (negb (Z.land s TPM_STS_COMMAND_READY =? 0));
    [injection X as _ <-; exact Hone |].
  destruct (stopwatch_expired sw w1); [injection X as _ <-; exact Hone |].
  destruct (cr50_tis_i2c_ready_spec chip w1) as (rw & Htr & _).
  fold sts in Htr.
  apply IH in X. destruct X as (new & Ht' & Hall). fold sts in Hall.
  exists (EvRead sts 4 r data
            :: EvWrite sts 4 rw [u8 TPM_STS_COMMAND_READY; 0; 0; 0] :: new).
  split. { rewrite Ht', Htr, Ht, <- !app_assoc. reflexivity. }
  cbn [forallb at_reg]. rewrite !Z.eqb_refl. exact Hall.
Qed.

(** The chunks of a send, on the log: between the status reads, the bytes
    written to the FIFO are the next [len] bytes of the buffer. *)
Lemma send_chunks_log fuel chip buf sent len w chunks w' :
  (1001 <= fuel)%nat ->
  send_chunks fuel chip buf sent len w chunks w' ->
  let fifo := u8 (TPM_DATA_FIFO (locality (vendor chip))) in
  fifo <> u8 (TPM_STS (locality (vendor chip))) ->
  0 <= sent ->
  exists new,
    trace w' = trace w ++ new
    /\ written_to fifo new
       = firstn (Z.to_nat len) (skipn (Z.to_nat sent) buf).
Proof.
  intros Hfuel Hch fifo Hne.
  induction Hch as [sent w | sent len w st b w1 w2 rest w' Hlen Hw Hb Hwr
                                 Hrest IH]; intros Hsent.
  - exists []. rewrite app_nil_r. split; reflexivity.
  - destruct (cr50_wait_burst_status_spec fuel chip TPM_STS_VALID w Hfuel)
      as (r0 & st0 & b0 & w0 & new1 & Hl & Ht1 & Hrd1 & _).
    rewrite Hw in Hl. injection Hl as <- <- <- <-.
    destruct (iic_tpm_write_spec _ _ _ _ _ _ Hwr) as (Ht2 & _).
    fold fifo in Ht2. unfold CR50_MAX_BUFSIZE in Hb.
    destruct IH as (new3 & Ht3 & Hdata); [lia |].
    set (limit := Z.min (b - 1) len) in *.
    exists (new1 ++ EvWrite fifo limit 0
                     (firstn (Z.to_nat limit) (skipn (Z.to_nat sent) buf))
                 :: new3).
    split. { rewrite Ht3, Ht2, Ht1, <- !app_assoc. reflexivity. }
    rewrite written_to_app,
      (written_to_other _ _ _ Hne (reads_at_reg _ _ _ Hrd1)).
    cbn [app written_to flat_map]. fold (written_to fifo new3).
    rewrite Z.eqb_refl. cbn [andb Z.eqb]. rewrite Hdata.
    replace (Z.to_nat len) with (Z.to_nat limit + Z.to_nat (len - limit))%nat
      by (unfold limit; lia).
    rewrite firstn_plus, skipn_skipn.
    replace (Z.to_nat limit + Z.to_nat sent)%nat
      with (Z.to_nat (sent + limit)) by (unfold limit; lia).
    reflexivity.
Qed.

(** The log of a send that succeeds, piece by piece. *)
Lemma cr50_tis_i2c_send_log fuel chip buf len w r w' :
  (1001 <= fuel)%nat ->
  0 <= len < 2 ^ 32 ->
  let fifo := u8 (TPM_DATA_FIFO (locality (vendor chip))) in
  let sts := u8 (TPM_STS (locality (vendor chip))) in
  fifo <> sts ->
  cr50_tis_i2c_send fuel chip buf len w = Some (r, w') ->
  0 <= r ->
  exists body data,
    trace w'
    = trace w ++ body
              ++ [EvRead sts 4 0 data;
                  EvWrite sts 4 0 [u8 TPM_STS_GO; 0; 0; 0]]
    /\ written_to fifo body = firstn (Z.to_nat len) buf
    /\ Z.land (nth 0 data 0) (u8 TPM_STS_VALID) = u8 TPM_STS_VALID
    /\ Z.land (nth 0 data 0) TPM_STS_DATA_EXPECT = 0.
Proof.
  intros Hfuel Hlen fifo sts Hne X Hr.
  destruct (cr50_tis_i2c_send_spec _ _ _ _ _ _ _ Hfuel Hlen X)
    as (new & _ & [(_ & w0 & w1 & chunks & st & b & w2 & Hrdy & Hch & Hw
                     & Hde & Hgo) | (Hneg & _)]); [| lia].
  destruct (send_ready_loop_log _ _ _ _ _ _ Hrdy) as (new0 & Ht0 & Hall0).
  fold sts in Hall0, Hgo.
  destruct (send_chunks_log _ _ _ _ _ _ _ _ Hfuel Hch Hne (Z.le_refl 0))
    as (new1 & Ht1 & Hdata).
  fold fifo in Hdata. cbn [Z.to_nat skipn] in Hdata.
  destruct (cr50_wait_burst_status_spec fuel chip TPM_STS_VALID w1 Hfuel)
    as (r2 & st2 & b2 & w2' & new2 & Hl & Ht2 & Hrd2 & _ & _ & Hres).
  rewrite Hw in Hl. injection Hl as <- <- <- <-. fold sts in Hrd2, Hres.
  destruct Hres as [(_ & pre & data & -> & _ & -> & _ & Hm & _) | (Hneg & _)];
    [| discriminate Hneg].
  destruct (iic_tpm_write_spec _ _ _ _ _ _ Hgo) as (Ht3 & _).
  exists (new0 ++ new1 ++ pre), data.
  split. { rewrite Ht3, Ht2, Ht1, Ht0, <- !app_assoc. reflexivity. }
  split; [| split; [exact Hm | exact Hde]].
  rewrite !written_to_app, (written_to_other _ _ _ Hne Hall0), Hdata.
  assert (Hpre : forallb (is_read_of sts 4) pre = true).
  { rewrite forallb_app in Hrd2. apply andb_true_iff in Hrd2. apply Hrd2. }
  rewrite (written_to_other _ _ _ Hne (reads_at_reg _ _ _ Hpre)).
  cbn [app]. apply app_nil_r.
Qed.

(** X10.  A send that succeeds has written the command to the data FIFO,
    all of it and nothing else: the payloads of its FIFO writes, one after
    the other, are the first [len] bytes of the buffer. *)
Theorem send_writes_the_command fuel chip buf len w r w' :
  (1001 <= fuel)%nat ->
  0 <= len < 2 ^ 32 ->
  let fifo := u8 (TPM_DATA_FIFO (locality (vendor chip))) in
  fifo <> u8 (TPM_STS (locality (vendor chip))) ->
  cr50_tis_i2c_send fuel chip buf len w = Some (r, w') ->
  0 <= r ->
  exists new,
    trace w' = trace w ++ new
    /\ written_to fifo new = firstn (Z.to_nat len) buf.
Proof.
  intros Hfuel Hlen fifo Hne X Hr.
  destruct (cr50_tis_i2c_send_log _ _ _ _ _ _ _ Hfuel Hlen Hne X Hr)
    as (body & data & Ht & Hdata & _).
  eexists. split; [exact Ht |]. subst fifo.
  rewrite written_to_app, Hdata. cbn [written_to flat_map].
  replace (u8 (TPM_STS (locality (vendor chip)))
           =? u8 (TPM_DATA_FIFO (locality (vendor chip)))) with false
    by (symmetry; apply Z.eqb_neq; congruence).
  cbn [andb app]. apply app_nil_r.
Qed.

(** X11.  A send that succeeds ends with the go write, and starts the
    command only on a chip that is done taking data: the last two entries
    of its log are a successful read of the status register with the
    valid bit set and data-expect clear, and the successful 4-byte write
    of the go bit to the status register. *)
Theorem send_ends_with_go fuel chip buf len w r w' :
  (1001 <= fuel)%nat ->
  0 <= len < 2 ^ 32 ->
  let sts := u8 (TPM_STS (locality (vendor chip))) in
  u8 (TPM_DATA_FIFO (locality (vendor chip))) <> sts ->
  cr50_tis_i2c_send fuel chip buf len w = Some (r, w') ->
  0 <= r ->
  exists body data,
    trace w'
    = trace w ++ body
              ++ [EvRead sts 4 0 data;
                  EvWrite sts 4 0 [u8 TPM_STS_GO; 0; 0; 0]]
    /\ Z.land (nth 0 data 0) (u8 TPM_STS_VALID) = u8 TPM_STS_VALID
    /\ Z.land (nth 0 data 0) TPM_STS_DATA_EXPECT = 0.
Proof.
  intros Hfuel Hlen sts Hne X Hr.
  destruct (cr50_tis_i2c_send_log _ _ _ _ _ _ _ Hfuel Hlen Hne X Hr)
    as (body & data & Ht & _ & Hv & Hde).
  exists body, data. auto.
Qed.

(** ** Send: a loop without a bound *)

(** The loop that writes the command, against a chip that answers every
    status read with valid set and a burst count of 1 and takes the
    writes: each round writes a chunk of [Z.min (1 - 1) len = 0] bytes
    and leaves [sent] and [len] as they were, so no number of rounds ends
    it. *)
Lemma send_loop_burst_one rounds :
  forall fuel chip buf len w,
  let sts := u8 (TPM_STS (locality (vendor chip))) in
  let fifo := u8 (TPM_DATA_FIFO (locality (vendor chip))) in
  (forall w0 : world Dev,
     tpm_addr (g_tpm_dev w0) <> 0 ->
     exists data w1,
       iic_tpm_read sts 4 w0 = (0, data, w1)
       /\ Z.land (nth 0 data 0) (u8 TPM_STS_VALID) = u8 TPM_STS_VALID
       /\ read_le16 (skipn 1 data) = 1) ->
  (forall (w0 : world Dev) buffer,
     tpm_addr (g_tpm_dev w0) <> 0 ->
     fst (iic_tpm_write fifo buffer 0 w0) = 0) ->
  tpm_addr (g_tpm_dev w) <> 0 ->
  0 < len < 2 ^ 32 ->
  send_loop rounds fuel chip buf 0 len w = None.
Proof.
  intros fuel chip buf len w sts fifo Hst Hwr Ha Hlen. revert w Ha.
  induction rounds as [| m IH]; intros w Ha; [reflexivity |].
  cbn [send_loop].
  replace (len >? 0) with true by (symmetry; apply Z.gtb_lt; lia).
  destruct fuel as [| n]; [reflexivity |].
  (* the wait returns at its first read *)
  destruct (Hst w Ha) as (data & w1 & E & Hv & Hb).
  destruct (iic_tpm_read_spec _ _ _ _ _ _ E) as (_ & _ & _ & Hg).
  assert (Ha1 : tpm_addr (g_tpm_dev w1) <> 0) by (rewrite Hg; exact Ha).
  assert (Hwait : cr50_wait_burst_status (S n) chip TPM_STS_VALID w
                  = Some (0, nth 0 data 0, 1, w1)).
  { unfold cr50_wait_burst_status. cbn [cr50_wait_burst_status_loop].
    unfold stopwatch_expired, stopwatch_init_msecs_expire,
      CR50_TIMEOUT_LONG_MS.
    replace (clock w + 1000 * 2000 <=? clock w) with false
      by (symmetry; apply Z.leb_gt; lia).
    fold sts. rewrite E. change (negb (0 =? 0)) with false. cbv iota.
    rewrite Hb. apply Z.eqb_eq in Hv. rewrite Hv. reflexivity. }
  rewrite Hwait.
  change (0 <? 0) with false. change (0 >? 0) with false.
  cbn [andb]. cbv iota.
  change (u32 (1 - 1)) with 0.
  replace (Z.min 0 len) with 0 by lia. fold fifo.
  specialize (Hwr w1 (skipn (Z.to_nat 0) buf) Ha1).
  destruct (iic_tpm_write fifo (skipn (Z.to_nat 0) buf) 0 w1)
    as [r2 w2] eqn:Ew.
  destruct (iic_tpm_write_spec _ _ _ _ _ _ Ew) as (_ & _ & _ & Ha2 & _).
  cbn [fst] in Hwr. subst r2.
  change (negb (0 =? 0)) with false. cbv iota.
  change (u32 (0 + 0)) with 0.
  rewrite Z.sub_0_r, (u32_small len) by lia.
  apply IH. rewrite Ha2. exact Ha1.
Qed.

(** X12.  The loop of send that writes the command has no bound of its
    own.  Against a chip that keeps answering the status read with valid
    and command-ready set and a burst count of 1, and takes the writes,
    every round sends a chunk of [Z.min (1 - 1) len = 0] bytes and nothing
    is ever left behind: a send of a command that is not empty does not
    return, whatever fuel it is given. *)
Theorem send_hangs_on_burst_one fuel chip buf len w :
  let sts := u8 (TPM_STS (locality (vendor chip))) in
  let fifo := u8 (TPM_DATA_FIFO (locality (vendor chip))) in
  (forall w0 : world Dev,
     tpm_addr (g_tpm_dev w0) <> 0 ->
     exists data w1,
       iic_tpm_read sts 4 w0 = (0, data, w1)
       /\ Z.land (nth 0 data 0) (u8 TPM_STS_VALID) = u8 TPM_STS_VALID
       /\ Z.land (nth 0 data 0) TPM_STS_COMMAND_READY <> 0
       /\ read_le16 (skipn 1 data) = 1) ->
  (forall (w0 : world Dev) buffer,
     tpm_addr (g_tpm_dev w0) <> 0 ->
     fst (iic_tpm_write fifo buffer 0 w0) = 0) ->
  tpm_addr (g_tpm_dev w) <> 0 ->
  0 < len < 2 ^ 32 ->
  cr50_tis_i2c_send fuel chip buf len w = None.
Proof.
  intros sts fifo Hst Hwr Ha Hlen.
  destruct fuel as [| n]; [reflexivity |].
  unfold cr50_tis_i2c_send. cbn [send_ready_loop].
  (* the chip is ready at the first status read *)
  destruct (Hst w Ha) as (data & w1 & E & _ & Hrdy & _).
  destruct (iic_tpm_read_spec _ _ _ _ _ _ E) as (_ & _ & _ & Hg).
  unfold cr50_tis_i2c_status. fold sts. rewrite E.
  change (0 <? 0) with false. cbv iota.
  apply Z.eqb_neq in Hrdy. rewrite Hrdy. cbn [negb].
  (* and the loop that writes the command never ends *)
  rewrite (send_loop_burst_one (S n) (S n) chip buf len w1);
    [reflexivity | | exact Hwr | rewrite Hg; exact Ha | exact Hlen].
  intros w0 Ha0. destruct (Hst w0 Ha0) as (d & w2 & E0 & Hv & _ & Hb).
  exists d, w2. auto.
Qed.

(** ** The burst/status wait: what it costs *)

Lemma cr50_wait_burst_status_loop_cost n :
  forall chip mask sw w r st b w',
  cr50_wait_burst_status_loop n chip mask sw w = Some (r, st, b, w') ->
  exists new,
    trace w' = trace w ++ new
    /\ (new = [] \/ clock w + 2000 * (Z.of_nat (length new) - 1) < sw)
    /\ (clock w' = clock w \/ clock w' < sw + 4000).
Proof.
  induction n as [| n IH]; intros chip mask sw w r st b w' X;
    [discriminate X |].
  cbn [cr50_wait_burst_status_loop] in X. unfold stopwatch_expired in X.
  destruct (Z.leb_spec sw (clock w)) as [Hexp | Hexp].
  { injection X as _ _ _ <-. exists []. rewrite app_nil_r. auto. }
  destruct (iic_tpm_read _ 4 w) as [[r0 data] w1] eqn:E.
  destruct (iic_tpm_read_spec _ _ _ _ _ _ E) as (Ht & _ & Hc & _).
  assert (Hrec : forall x,
            cr50_wait_burst_status_loop n chip mask sw
              (mdelay CR50_TIMEOUT_SHORT_MS w1) = Some x ->
            x = (r, st, b, w') ->
            exists new,
              trace w' = trace w ++ new
              /\ (new = [] \/ clock w + 2000 * (Z.of_nat (length new) - 1) < sw)
              /\ (clock w' = clock w \/ clock w' < sw + 4000)).
  { intros x Y ->. apply IH in Y. destruct Y as (new & Ht' & Hcnt & Hclk).
    rewrite mdelay_short_clock in Hcnt, Hclk.
    eexists. split.
    { rewrite Ht', mdelay_trace, Ht, <- app_assoc. reflexivity. }
    cbn [app length]. rewrite Nat2Z.inj_succ. split; right.
    - destruct Hcnt as [-> | Hcnt]; cbn [length] in *; lia.
    - lia. }
  destruct (negb (r0 =? 0)); [exact (Hrec _ X eq_refl) |].
  destruct ((Z.land (nth 0 data 0) mask =? mask) && _ && _);
    [| exact (Hrec _ X eq_refl)].
  injection X as _ _ _ <-. eexists. split; [exact Ht |].
  cbn [length]. split; right; lia.
Qed.

(** X13.  One burst/status wait costs at most 1000 reads of the status
    register and less than 2004 ms, whether it finds what it waits for or
    not; it reads four bytes of the status register each time, writes no
    register and leaves [g_tpm_dev] as it was. *)
Theorem cr50_wait_burst_status_cost fuel chip mask w :
  (1001 <= fuel)%nat ->
  let sts := u8 (TPM_STS (locality (vendor chip))) in
  exists r st b w' new,
    cr50_wait_burst_status fuel chip mask w = Some (r, st, b, w')
    /\ trace w' = trace w ++ new
    /\ forallb (is_read_of sts 4) new = true
    /\ writes new = []
    /\ (length new <= 1000)%nat
    /\ clock w <= clock w' < clock w + 2000 * 1000 + 4000
    /\ g_tpm_dev w' = g_tpm_dev w.
Proof.
  intros Hfuel sts.
  destruct (cr50_wait_burst_status_spec fuel chip mask w Hfuel)
    as (r & st & b & w' & new & Hl & Ht & Hrd & Hg & Hc & _).
  fold sts in Hrd. exists r, st, b, w', new.
  split; [exact Hl |]. split; [exact Ht |]. split; [exact Hrd |].
  split; [exact (reads_no_writes _ _ _ Hrd) |].
  unfold cr50_wait_burst_status in Hl.
  destruct (cr50_wait_burst_status_loop_cost _ _ _ _ _ _ _ _ _ Hl)
    as (new' & Ht' & Hcnt & Hclk).
  rewrite Ht in Ht'. apply app_inv_head in Ht'. subst new'.
  unfold stopwatch_init_msecs_expire, CR50_TIMEOUT_LONG_MS in Hcnt, Hclk.
  split; [destruct Hcnt as [-> | Hcnt]; cbn [length]; lia |].
  split; [lia | exact Hg].
Qed.

(** ** Send: a failure never starts the command *)

Section Classify.

(** A property of log entries that holds of every read, of the ready
    write, of every write to the FIFO and of a go write that failed. *)
Variable P : event -> Prop.
Variable chip : tpm_chip.

Let sts := u8 (TPM_STS (locality (vendor chip))).
Let fifo := u8 (TPM_DATA_FIFO (locality (vendor chip))).

Hypothesis P_read : forall reg len ret data, P (EvRead reg len ret data).
Hypothesis P_ready :
  forall rw, P (EvWrite sts 4 rw [u8 TPM_STS_COMMAND_READY; 0; 0; 0]).
Hypothesis P_fifo : forall len ret data, P (EvWrite fifo len ret data).
Hypothesis P_go_failed : P (EvWrite sts 4 (-1) [u8 TPM_STS_GO; 0; 0; 0]).

Lemma reads_all reg len tr :
  forallb (is_read_of reg len) tr = true -> Forall P tr.
Proof.
  induction tr as [| e tr IH]; [constructor |].
  cbn [forallb]. rewrite andb_true_iff. intros (He & Htr).
  constructor; [| exact (IH Htr)].
  destruct e; [apply P_read | discriminate He].
Qed.

Lemma send_ready_loop_all n :
  forall sw w ok w',
  send_ready_loop n chip sw w = Some (ok, w') ->
  exists new, trace w' = trace w ++ new /\ Forall P new.
Proof.
  induction n as [| n IH]; intros sw w ok w' X; [discriminate X |].
  cbn [send_ready_loop] in X.
  destruct (cr50_tis_i2c_status chip w) as [s w1] eqn:Es.
  destruct (cr50_tis_i2c_status_spec _ _ _ _ Es)
    as (r & data & _ & _ & Ht & _).
  fold sts in Ht.
  assert (Hone : exists new, trace w1 = trace w ++ new /\ Forall P new).
  { exists [EvRead sts 4 r data]. split; [exact Ht |].
    constructor; [apply P_read | constructor]. }
  destruct (negb (Z.land s TPM_STS_COMMAND_READY =? 0));
    [injection X as _ <-; exact Hone |].
  destruct (stopwatch_expired sw w1); [injection X as _ <-; exact Hone |].
  destruct (cr50_tis_i2c_ready_spec chip w1) as (rw & Htr & _).
  fold sts in Htr.
  apply IH in X. destruct X as (new & Ht' & Hall).
  exists (EvRead sts 4 r data
            :: EvWrite sts 4 rw [u8 TPM_STS_COMMAND_READY; 0; 0; 0] :: new).
  split. { rewrite Ht', Htr, Ht, <- !app_assoc. reflexivity. }
  constructor; [apply P_read |]. constructor; [apply P_ready | exact Hall].
Qed.

Lemma send_loop_all rounds :
  forall fuel buf sent len w ok sent' w',
  (1001 <= fuel)%nat ->
  send_loop rounds fuel chip buf sent len w = Some (ok, sent', w') ->
  exists new, trace w' = trace w ++ new /\ Forall P new.
Proof.
  induction rounds as [| n IH];
    intros fuel buf sent len w ok sent' w' Hfuel X; [discriminate X |].
  cbn [send_loop] in X.
  destruct (len >? 0).
  2:{ injection X as _ _ <-. exists []. rewrite app_nil_r. auto. }
  destruct (cr50_wait_burst_status_spec fuel chip TPM_STS_VALID w Hfuel)
    as (r & st & b & w1 & new1 & Hl & Ht1 & Hrd1 & _).
  rewrite Hl in X.
  assert (Hall1 : Forall P new1) by exact (reads_all _ _ _ Hrd1).
  destruct (r <? 0); [injection X as _ _ <-; eauto |].
  destruct ((sent >? 0) && _); [injection X as _ _ <-; eauto |].
  fold fifo in X.
  destruct (iic_tpm_write fifo _ _ w1) as [r2 w2] eqn:Ew.
  destruct (iic_tpm_write_spec _ _ _ _ _ _ Ew) as (Ht2 & _).
  assert (Hall2 : exists new, trace w2 = trace w ++ new /\ Forall P new).
  { eexists. split; [rewrite Ht2, Ht1, <- app_assoc; reflexivity |].
    apply Forall_app. split; [exact Hall1 |].
    constructor; [apply P_fifo | constructor]. }
  destruct (negb (r2 =? 0)); [injection X as _ _ <-; exact Hall2 |].
  apply IH in X; [| exact Hfuel].
  destruct X as (new3 & Ht3 & Hall3). destruct Hall2 as (new2 & Ht2' & Hall2).
  exists (new2 ++ new3). split.
  - rewrite Ht3, Ht2', <- app_assoc. reflexivity.
  - apply Forall_app. auto.
Qed.

Lemma send_out_all w :
  exists new, trace (send_out chip w) = trace w ++ new /\ Forall P new.
Proof.
  unfold send_out.
  destruct (cr50_tis_i2c_status chip w) as [s w1] eqn:Es.
  destruct (cr50_tis_i2c_status_spec _ _ _ _ Es)
    as (r & data & _ & _ & Ht & _).
  fold sts in Ht.
  destruct (negb (Z.land s TPM_STS_COMMAND_READY =? 0)).
  - destruct (cr50_tis_i2c_ready_spec chip w1) as (rw & Htr & _).
    fold sts in Htr. eexists. split.
    { rewrite Htr, Ht, <- app_assoc. reflexivity. }
    constructor; [apply P_read |].
    constructor; [apply P_ready | constructor].
  - eexists. split; [exact Ht |].
    constructor; [apply P_read | constructor].
Qed.

Lemma cr50_tis_i2c_send_failed_all fuel buf len w w' :
  (1001 <= fuel)%nat ->
  0 <= len <= INT_MAX ->
  cr50_tis_i2c_send fuel chip buf len w = Some (-1, w') ->
  exists new, trace w' = trace w ++ new /\ Forall P new.
Proof.
  intros Hfuel Hlen X. unfold cr50_tis_i2c_send in X.
  destruct (send_ready_loop fuel chip _ w) as [[ok w0] |] eqn:Erdy;
    [| discriminate X].
  destruct (send_ready_loop_all _ _ _ _ _ Erdy) as (new0 & Ht0 & Hall0).
  destruct ok; [| injection X as <-; eauto].
  destruct (send_loop fuel fuel chip buf 0 len w0)
    as [[[ok1 sent] w1] |] eqn:Eloop; [| discriminate X].
  destruct (send_loop_all _ _ _ _ _ _ _ _ _ Hfuel Eloop)
    as (new1 & Ht1 & Hall1).
  assert (Hout : forall wx newx,
            trace wx = trace w1 ++ newx -> Forall P newx ->
            exists new, trace (send_out chip wx) = trace w ++ new
                        /\ Forall P new).
  { intros wx newx Htx Hallx.
    destruct (send_out_all wx) as (newo & Hto & Hallo).
    exists (new0 ++ new1 ++ newx ++ newo). split.
    - rewrite Hto, Htx, Ht1, Ht0, <- !app_assoc. reflexivity.
    - repeat (apply Forall_app; split); assumption. }
  destruct ok1.
  2:{ injection X as <-. apply (Hout w1 []); [now rewrite app_nil_r | auto]. }
  assert (Hsize : 0 <= len < 2 ^ 32) by (unfold INT_MAX in Hlen; lia).
  destruct (send_loop_spec _ _ _ _ _ _ _ _ _ _ Hfuel (Z.le_refl 0)
              (proj1 Hsize) (proj2 Hsize) Eloop) as (_ & _ & Hok1).
  destruct (Hok1 eq_refl) as (Hsent & _). cbn in Hsent. subst sent.
  destruct (cr50_wait_burst_status_spec fuel chip TPM_STS_VALID w1 Hfuel)
    as (r2 & st & b & w2 & new2 & Hl2 & Ht2 & Hrd2 & _).
  rewrite Hl2 in X.
  assert (Hall2 : Forall P new2) by exact (reads_all _ _ _ Hrd2).
  destruct (r2 <? 0); [injection X as <-; exact (Hout w2 new2 Ht2 Hall2) |].
  destruct (negb (Z.land st TPM_STS_DATA_EXPECT =? 0));
    [injection X as <-; exact (Hout w2 new2 Ht2 Hall2) |].
  fold sts in X.
  destruct (iic_tpm_write sts [u8 TPM_STS_GO; 0; 0; 0] 4 w2)
    as [r3 w3] eqn:Ego.
  destruct (iic_tpm_write_spec _ _ _ _ _ _ Ego) as (Ht3 & Hr3 & _).
  destruct Hr3 as [-> | ->].
  - change (0 <? 0) with false in X. cbv iota in X.
    rewrite to_int_small in X by exact Hlen. injection X as Hbad _. lia.
  - change (-1 <? 0) with true in X. cbv iota in X. injection X as <-.
    apply (Hout w3 (new2 ++ [EvWrite sts 4 (-1) [u8 TPM_STS_GO; 0; 0; 0]])).
    + rewrite Ht3, Ht2, <- app_assoc. reflexivity.
    + apply Forall_app. split; [exact Hall2 |].
      constructor; [exact P_go_failed | constructor].
Qed.

End Classify.

(** X14.  A send that fails has not started the command: when send
    returns -1 its log has no successful write of the go bytes to the
    status register.  (The FIFO and the status register are two
    registers, and the go byte is not the command-ready byte.) *)
Theorem send_failure_never_goes fuel chip buf len w w' :
  (1001 <= fuel)%nat ->
  0 <= len <= INT_MAX ->
  let sts := u8 (TPM_STS (locality (vendor chip))) in
  u8 (TPM_DATA_FIFO (locality (vendor chip))) <> sts ->
  u8 TPM_STS_GO <> u8 TPM_STS_COMMAND_READY ->
  cr50_tis_i2c_send fuel chip buf len w = Some (-1, w') ->
  exists new,
    trace w' = trace w ++ new
    /\ ~ In (EvWrite sts 4 0 [u8 TPM_STS_GO; 0; 0; 0]) new.
Proof.
  intros Hfuel Hlen sts Hne Hgo X.
  set (go := EvWrite sts 4 0 [u8 TPM_STS_GO; 0; 0; 0]).
  assert (P1 : forall reg l ret data, EvRead reg l ret data <> go)
    by (intros; discriminate).
  assert (P2 : forall rw,
            EvWrite sts 4 rw [u8 TPM_STS_COMMAND_READY; 0; 0; 0] <> go).
  { intros rw E. injection E as _ E. apply Hgo. symmetry. exact E. }
  assert (P3 : forall l ret data,
            EvWrite (u8 (TPM_DATA_FIFO (locality (vendor chip)))) l ret data
            <> go).
  { intros l ret d E. injection E as E _. apply Hne. exact E. }
  assert (P4 : EvWrite sts 4 (-1) [u8 TPM_STS_GO; 0; 0; 0] <> go)
    by discriminate.
  destruct (cr50_tis_i2c_send_failed_all (fun e => e <> go) chip
              P1 P2 P3 P4 fuel buf len w w' Hfuel Hlen X)
    as (new & Ht & Hall).
  exists new. split; [exact Ht |].
  intros Hin. rewrite Forall_forall in Hall. exact (Hall _ Hin eq_refl).
Qed.

End Coverage.

(** * Runs on the bench *)

Import Bench.

(** C3 as stated fails: with a failing read of the access register,
    [release_locality] with [force] set logs the failed read and writes
    nothing. *)
Lemma release_locality_forced_no_write :
  fst (fst (iic_tpm_read (u8 (TPM_ACCESS 0)) 1 (boot dead))) = -1
  /\ trace (release_locality chip0 0 1 (boot dead))
     = [EvRead (u8 (TPM_ACCESS 0)) 1 (-1) []]
  /\ writes (trace (release_locality chip0 0 1 (boot dead))) = [].
Proof. repeat split; reflexivity. Qed.

Lemma request_locality_idempotent_run :
  0 <= 0
  /\ iic_tpm_read (u8 (TPM_ACCESS 0)) 1 (boot owned)
     = (0, [0xa0], snd (iic_tpm_read (u8 (TPM_ACCESS 0)) 1 (boot owned)))
  /\ request_locality chip0 0 (boot owned)
     = (0, set_locality 0 chip0,
        snd (iic_tpm_read (u8 (TPM_ACCESS 0)) 1 (boot owned)))
  /\ trace (snd (iic_tpm_read (u8 (TPM_ACCESS 0)) 1 (boot owned)))
     = trace (boot owned) ++ [EvRead (u8 (TPM_ACCESS 0)) 1 0 [0xa0]]
  /\ writes (trace (snd (iic_tpm_read (u8 (TPM_ACCESS 0)) 1 (boot owned))))
     = writes (trace (boot owned)).
Proof.
  assert (H0 : 0 <= 0) by lia.
  assert (E : iic_tpm_read (u8 (TPM_ACCESS 0)) 1 (boot owned)
              = (0, [0xa0],
                 snd (iic_tpm_read (u8 (TPM_ACCESS 0)) 1 (boot owned))))
    by reflexivity.
  split; [exact H0 |]. split; [exact E |].
  apply (request_locality_idempotent chip0 0 (boot owned) [0xa0] _ H0 E).
  reflexivity.
Defined.

(** C4.  The locality acquisition does not time out at the bound the
    code states for it.  Its loop is commented "2s timeout" and the two
    other polling loops of the driver keep the 2000 ms of the long
    timeout by a stopwatch, but this one counts 2000 rounds of a check and
    a delay of [TPM_TIMEOUT] ms, and every check that reaches the chip
    takes the 2 ms settle delay of [iic_tpm_read] besides.  On a chip that
    answers every read and never grants the locality, [request_locality]
    gives up only after 6004 ms, three times the long timeout, while the
    burst/status wait and the send give up on the same chip at 2000 ms. *)
Lemma request_locality_gives_up_after_6s :
  fst (fst (request_locality chip0 0 (boot silent))) = -1
  /\ length (trace (snd (request_locality chip0 0 (boot silent)))) = 2002%nat
  /\ clock (snd (request_locality chip0 0 (boot silent)))
     - clock (boot silent) = 6004 * 1000
  /\ ~ (clock (snd (request_locality chip0 0 (boot silent)))
        - clock (boot silent) <= 2 * (CR50_TIMEOUT_LONG_MS * 1000))
  /\ option_map (fun x => (fst (fst (fst x)), clock (snd x)))
       (cr50_wait_burst_status 1001 chip0 TPM_STS_VALID (boot silent))
     = Some (-1, CR50_TIMEOUT_LONG_MS * 1000)
  /\ option_map (fun x => (fst x, clock (snd x)))
       (cr50_tis_i2c_send 1001 chip0 [1; 2; 3] 3 (boot silent))
     = Some (-1, CR50_TIMEOUT_LONG_MS * 1000).
Proof.
  assert (E : clock (snd (request_locality chip0 0 (boot silent)))
              = 6004000) by (vm_compute; reflexivity).
  split; [vm_compute; reflexivity |]. split; [vm_compute; reflexivity |].
  rewrite E. split; [reflexivity |].
  split; [unfold CR50_TIMEOUT_LONG_MS; cbn [boot clock]; lia |].
  split; vm_compute; reflexivity.
Qed.

Lemma polling_loops_terminate_run :
  (exists new,
     trace (snd (request_locality chip0 0 (boot silent)))
     = trace (boot silent) ++ new
     /\ ((fst (fst (request_locality chip0 0 (boot silent))) = 0 /\ 0 <= 0 /\
          exists pre data,
            new = pre ++ [EvRead (u8 (TPM_ACCESS 0)) 1 0 data]
            /\ Z.land (nth 0 data 0)
                 (Z.lor TPM_ACCESS_ACTIVE_LOCALITY TPM_ACCESS_VALID)
               = Z.lor TPM_ACCESS_ACTIVE_LOCALITY TPM_ACCESS_VALID)
         \/ (fst (fst (request_locality chip0 0 (boot silent))) = -1
             /\ length new = 2002%nat
             /\ clock (boot silent) + 2000 * (1000 * u32 TPM_TIMEOUT)
                <= clock (snd (request_locality chip0 0 (boot silent))))))
  /\ (exists r st b w' new,
        cr50_wait_burst_status 1001 chip0 TPM_STS_VALID (boot silent)
        = Some (r, st, b, w')
        /\ trace w' = trace (boot silent) ++ new
        /\ ((r = 0 /\ existsb (qualifies (u8 TPM_STS_VALID)) new = true)
            \/ (r = -1 /\ no_qualifying (u8 TPM_STS_VALID) new
                /\ clock (boot silent) + 2000 * 1000 <= clock w'
                   < clock (boot silent) + 2000 * 1000 + 4000)))
  /\ (exists ok w' pre r data,
        send_ready_loop 1001 chip0
          (stopwatch_init_msecs_expire CR50_TIMEOUT_LONG_MS (boot silent))
          (boot silent)
        = Some (ok, w')
        /\ trace w'
           = trace (boot silent)
             ++ pre ++ [EvRead (u8 (TPM_STS (locality (vendor chip0)))) 4 r data]
        /\ ((ok = true
             /\ Z.land (status_byte r data) TPM_STS_COMMAND_READY <> 0)
            \/ (ok = false
                /\ Z.land (status_byte r data) TPM_STS_COMMAND_READY = 0
                /\ clock (boot silent) + 2000 * 1000 <= clock w'
                   < clock (boot silent) + 2000 * 1000 + 6000))).
Proof.
  destruct (@polling_loops_terminate tis chip_sim sim_bus) as (A & B & C).
  split; [| split].
  - apply (A chip0 0 (boot silent)
             (fst (fst (request_locality chip0 0 (boot silent))))
             (snd (fst (request_locality chip0 0 (boot silent))))).
    destruct (request_locality chip0 0 (boot silent)) as [[r c] w].
    reflexivity.
  - apply (B 1001%nat chip0 TPM_STS_VALID (boot silent)). lia.
  - apply (C 1001%nat chip0 (boot silent)). lia.
Defined.

Lemma cr50_wait_burst_status_correct_run :
  (1001 <= 1001)%nat
  /\ (exists r st b w' new,
        cr50_wait_burst_status 1001 chip0 TPM_STS_VALID (boot flaky)
        = Some (r, st, b, w')
        /\ trace w' = trace (boot flaky) ++ new
        /\ (r = 0 \/ r = -1)
        /\ (r = 0 <-> existsb (qualifies (u8 TPM_STS_VALID)) new = true)
        /\ (r = 0 ->
            exists pre data,
              new = pre ++ [EvRead (u8 (TPM_STS (locality (vendor chip0))))
                              4 0 data]
              /\ no_qualifying (u8 TPM_STS_VALID) pre
              /\ st = nth 0 data 0
              /\ b = read_le16 (skipn 1 data)
              /\ Z.land st (u8 TPM_STS_VALID) = u8 TPM_STS_VALID
              /\ 1 <= b <= 63)
        /\ (r = -1 -> clock (boot flaky) + 2000 * 1000 <= clock w'))
  /\ cr50_wait_burst_status 1001 chip0 TPM_STS_VALID (boot flaky)
     = Some (0, 0x90, 10,
             world_of (cr50_wait_burst_status 1001 chip0 TPM_STS_VALID
                         (boot flaky)) (boot flaky))
  /\ length (trace (world_of (cr50_wait_burst_status 1001 chip0 TPM_STS_VALID
                                (boot flaky)) (boot flaky))) = 3%nat.
Proof.
  assert (Hfuel : (1001 <= 1001)%nat) by lia.
  split; [exact Hfuel |]. split.
  - exact (proj1 (cr50_wait_burst_status_correct 1001 chip0 TPM_STS_VALID
                    (boot flaky) Hfuel)).
  - split; vm_compute; reflexivity.
Defined.

Lemma send_failure_cancels_run :
  (1001 <= 1001)%nat
  /\ 0 <= 3 <= INT_MAX
  /\ cr50_tis_i2c_send 1001 chip0 [1; 2; 3] 3 (boot refuser)
     = Some (-1, world_of (cr50_tis_i2c_send 1001 chip0 [1; 2; 3] 3
                             (boot refuser)) (boot refuser))
  /\ exists new,
      trace (world_of (cr50_tis_i2c_send 1001 chip0 [1; 2; 3] 3
                         (boot refuser)) (boot refuser))
      = trace (boot refuser) ++ new
      /\ ends_cancelled (u8 (TPM_STS (locality (vendor chip0))))
           TPM_STS_COMMAND_READY new.
Proof.
  assert (Hfuel : (1001 <= 1001)%nat) by lia.
  assert (Hlen : 0 <= 3 <= INT_MAX) by (unfold INT_MAX; lia).
  assert (E : cr50_tis_i2c_send 1001 chip0 [1; 2; 3] 3 (boot refuser)
              = Some (-1, world_of (cr50_tis_i2c_send 1001 chip0 [1; 2; 3] 3
                                      (boot refuser)) (boot refuser)))
    by (vm_compute; reflexivity).
  split; [exact Hfuel |]. split; [exact Hlen |]. split; [exact E |].
  exact (send_failure_cancels 1001 chip0 [1; 2; 3] 3 (boot refuser) _
           Hfuel Hlen E).
Defined.

(** C5 as stated fails for the burst count 1, which the wait takes for
    valid: against a chip that keeps offering it every chunk has
    [Z.min (1 - 1) 3 = 0] bytes, the chunks never add up to the three
    bytes of the command, and the send does not return, whatever fuel it
    is given. *)
Lemma send_burst_one_never_sums :
  (exists st w1,
     cr50_wait_burst_status 1001 chip0 TPM_STS_VALID (boot Stuck)
     = Some (0, st, 1, w1))
  /\ Z.min (1 - 1) 3 = 0
  /\ (forall fuel,
        cr50_tis_i2c_send fuel chip0 [1; 2; 3] 3 (boot Stuck) = None).
Proof.
  split; [eexists; eexists; vm_compute; reflexivity |].
  split; [reflexivity |].
  intros [| n]; [reflexivity |].
  unfold cr50_tis_i2c_send. cbn [send_ready_loop].
  change (cr50_tis_i2c_status chip0 (boot Stuck))
    with (0xc0, snd (cr50_tis_i2c_status chip0 (boot Stuck))).
  cbv beta iota.
  change (negb (Z.land 0xc0 TPM_STS_COMMAND_READY =? 0)) with true.
  cbv beta iota.
  rewrite send_loop_burst_one; [reflexivity | | | | lia].
  - intros w0 Ha0. unfold iic_tpm_read.
    destruct (Z.eqb_spec (tpm_addr (g_tpm_dev w0)) 0) as [Hz | Hz];
      [contradiction |].
    cbn [i2c_write_raw i2c_read_raw stuck_bus negb Z.eqb].
    eexists. eexists. split; [reflexivity |].
    split; vm_compute; reflexivity.
  - intros w0 buffer Ha0. unfold iic_tpm_write.
    destruct (Z.eqb_spec (tpm_addr (g_tpm_dev w0)) 0) as [Hz | Hz];
      [contradiction |].
    reflexivity.
  - cbn. lia.
Qed.

Lemma send_chunking_run :
  (1001 <= 1001)%nat
  /\ 0 <= 3 < 2 ^ 32
  /\ (forall (w0 : world reg_chip) data w1,
        iic_tpm_read (u8 (TPM_STS (locality (vendor chip0)))) 4 w0
        = (0, data, w1) ->
        read_le16 (skipn 1 data) <> 1)
  /\ 3 < Z.of_nat 1001
  /\ cr50_tis_i2c_send 1001 chip0 [1; 2; 3] 3 (boot hungry)
     = Some (3, world_of (cr50_tis_i2c_send 1001 chip0 [1; 2; 3] 3
                            (boot hungry)) (boot hungry))
  /\ (forall r w',
        cr50_tis_i2c_send 1001 chip0 [1; 2; 3] 3 (boot hungry)
        = Some (r, w') ->
        r <> -1 ->
        r = to_int 3
        /\ (0 <= r -> r = 3)
        /\ exists w0 w1 chunks,
            send_ready_loop 1001 chip0
              (stopwatch_init_msecs_expire CR50_TIMEOUT_LONG_MS (boot hungry))
              (boot hungry)
            = Some (true, w0)
            /\ send_chunks 1001 chip0 [1; 2; 3] 0 3 w0 chunks w1
            /\ Forall (fun c => 1 <= fst c <= 63) chunks
            /\ total (map snd chunks) = 3)
  /\ exists r w',
      cr50_tis_i2c_send 1001 chip0 [1; 2; 3] 3 (boot hungry) = Some (r, w')
      /\ (r = -1
          \/ (r = to_int 3
              /\ exists w0 w1 chunks,
                  send_ready_loop 1001 chip0
                    (stopwatch_init_msecs_expire CR50_TIMEOUT_LONG_MS
                       (boot hungry))
                    (boot hungry)
                  = Some (true, w0)
                  /\ send_chunks 1001 chip0 [1; 2; 3] 0 3 w0 chunks w1
                  /\ Forall (fun c => 2 <= fst c <= 63 /\ 1 <= snd c) chunks
                  /\ total (map snd chunks) = 3
                  /\ Z.of_nat (length chunks) <= 3)).
Proof.
  assert (Hfuel : (1001 <= 1001)%nat) by lia.
  assert (Hlen : 0 <= 3 < 2 ^ 32) by lia.
  assert (Hno : forall (w0 : world reg_chip) data w1,
            iic_tpm_read (u8 (TPM_STS (locality (vendor chip0)))) 4 w0
            = (0, data, w1) ->
            read_le16 (skipn 1 data) <> 1).
  { intros w0 data w1 E. unfold iic_tpm_read in E.
    destruct (tpm_addr (g_tpm_dev w0) =? 0); [discriminate E |].
    cbn [i2c_write_raw i2c_read_raw reg_bus reg_write reg_read negb Z.eqb
         hw set_hw mdelay selected] in E.
    change (u8 (TPM_STS (locality (vendor chip0)))) with 1 in E.
    cbn [Z.eqb Pos.eqb negb] in E.
    injection E as <- _.
    destruct (wanted (hw w0) >? 0); vm_compute; discriminate. }
  assert (Hrounds : 3 < Z.of_nat 1001) by lia.
  assert (E : cr50_tis_i2c_send 1001 chip0 [1; 2; 3] 3 (boot hungry)
              = Some (3, world_of (cr50_tis_i2c_send 1001 chip0 [1; 2; 3] 3
                                     (boot hungry)) (boot hungry)))
    by (vm_compute; reflexivity).
  split; [exact Hfuel |]. split; [exact Hlen |]. split; [exact Hno |].
  split; [exact Hrounds |]. split; [exact E |].
  destruct (send_chunking 1001 chip0 [1; 2; 3] 3 (boot hungry) Hfuel Hlen)
    as (Hpart & Htotal).
  split; [exact Hpart | exact (Htotal Hno Hrounds)].
Defined.

Lemma status_read_failure_reads_as_not_ready_run :
  (1001 <= 1001)%nat
  /\ (forall w0 : world unit,
        fst (fst (iic_tpm_read (u8 (TPM_STS (locality (vendor chip0)))) 4 w0))
        = -1)
  /\ cr50_tis_i2c_status chip0 (boot tt)
     = (0, snd (iic_tpm_read (u8 (TPM_STS (locality (vendor chip0)))) 4
                  (boot tt)))
  /\ exists w' rws,
      cr50_tis_i2c_send 1001 chip0 [1; 2; 3] 3 (boot tt) = Some (-1, w')
      /\ trace w'
         = trace (boot tt)
           ++ ready_rounds (u8 (TPM_STS (locality (vendor chip0))))
                TPM_STS_COMMAND_READY rws
           ++ [EvRead (u8 (TPM_STS (locality (vendor chip0)))) 4 (-1) []]
      /\ (333 <= length rws <= 1000)%nat
      /\ clock (boot tt) + 2000 * 1000 <= clock w'.
Proof.
  assert (Hfuel : (1001 <= 1001)%nat) by lia.
  assert (Hdead : forall w0 : world unit,
            fst (fst (iic_tpm_read (u8 (TPM_STS (locality (vendor chip0)))) 4
                        w0)) = -1).
  { intros w0. unfold iic_tpm_read.
    destruct (tpm_addr (g_tpm_dev w0) =? 0); reflexivity. }
  destruct (@status_read_failure_reads_as_not_ready tis unit dead_bus)
    as (A & C).
  split; [exact Hfuel |]. split; [exact Hdead |]. split.
  - apply (A chip0 (boot tt) (-1) []); [reflexivity | lia].
  - exact (C 1001%nat chip0 [1; 2; 3] 3 (boot tt) Hfuel Hdead).
Defined.

Lemma recv_rejects_too_large_run :
  (1001 <= 1001)%nat
  /\ TPM_HEADER_SIZE <= 64
  /\ cr50_tis_i2c_recv 1001 chip0 (repeat 0 64) 64 (boot bloated)
     = Some (-1,
             write_at (repeat 0 64) 0 [0x80; 1; 0; 0; 0; 100; 0; 0; 0; 0],
             world_of (cr50_tis_i2c_recv 1001 chip0 (repeat 0 64) 64
                         (boot bloated)) (boot bloated))
  /\ exists polls,
      trace (world_of (cr50_tis_i2c_recv 1001 chip0 (repeat 0 64) 64
                         (boot bloated)) (boot bloated))
      = trace (boot bloated)
        ++ polls
        ++ [EvRead (u8 (TPM_DATA_FIFO (locality (vendor chip0)))) 10 0
              [0x80; 1; 0; 0; 0; 100; 0; 0; 0; 0]]
      /\ forallb (is_read_of (u8 (TPM_STS (locality (vendor chip0)))) 4) polls
         = true.
Proof.
  assert (Hfuel : (1001 <= 1001)%nat) by lia.
  assert (Hcap : TPM_HEADER_SIZE <= 64) by (cbn; lia).
  split; [exact Hfuel |]. split; [exact Hcap |].
  refine (recv_rejects_too_large 1001 chip0 (repeat 0 64) 64 (boot bloated)
            0x90 10
            (world_of (cr50_wait_burst_status 1001 chip0 TPM_STS_VALID
                         (boot bloated)) (boot bloated))
            [0x80; 1; 0; 0; 0; 100; 0; 0; 0; 0]
            (world_of (cr50_tis_i2c_recv 1001 chip0 (repeat 0 64) 64
                         (boot bloated)) (boot bloated))
            Hfuel Hcap _ _ _ _).
  - vm_compute; reflexivity.
  - cbn. lia.
  - vm_compute; reflexivity.
  - vm_compute; reflexivity.
Defined.

(** C1 as stated fails: the header declares 10 bytes, the chip offers a
    burst of 12; the receive reads the 12 bytes from the FIFO and returns
    12. *)
Lemma recv_reads_past_declared_length :
  exists buf' w',
    cr50_tis_i2c_recv 1001 chip0 (repeat 0 64) 64 (boot overshoot)
    = Some (12, buf', w')
    /\ read_be32 (skipn (Z.to_nat TPM_RSP_SIZE_BYTE) buf') = 10
    /\ trace w'
       = [EvRead (u8 (TPM_STS 0)) 4 0 [0x90; 12; 0; 0];
          EvRead (u8 (TPM_DATA_FIFO 0)) 12 0
            [0x80; 1; 0; 0; 0; 10; 0; 0; 0; 0; 1; 2];
          EvRead (u8 (TPM_STS 0)) 4 0 [0x80; 1; 0; 0]]
    /\ 12 <> read_be32 (skipn (Z.to_nat TPM_RSP_SIZE_BYTE) buf').
Proof.
  eexists. eexists. split; [vm_compute; reflexivity |].
  split; [reflexivity |]. split; [reflexivity |].
  vm_compute. discriminate.
Qed.

Lemma recv_reads_burst_then_expected_run :
  (1001 <= 1001)%nat
  /\ 0 <= 64 < 2 ^ 32
  /\ u8 (TPM_DATA_FIFO (locality (vendor chip0)))
     <> u8 (TPM_STS (locality (vendor chip0)))
  /\ cr50_tis_i2c_recv 1001 chip0 (repeat 0 64) 64 (boot cutoff)
     = Some (-1,
             [0x80; 1; 0; 0; 0; 12; 0; 0; 0; 0] ++ repeat 0 54,
             world_of (cr50_tis_i2c_recv 1001 chip0 (repeat 0 64) 64
                         (boot cutoff)) (boot cutoff))
  /\ asked_of (u8 (TPM_DATA_FIFO (locality (vendor chip0))))
       (trace (world_of (cr50_tis_i2c_recv 1001 chip0 (repeat 0 64) 64
                           (boot cutoff)) (boot cutoff)))
     = [10; 2]
  /\ exists new,
      trace (world_of (cr50_tis_i2c_recv 1001 chip0 (repeat 0 64) 64
                         (boot cutoff)) (boot cutoff))
      = trace (boot cutoff) ++ new
      /\ ((-1 = -1
           /\ asked_of (u8 (TPM_DATA_FIFO (locality (vendor chip0)))) new = [])
          \/ exists st0 b0 w1 r0 data0 w2 later,
              cr50_wait_burst_status 1001 chip0 TPM_STS_VALID (boot cutoff)
              = Some (0, st0, b0, w1)
              /\ 1 <= b0 <= 63
              /\ iic_tpm_read (u8 (TPM_DATA_FIFO (locality (vendor chip0))))
                   b0 w1
                 = (r0, data0, w2)
              /\ trace (world_of (cr50_tis_i2c_recv 1001 chip0 (repeat 0 64)
                                    64 (boot cutoff)) (boot cutoff))
                 = trace w2 ++ later
              /\ asked_of (u8 (TPM_DATA_FIFO (locality (vendor chip0)))) new
                 = b0 :: asked_of
                           (u8 (TPM_DATA_FIFO (locality (vendor chip0))))
                           later
              /\ let expected :=
                   read_be32 (skipn (Z.to_nat TPM_RSP_SIZE_BYTE)
                                (write_at (repeat 0 64) 0 data0)) in
                 Forall (fun l => 1 <= l)
                   (asked_of (u8 (TPM_DATA_FIFO (locality (vendor chip0))))
                      later)
                 /\ b0 + total (asked_of
                                  (u8 (TPM_DATA_FIFO
                                         (locality (vendor chip0)))) later)
                    <= Z.max b0 expected
                 /\ (r0 <> 0 \/ 64 < expected -> -1 = -1 /\ later = [])
                 /\ (-1 = -1 \/ -1 = to_int (Z.max b0 expected))
                 /\ (0 <= -1 ->
                     r0 = 0
                     /\ expected <= 64
                     /\ b0 + total (asked_of
                                      (u8 (TPM_DATA_FIFO
                                             (locality (vendor chip0))))
                                      later)
                        = Z.max b0 expected
                     /\ -1 = Z.max b0 expected
                     /\ (b0 <= expected -> -1 = expected)
                     /\ exists chunks w3,
                         recv_chunks 1001 chip0
                           (u8 (TPM_DATA_FIFO (locality (vendor chip0))))
                           (write_at (repeat 0 64) 0 data0) b0 expected w2
                           chunks
                           ([0x80; 1; 0; 0; 0; 12; 0; 0; 0; 0]
                              ++ repeat 0 54) w3
                         /\ map snd chunks
                            = asked_of
                                (u8 (TPM_DATA_FIFO (locality (vendor chip0))))
                                later)).
Proof.
  assert (Hfuel : (1001 <= 1001)%nat) by lia.
  assert (Hcap : 0 <= 64 < 2 ^ 32) by lia.
  assert (Hne : u8 (TPM_DATA_FIFO (locality (vendor chip0)))
                <> u8 (TPM_STS (locality (vendor chip0))))
    by (vm_compute; discriminate).
  assert (E : cr50_tis_i2c_recv 1001 chip0 (repeat 0 64) 64 (boot cutoff)
              = Some (-1,
                      [0x80; 1; 0; 0; 0; 12; 0; 0; 0; 0] ++ repeat 0 54,
                      world_of (cr50_tis_i2c_recv 1001 chip0 (repeat 0 64) 64
                                  (boot cutoff)) (boot cutoff)))
    by (vm_compute; reflexivity).
  split; [exact Hfuel |]. split; [exact Hcap |]. split; [exact Hne |].
  split; [exact E |]. split; [vm_compute; reflexivity |].
  exact (recv_reads_burst_then_expected 1001 chip0 (repeat 0 64) 64
           (boot cutoff) (-1) _ _ Hfuel Hcap Hne E).
Defined.

(** C9 as stated fails for a chip that does not grant the locality: its
    identity register returns the cr50 constant whenever it is read,
    before the init and after it, and yet init returns -1 without having
    read it, after the request-use write and 2001 reads of the access
    register; nothing is released and the chip is not marked open. *)
Lemma init_needs_the_locality :
  fst (iic_tpm_read (u8 (TPM_DID_VID 0)) 4 (boot keeper))
  = (0, [0xe0; 0x1a; 0x28; 0x00])
  /\ read_le32 [0xe0; 0x1a; 0x28; 0x00] = CR50_DID_VID
  /\ fst (tpm_vendor_init blank 0 0x50 (cold keeper))
     = (-1, set_irq 0 (cr50_vendor_init blank))
  /\ is_open (snd (fst (tpm_vendor_init blank 0 0x50 (cold keeper)))) = 0
  /\ asked_of (u8 (TPM_DID_VID 0))
       (trace (snd (tpm_vendor_init blank 0 0x50 (cold keeper)))) = []
  /\ length (asked_of (u8 (TPM_ACCESS 0))
               (trace (snd (tpm_vendor_init blank 0 0x50 (cold keeper)))))
     = 2001%nat
  /\ writes (trace (snd (tpm_vendor_init blank 0 0x50 (cold keeper))))
     = [EvWrite (u8 (TPM_ACCESS 0)) 1 0 [u8 TPM_ACCESS_REQUEST_USE]]
  /\ fst (iic_tpm_read (u8 (TPM_DID_VID 0)) 4
            (snd (tpm_vendor_init blank 0 0x50 (cold keeper))))
     = (0, [0xe0; 0x1a; 0x28; 0x00]).
Proof.
  repeat split; vm_compute; reflexivity.
Qed.

Lemma tpm_vendor_init_identity_run :
  0x50 <> 0
  /\ tpm_vendor_init blank 0 0x50 (cold lender)
     = (0, set_is_open 1 (set_locality 0 (set_irq 0 (cr50_vendor_init blank))),
        snd (tpm_vendor_init blank 0 0x50 (cold lender)))
  /\ trace (snd (tpm_vendor_init blank 0 0x50 (cold lender)))
     = [EvRead (u8 (TPM_ACCESS 0)) 1 0 [0x80];
        EvWrite (u8 (TPM_ACCESS 0)) 1 0 [u8 TPM_ACCESS_REQUEST_USE];
        EvRead (u8 (TPM_ACCESS 0)) 1 0 [0xa0];
        EvRead (u8 (TPM_DID_VID 0)) 4 0 [0xe0; 0x1a; 0x28; 0x00]]
  /\ fst (fst (tpm_vendor_init blank 0 0x50 (cold stranger))) = -1
  /\ trace (snd (tpm_vendor_init blank 0 0x50 (cold stranger)))
     = [EvRead (u8 (TPM_ACCESS 0)) 1 0 [0x80];
        EvWrite (u8 (TPM_ACCESS 0)) 1 0 [u8 TPM_ACCESS_REQUEST_USE];
        EvRead (u8 (TPM_ACCESS 0)) 1 0 [0xa0];
        EvRead (u8 (TPM_DID_VID 0)) 4 0 [0xe0; 0x1a; 0x28; 0x01];
        EvRead (u8 (TPM_ACCESS 0)) 1 0 [0xa0];
        EvWrite (u8 (TPM_ACCESS 0)) 1 0 [u8 TPM_ACCESS_ACTIVE_LOCALITY]]
  /\ exists req rest,
      trace (snd (tpm_vendor_init blank 0 0x50 (cold lender)))
      = trace (cold lender) ++ req ++ rest
      /\ ((exists d, req = [EvRead (u8 (TPM_ACCESS 0)) 1 0 d])
          \/ (exists rr d rw polls,
                req = EvRead (u8 (TPM_ACCESS 0)) 1 rr d
                        :: EvWrite (u8 (TPM_ACCESS 0)) 1 rw
                             [u8 TPM_ACCESS_REQUEST_USE]
                        :: polls
                /\ shows_all
                     (Z.lor TPM_ACCESS_ACTIVE_LOCALITY TPM_ACCESS_VALID)
                     (EvRead (u8 (TPM_ACCESS 0)) 1 rr d) = false
                /\ forallb (is_read_of (u8 (TPM_ACCESS 0)) 1) polls = true
                /\ (length polls <= 2000)%nat))
      /\ ((forallb
             (fun e =>
                negb (shows_all
                        (Z.lor TPM_ACCESS_ACTIVE_LOCALITY TPM_ACCESS_VALID) e))
             req = true
           /\ length req = 2002%nat
           /\ 0 = -1 /\ rest = []
           /\ is_open
                (set_is_open 1
                   (set_locality 0 (set_irq 0 (cr50_vendor_init blank))))
              = is_open blank)
          \/ ((exists pre d,
                 req = pre ++ [EvRead (u8 (TPM_ACCESS 0)) 1 0 d]
                 /\ shows_all
                      (Z.lor TPM_ACCESS_ACTIVE_LOCALITY TPM_ACCESS_VALID)
                      (EvRead (u8 (TPM_ACCESS 0)) 1 0 d) = true
                 /\ forallb
                      (fun e =>
                         negb (shows_all
                                 (Z.lor TPM_ACCESS_ACTIVE_LOCALITY
                                    TPM_ACCESS_VALID) e))
                      pre = true)
              /\ locality
                   (vendor
                      (set_is_open 1
                         (set_locality 0
                            (set_irq 0 (cr50_vendor_init blank))))) = 0
              /\ exists ri idata,
                  (ri = 0 /\ read_le32 idata = CR50_DID_VID
                   /\ rest = [EvRead (u8 (TPM_DID_VID 0)) 4 0 idata]
                   /\ 0 = 0
                   /\ is_open
                        (set_is_open 1
                           (set_locality 0
                              (set_irq 0 (cr50_vendor_init blank)))) = 1)
                  \/ ((ri = -1 \/ read_le32 idata <> CR50_DID_VID)
                      /\ 0 = -1
                      /\ is_open
                           (set_is_open 1
                              (set_locality 0
                                 (set_irq 0 (cr50_vendor_init blank))))
                         = is_open blank
                      /\ exists rr d,
                          (rr = 0 /\ exists rw,
                             rest = [EvRead (u8 (TPM_DID_VID 0)) 4 ri idata;
                                     EvRead (u8 (TPM_ACCESS 0)) 1 0 d;
                                     EvWrite (u8 (TPM_ACCESS 0)) 1 rw
                                       [u8 TPM_ACCESS_ACTIVE_LOCALITY]])
                          \/ (rr = -1
                              /\ rest = [EvRead (u8 (TPM_DID_VID 0)) 4 ri
                                           idata;
                                         EvRead (u8 (TPM_ACCESS 0)) 1 rr
                                           d])))).
Proof.
  assert (Haddr : 0x50 <> 0) by lia.
  assert (E : tpm_vendor_init blank 0 0x50 (cold lender)
              = (0, set_is_open 1
                      (set_locality 0 (set_irq 0 (cr50_vendor_init blank))),
                 snd (tpm_vendor_init blank 0 0x50 (cold lender))))
    by (vm_compute; reflexivity).
  split; [exact Haddr |]. split; [exact E |].
  split; [vm_compute; reflexivity |]. split; [vm_compute; reflexivity |].
  split; [vm_compute; reflexivity |].
  exact (tpm_vendor_init_identity blank 0 0x50 (cold lender) 0 _ _ Haddr E).
Defined.

(** ** Runs for the rest of the driver *)

Lemma iic_tpm_write_scratch_run :
  iic_tpm_write 5 [1; 2; 3] 3 (boot silent)
  = (0, snd (iic_tpm_write 5 [1; 2; 3] 3 (boot silent)))
  /\ length (tpm_buf (g_tpm_dev (boot silent))) = 64%nat
  /\ length (tpm_buf (g_tpm_dev (snd (iic_tpm_write 5 [1; 2; 3] 3
                                        (boot silent))))) = 64%nat
  /\ firstn 4 (tpm_buf (g_tpm_dev (snd (iic_tpm_write 5 [1; 2; 3] 3
                                          (boot silent)))))
     = [5; 1; 2; 3].
Proof.
  assert (E : iic_tpm_write 5 [1; 2; 3] 3 (boot silent)
              = (0, snd (iic_tpm_write 5 [1; 2; 3] 3 (boot silent))))
    by reflexivity.
  assert (L : length (tpm_buf (g_tpm_dev (boot silent))) = 64%nat)
    by reflexivity.
  split; [exact E |]. split; [exact L |].
  destruct (iic_tpm_write_scratch 5 [1; 2; 3] 3 (boot silent) 0 _ E L)
    as (A & _ & C).
  split; [exact A |].
  apply C; [unfold CR50_MAX_BUFSIZE; lia | cbn; lia].
Defined.

Lemma unset_address_times_out_run :
  (1001 <= 1001)%nat
  /\ tpm_addr (g_tpm_dev (cold silent)) = 0
  /\ TPM_HEADER_SIZE <= 12
  /\ (exists w',
        cr50_tis_i2c_send 1001 chip0 (repeat 7 12) 12 (cold silent)
        = Some (-1, w')
        /\ hw w' = hw (cold silent)
        /\ g_tpm_dev w' = g_tpm_dev (cold silent)
        /\ clock w' = clock (cold silent) + 2000 * 1000
        /\ trace w'
           = trace (cold silent)
             ++ ready_rounds (u8 (TPM_STS (locality (vendor chip0))))
                  TPM_STS_COMMAND_READY (repeat (-1) 1000)
             ++ [EvRead (u8 (TPM_STS (locality (vendor chip0)))) 4 (-1) []])
  /\ (exists w',
        cr50_tis_i2c_recv 1001 chip0 (repeat 7 12) 12 (cold silent)
        = Some (-1, repeat 7 12, w')
        /\ hw w' = hw (cold silent)
        /\ g_tpm_dev w' = g_tpm_dev (cold silent)
        /\ clock w' = clock (cold silent) + 2000 * 1000
        /\ trace w'
           = trace (cold silent)
             ++ repeat (EvRead (u8 (TPM_STS (locality (vendor chip0)))) 4
                          (-1) []) 1000).
Proof.
  assert (Hfuel : (1001 <= 1001)%nat) by lia.
  assert (Ha : tpm_addr (g_tpm_dev (cold silent)) = 0) by reflexivity.
  assert (Hhdr : TPM_HEADER_SIZE <= 12) by (cbn; lia).
  split; [exact Hfuel |]. split; [exact Ha |]. split; [exact Hhdr |].
  destruct (unset_address_times_out 1001 chip0 (repeat 7 12) 12 (cold silent)
              Hfuel Ha) as (Hsend & Hrecv).
  split; [exact Hsend | exact (Hrecv Hhdr)].
Defined.

Lemma request_locality_writes_once_run :
  request_locality chip0 0 (boot silent)
  = (-1, snd (fst (request_locality chip0 0 (boot silent))),
     snd (request_locality chip0 0 (boot silent)))
  /\ tpm_addr (g_tpm_dev (snd (request_locality chip0 0 (boot silent))))
     = tpm_addr (g_tpm_dev (boot silent))
  /\ length (writes (trace (snd (request_locality chip0 0 (boot silent)))))
     = 1%nat.
Proof.
  assert (E : request_locality chip0 0 (boot silent)
              = (-1, snd (fst (request_locality chip0 0 (boot silent))),
                 snd (request_locality chip0 0 (boot silent))))
    by (vm_compute; reflexivity).
  split; [exact E |].
  destruct (request_locality_writes_once chip0 0 (boot silent) _ _ _ E)
    as (_ & A & _ & _).
  split; [exact A |]. vm_compute. reflexivity.
Defined.

Lemma tpm_vendor_init_outcome_run :
  tpm_vendor_init blank 0 0x50 (boot genuine)
  = (0, snd (fst (tpm_vendor_init blank 0 0x50 (boot genuine))),
     snd (tpm_vendor_init blank 0 0x50 (boot genuine)))
  /\ is_open (snd (fst (tpm_vendor_init blank 0 0x50 (boot genuine)))) = 1
  /\ tpm_addr (g_tpm_dev (snd (tpm_vendor_init blank 0 0x50 (boot genuine))))
     = 0x50.
Proof.
  assert (E : tpm_vendor_init blank 0 0x50 (boot genuine)
              = (0, snd (fst (tpm_vendor_init blank 0 0x50 (boot genuine))),
                 snd (tpm_vendor_init blank 0 0x50 (boot genuine))))
    by reflexivity.
  split; [exact E |].
  destruct (tpm_vendor_init_outcome blank 0 0x50 (boot genuine) _ _ _ E)
    as (_ & A & _ & _ & D).
  split; [exact (proj1 (A eq_refl)) |].
  apply D. lia.
Defined.

Lemma init_then_cleanup_run :
  tpm_vendor_init blank 0 0x50 (boot genuine)
  = (0, snd (fst (tpm_vendor_init blank 0 0x50 (boot genuine))),
     snd (tpm_vendor_init blank 0 0x50 (boot genuine)))
  /\ exists r data,
      (r = 0 /\ exists rw,
         trace (tpm_vendor_cleanup
                  (snd (fst (tpm_vendor_init blank 0 0x50 (boot genuine))))
                  (snd (tpm_vendor_init blank 0 0x50 (boot genuine))))
         = trace (snd (tpm_vendor_init blank 0 0x50 (boot genuine)))
           ++ [EvRead (u8 (TPM_ACCESS 0)) 1 0 data;
               EvWrite (u8 (TPM_ACCESS 0)) 1 rw
                 [u8 TPM_ACCESS_ACTIVE_LOCALITY]])
      \/ (r = -1 /\
          trace (tpm_vendor_cleanup
                   (snd (fst (tpm_vendor_init blank 0 0x50 (boot genuine))))
                   (snd (tpm_vendor_init blank 0 0x50 (boot genuine))))
          = trace (snd (tpm_vendor_init blank 0 0x50 (boot genuine)))
            ++ [EvRead (u8 (TPM_ACCESS 0)) 1 r data]).
Proof.
  assert (E : tpm_vendor_init blank 0 0x50 (boot genuine)
              = (0, snd (fst (tpm_vendor_init blank 0 0x50 (boot genuine))),
                 snd (tpm_vendor_init blank 0 0x50 (boot genuine))))
    by reflexivity.
  split; [exact E |].
  exact (init_then_cleanup blank 0 0x50 (boot genuine) _ _ E).
Defined.

Lemma tpm_vendor_probe_correct_run :
  (1000 <= 1000)%nat
  /\ tpm_vendor_probe 1000 0 0x50 (cold leaky)
     = Some (0, world_of (tpm_vendor_probe 1000 0 0x50 (cold leaky))
                  (cold leaky))
  /\ exists r w' new,
      tpm_vendor_probe 1000 0 0x50 (cold leaky) = Some (r, w')
      /\ trace w' = trace (cold leaky) ++ new
      /\ new <> []
      /\ forallb (is_read_of (u8 (TPM_ACCESS 0)) 1) new = true
      /\ writes new = []
      /\ tpm_addr (g_tpm_dev w') = 0x50
      /\ tpm_bus (g_tpm_dev w') = 0
      /\ (0x50 = 0 -> r = -1)
      /\ ((r = 0
           /\ exists pre data,
               new = pre ++ [EvRead (u8 (TPM_ACCESS 0)) 1 0 data]
               /\ Z.land (nth 0 data 0) TPM_STS_VALID <> 0
               /\ forallb (fun e => negb (shows TPM_STS_VALID e)) pre = true)
          \/ ((r = 0 \/ r = -1)
              /\ forallb (fun e => negb (shows TPM_STS_VALID e)) new = true
              /\ clock (cold leaky) + 2000 * 1000 <= clock w'
                 < clock (cold leaky) + 2000 * 1000 + 4000
              /\ (r = 0 ->
                  exists pre d,
                    new = pre ++ [EvRead (u8 (TPM_ACCESS 0)) 1 (-1) d]))).
Proof.
  assert (Hfuel : (1000 <= 1000)%nat) by lia.
  split; [exact Hfuel |]. split; [vm_compute; reflexivity |].
  exact (tpm_vendor_probe_correct 1000 0 0x50 (cold leaky) Hfuel).
Defined.

Lemma recv_stays_in_buffer_run :
  (1001 <= 1001)%nat
  /\ 0 <= 64 < 2 ^ 32
  /\ u8 (TPM_DATA_FIFO (locality (vendor chip0)))
     <> u8 (TPM_STS (locality (vendor chip0)))
  /\ (63 <= length (repeat 0 64))%nat
  /\ (Z.to_nat 64 <= length (repeat 0 64))%nat
  /\ cr50_tis_i2c_recv 1001 chip0 (repeat 0 64) 64 (boot talker)
     = Some (12, [0x80; 1; 0; 0; 0; 12; 0; 0; 0; 0; 7; 8] ++ repeat 0 52,
             world_of (cr50_tis_i2c_recv 1001 chip0 (repeat 0 64) 64
                         (boot talker)) (boot talker))
  /\ length ([0x80; 1; 0; 0; 0; 12; 0; 0; 0; 0; 7; 8] ++ repeat 0 52)
     = length (repeat 0 64)
  /\ 12 <= Z.of_nat (length (repeat 0 64))
  /\ exists new,
      trace (world_of (cr50_tis_i2c_recv 1001 chip0 (repeat 0 64) 64
                         (boot talker)) (boot talker))
      = trace (boot talker) ++ new
      /\ writes new = [].
Proof.
  assert (Hfuel : (1001 <= 1001)%nat) by lia.
  assert (Hcap : 0 <= 64 < 2 ^ 32) by lia.
  assert (Hne : u8 (TPM_DATA_FIFO (locality (vendor chip0)))
                <> u8 (TPM_STS (locality (vendor chip0))))
    by (vm_compute; discriminate).
  assert (H63 : (63 <= length (repeat 0 64))%nat)
    by (rewrite repeat_length; lia).
  assert (Hlen : (Z.to_nat 64 <= length (repeat 0 64))%nat)
    by (rewrite repeat_length; lia).
  assert (E : cr50_tis_i2c_recv 1001 chip0 (repeat 0 64) 64 (boot talker)
              = Some (12,
                      [0x80; 1; 0; 0; 0; 12; 0; 0; 0; 0; 7; 8] ++ repeat 0 52,
                      world_of (cr50_tis_i2c_recv 1001 chip0 (repeat 0 64) 64
                                  (boot talker)) (boot talker)))
    by (vm_compute; reflexivity).
  repeat (split; [assumption |]).
  exact (recv_stays_in_buffer 1001 chip0 (repeat 0 64) 64 (boot talker)
           12 _ _ Hfuel Hcap Hne H63 Hlen E).
Defined.

Lemma recv_returns_fifo_bytes_run :
  (1001 <= 1001)%nat
  /\ 0 <= 64 < 2 ^ 32
  /\ u8 (TPM_DATA_FIFO (locality (vendor chip0)))
     <> u8 (TPM_STS (locality (vendor chip0)))
  /\ cr50_tis_i2c_recv 1001 chip0 (repeat 0 64) 64 (boot talker)
     = Some (12, [0x80; 1; 0; 0; 0; 12; 0; 0; 0; 0; 7; 8] ++ repeat 0 52,
             world_of (cr50_tis_i2c_recv 1001 chip0 (repeat 0 64) 64
                         (boot talker)) (boot talker))
  /\ 0 <= 12
  /\ exists new,
      trace (world_of (cr50_tis_i2c_recv 1001 chip0 (repeat 0 64) 64
                         (boot talker)) (boot talker))
      = trace (boot talker) ++ new
      /\ firstn (Z.to_nat 12)
           ([0x80; 1; 0; 0; 0; 12; 0; 0; 0; 0; 7; 8] ++ repeat 0 52)
         = read_from (u8 (TPM_DATA_FIFO (locality (vendor chip0)))) new
      /\ 1 <= 12 <= Z.max 63 64.
Proof.
  assert (Hfuel : (1001 <= 1001)%nat) by lia.
  assert (Hcap : 0 <= 64 < 2 ^ 32) by lia.
  assert (Hne : u8 (TPM_DATA_FIFO (locality (vendor chip0)))
                <> u8 (TPM_STS (locality (vendor chip0))))
    by (vm_compute; discriminate).
  assert (E : cr50_tis_i2c_recv 1001 chip0 (repeat 0 64) 64 (boot talker)
              = Some (12,
                      [0x80; 1; 0; 0; 0; 12; 0; 0; 0; 0; 7; 8] ++ repeat 0 52,
                      world_of (cr50_tis_i2c_recv 1001 chip0 (repeat 0 64) 64
                                  (boot talker)) (boot talker)))
    by (vm_compute; reflexivity).
  assert (Hr : 0 <= 12) by lia.
  repeat (split; [assumption |]).
  exact (recv_returns_fifo_bytes 1001 chip0 (repeat 0 64) 64 (boot talker)
           12 _ _ Hfuel Hcap Hne E Hr).
Defined.

Lemma recv_first_chunk_unchecked_run :
  (1001 <= 1001)%nat
  /\ TPM_HEADER_SIZE <= 10 < 2 ^ 32
  /\ cr50_tis_i2c_recv 1001 chip0 (repeat 0 10) 10 (boot overshoot)
     = Some (12, [0x80; 1; 0; 0; 0; 10; 0; 0; 0; 0; 1; 2],
             world_of (cr50_tis_i2c_recv 1001 chip0 (repeat 0 10) 10
                         (boot overshoot)) (boot overshoot))
  /\ (Z.to_nat 12
      <= length [0x80; 1; 0; 0; 0; 10; 0; 0; 0; 0; 1; 2])%nat
  /\ (length (repeat 0 10)
      < length [0x80; 1; 0; 0; 0; 10; 0; 0; 0; 0; 1; 2])%nat.
Proof.
  assert (Hfuel : (1001 <= 1001)%nat) by lia.
  assert (Hcap : TPM_HEADER_SIZE <= 10 < 2 ^ 32) by (cbn; lia).
  assert (Hne : u8 (TPM_DATA_FIFO (locality (vendor chip0)))
                <> u8 (TPM_STS (locality (vendor chip0))))
    by (vm_compute; discriminate).
  assert (E : cr50_tis_i2c_recv 1001 chip0 (repeat 0 10) 10 (boot overshoot)
              = Some (12, [0x80; 1; 0; 0; 0; 10; 0; 0; 0; 0; 1; 2],
                      world_of (cr50_tis_i2c_recv 1001 chip0 (repeat 0 10) 10
                                  (boot overshoot)) (boot overshoot)))
    by (vm_compute; reflexivity).
  split; [exact Hfuel |]. split; [exact Hcap |]. split; [exact E |].
  destruct (recv_first_chunk_unchecked 1001 chip0 (repeat 0 10) 10
              (boot overshoot) 0x90 12
              (world_of (cr50_wait_burst_status 1001 chip0 TPM_STS_VALID
                           (boot overshoot)) (boot overshoot))
              [0x80; 1; 0; 0; 0; 10; 0; 0; 0; 0; 1; 2]
              (snd (iic_tpm_read (u8 (TPM_DATA_FIFO (locality (vendor chip0))))
                      12
                      (world_of (cr50_wait_burst_status 1001 chip0
                                   TPM_STS_VALID (boot overshoot))
                         (boot overshoot))))
              12 [0x80; 1; 0; 0; 0; 10; 0; 0; 0; 0; 1; 2]
              (world_of (cr50_tis_i2c_recv 1001 chip0 (repeat 0 10) 10
                           (boot overshoot)) (boot overshoot))
              Hfuel Hcap Hne) as (A & C); try exact E.
  - vm_compute; reflexivity.
  - cbn. lia.
  - vm_compute; reflexivity.
  - split; [exact A |]. apply C. cbn. lia.
Defined.

Lemma recv_always_returns_run :
  (1001 <= 1001)%nat
  /\ 0 <= 64 <= INT_MAX
  /\ 64 < Z.of_nat 1001
  /\ exists r buf' w',
      cr50_tis_i2c_recv 1001 chip0 (repeat 0 64) 64 (boot silent)
      = Some (r, buf', w')
      /\ (r = -1 \/ 1 <= r <= Z.max 63 64).
Proof.
  assert (Hfuel : (1001 <= 1001)%nat) by lia.
  assert (Hcap : 0 <= 64 <= INT_MAX) by (unfold INT_MAX; lia).
  assert (Hrounds : 64 < Z.of_nat 1001) by lia.
  repeat (split; [assumption |]).
  exact (recv_always_returns 1001 chip0 (repeat 0 64) 64 (boot silent)
           Hfuel Hcap Hrounds).
Defined.

Lemma send_writes_the_command_run :
  (1001 <= 1001)%nat
  /\ 0 <= 3 < 2 ^ 32
  /\ cr50_tis_i2c_send 1001 chip0 [1; 2; 3] 3 (boot taker)
     = Some (3, world_of (cr50_tis_i2c_send 1001 chip0 [1; 2; 3] 3
                            (boot taker)) (boot taker))
  /\ exists new,
      trace (world_of (cr50_tis_i2c_send 1001 chip0 [1; 2; 3] 3
                         (boot taker)) (boot taker))
      = trace (boot taker) ++ new
      /\ written_to (u8 (TPM_DATA_FIFO (locality (vendor chip0)))) new
         = firstn (Z.to_nat 3) [1; 2; 3].
Proof.
  assert (Hfuel : (1001 <= 1001)%nat) by lia.
  assert (Hlen : 0 <= 3 < 2 ^ 32) by lia.
  assert (Hne : u8 (TPM_DATA_FIFO (locality (vendor chip0)))
                <> u8 (TPM_STS (locality (vendor chip0))))
    by (vm_compute; discriminate).
  assert (E : cr50_tis_i2c_send 1001 chip0 [1; 2; 3] 3 (boot taker)
              = Some (3, world_of (cr50_tis_i2c_send 1001 chip0 [1; 2; 3] 3
                                     (boot taker)) (boot taker)))
    by (vm_compute; reflexivity).
  assert (Hr : 0 <= 3) by lia.
  split; [exact Hfuel |]. split; [exact Hlen |]. split; [exact E |].
  exact (send_writes_the_command 1001 chip0 [1; 2; 3] 3 (boot taker) 3 _
           Hfuel Hlen Hne E Hr).
Defined.

Lemma send_ends_with_go_run :
  (1001 <= 1001)%nat
  /\ 0 <= 3 < 2 ^ 32
  /\ cr50_tis_i2c_send 1001 chip0 [1; 2; 3] 3 (boot taker)
     = Some (3, world_of (cr50_tis_i2c_send 1001 chip0 [1; 2; 3] 3
                            (boot taker)) (boot taker))
  /\ exists body data,
      trace (world_of (cr50_tis_i2c_send 1001 chip0 [1; 2; 3] 3
                         (boot taker)) (boot taker))
      = trace (boot taker) ++ body
        ++ [EvRead (u8 (TPM_STS (locality (vendor chip0)))) 4 0 data;
            EvWrite (u8 (TPM_STS (locality (vendor chip0)))) 4 0
              [u8 TPM_STS_GO; 0; 0; 0]]
      /\ Z.land (nth 0 data 0) (u8 TPM_STS_VALID) = u8 TPM_STS_VALID
      /\ Z.land (nth 0 data 0) TPM_STS_DATA_EXPECT = 0.
Proof.
  assert (Hfuel : (1001 <= 1001)%nat) by lia.
  assert (Hlen : 0 <= 3 < 2 ^ 32) by lia.
  assert (Hne : u8 (TPM_DATA_FIFO (locality (vendor chip0)))
                <> u8 (TPM_STS (locality (vendor chip0))))
    by (vm_compute; discriminate).
  assert (E : cr50_tis_i2c_send 1001 chip0 [1; 2; 3] 3 (boot taker)
              = Some (3, world_of (cr50_tis_i2c_send 1001 chip0 [1; 2; 3] 3
                                     (boot taker)) (boot taker)))
    by (vm_compute; reflexivity).
  assert (Hr : 0 <= 3) by lia.
  split; [exact Hfuel |]. split; [exact Hlen |]. split; [exact E |].
  exact (send_ends_with_go 1001 chip0 [1; 2; 3] 3 (boot taker) 3 _
           Hfuel Hlen Hne E Hr).
Defined.

Lemma send_failure_never_goes_run :
  (1001 <= 1001)%nat
  /\ 0 <= 3 <= INT_MAX
  /\ u8 TPM_STS_GO <> u8 TPM_STS_COMMAND_READY
  /\ cr50_tis_i2c_send 1001 chip0 [1; 2; 3] 3 (boot refuser)
     = Some (-1, world_of (cr50_tis_i2c_send 1001 chip0 [1; 2; 3] 3
                             (boot refuser)) (boot refuser))
  /\ exists new,
      trace (world_of (cr50_tis_i2c_send 1001 chip0 [1; 2; 3] 3
                         (boot refuser)) (boot refuser))
      = trace (boot refuser) ++ new
      /\ ~ In (EvWrite (u8 (TPM_STS (locality (vendor chip0)))) 4 0
                 [u8 TPM_STS_GO; 0; 0; 0]) new.
Proof.
  assert (Hfuel : (1001 <= 1001)%nat) by lia.
  assert (Hlen : 0 <= 3 <= INT_MAX) by (unfold INT_MAX; lia).
  assert (Hne : u8 (TPM_DATA_FIFO (locality (vendor chip0)))
                <> u8 (TPM_STS (locality (vendor chip0))))
    by (vm_compute; discriminate).
  assert (Hgo : u8 TPM_STS_GO <> u8 TPM_STS_COMMAND_READY)
    by (vm_compute; discriminate).
  assert (E : cr50_tis_i2c_send 1001 chip0 [1; 2; 3] 3 (boot refuser)
              = Some (-1, world_of (cr50_tis_i2c_send 1001 chip0 [1; 2; 3] 3
                                      (boot refuser)) (boot refuser)))
    by (vm_compute; reflexivity).
  split; [exact Hfuel |]. split; [exact Hlen |]. split; [exact Hgo |].
  split; [exact E |].
  exact (send_failure_never_goes 1001 chip0 [1; 2; 3] 3 (boot refuser) _
           Hfuel Hlen Hne Hgo E).
Defined.

Lemma send_hangs_on_burst_one_run :
  tpm_addr (g_tpm_dev (boot Stuck)) <> 0
  /\ 0 < 3 < 2 ^ 32
  /\ cr50_tis_i2c_send 5000 chip0 [1; 2; 3] 3 (boot Stuck) = None.
Proof.
  assert (Ha : tpm_addr (g_tpm_dev (boot Stuck)) <> 0) by (cbn; lia).
  assert (Hlen : 0 < 3 < 2 ^ 32) by lia.
  split; [exact Ha |]. split; [exact Hlen |].
  apply (send_hangs_on_burst_one 5000 chip0 [1; 2; 3] 3 (boot Stuck));
    try assumption.
  - intros w0 Ha0. unfold iic_tpm_read.
    destruct (Z.eqb_spec (tpm_addr (g_tpm_dev w0)) 0) as [Hz | Hz];
      [contradiction |].
    cbn [i2c_write_raw i2c_read_raw stuck_bus negb Z.eqb].
    eexists. eexists. split; [reflexivity |].
    repeat split; vm_compute; congruence.
  - intros w0 buffer Ha0. unfold iic_tpm_write.
    destruct (Z.eqb_spec (tpm_addr (g_tpm_dev w0)) 0) as [Hz | Hz];
      [contradiction |].
    reflexivity.
Defined.

Lemma cr50_wait_burst_status_cost_run :
  (1001 <= 1001)%nat
  /\ exists r st b w' new,
      cr50_wait_burst_status 1001 chip0 TPM_STS_VALID (boot flaky)
      = Some (r, st, b, w')
      /\ trace w' = trace (boot flaky) ++ new
      /\ forallb (is_read_of (u8 (TPM_STS (locality (vendor chip0)))) 4) new
         = true
      /\ writes new = []
      /\ (length new <= 1000)%nat
      /\ clock (boot flaky) <= clock w'
         < clock (boot flaky) + 2000 * 1000 + 4000
      /\ g_tpm_dev w' = g_tpm_dev (boot flaky).
Proof.
  assert (Hfuel : (1001 <= 1001)%nat) by lia.
  split; [exact Hfuel |].
  exact (cr50_wait_burst_status_cost 1001 chip0 TPM_STS_VALID (boot flaky)
           Hfuel).
Defined.
